(** * Payment reconciliation and credit ledger

    A shallow embedding of the payment-reconciliation core of the backend:

    - [src/utils/razorpay.js]: the two signature verifiers;
    - [services/credits.js] (src/unnamed/part_006): [getRequiredCredits],
      [creditCredits], [debitCredits];
    - [src/routes/payments.js]: the client [/verify] endpoint and the
      provider webhook handler;
    - [routes/api.js] (src/unnamed/part_004): the debit/refund envelope of the
      [/upload] handler and the progress stream;
    - [src/routes/payments.js]: [/create-order];
    - [middlewares/auth.js] (in src/lib/prismaClient.js), [src/utils/jwt.js]
      and [src/routes/auth.js]: [requireAuth], the tokens, [/register],
      [/login] and [/me];
    - [src/app.js]: the start-up check and the error handler;
    - [jobs/lowCreditNotifier.js] with [utils/email.js] (src/unnamed/part_007),
      and the levels of [utils/logger.js] (src/unnamed/part_008);
    - the persisted layout of the migrations (src/unnamed/part_003).

    The store is modelled as a record of four tables.  A Prisma call is a
    computation in a small state-and-exception monad; [$transaction] runs such
    a computation and restores the store when it throws.  Handlers run one at
    a time (each transaction is one atomic step).

    INTEGER columns and JavaScript numbers that hold integers are [Z]; the
    writes that compute or take a new value from outside ([increment] on a
    balance, [payment.create]) check the 32-bit range of the column as the
    store does.  TEXT columns and JavaScript strings are [string];
    [undefined]/[null] is [None].  The payload of a webhook is the provider's
    JSON shape, ids as strings and amounts as integers, with every field
    optional and read with optional chaining as the handler does; the one
    field the handler calls a method on, the receipt, may also be a value that
    is not a string ([Parsed]).

    Two environments are told apart: the one the process was started with,
    which the modules loaded by app.js's imports see (utils/jwt.js reads
    [JWT_SECRET] there, once), and the one after app.js has run
    [dotenv.config()], which the handlers see on every request. *)

From stdpp Require Import gmap strings list pretty.
From Stdlib Require Import ZArith Ascii.

Local Open Scope string_scope.
Local Open Scope list_scope.
Local Open Scope Z_scope.

(** ** Exceptions *)

(** What the modelled code can throw.  [P2002] (unique constraint), [P2003]
    (foreign key) and [P2025] (record to update not found) are Prisma's known
    request errors; [IntegerOutOfRange] is the error of a write that would put
    a value outside the 32-bit range into an INTEGER column;
    [InsufficientCredits] is the [Error('Insufficient credits')] of
    [debitCredits], the only error carrying a [statusCode]; [MulterError] is
    the error of the upload middleware. *)
Inductive exn : Type :=
  | P2002
  | P2003
  | P2025
  | PrismaValidationError
  | IntegerOutOfRange
  | InsufficientCredits
  | TypeError
  | ZodError
  | MulterError
  | ProcessingError (msg : string).

Definition statusCode (e : exn) : option Z :=
  match e with
  | InsufficientCredits => Some 402
  | _ => None
  end.

Definition message (e : exn) : string :=
  match e with
  | InsufficientCredits => "Insufficient credits"
  | ProcessingError msg => msg
  | P2002 => "Unique constraint failed"
  | P2003 => "Foreign key constraint failed"
  | P2025 => "Record to update not found"
  | PrismaValidationError => "Invalid invocation"
  | IntegerOutOfRange => "Value out of range for the type"
  | TypeError => "TypeError"
  | ZodError => "ZodError"
  | MulterError => "Too many files"
  end.

Inductive result (A : Type) : Type :=
  | Ok (a : A)
  | Throw (e : exn).
Arguments Ok {A} a.
Arguments Throw {A} e.

(** ** JavaScript truthiness on the values the handlers test *)

Definition truthy_string (s : option string) : bool :=
  match s with
  | Some (String _ _) => true
  | _ => false
  end.

Definition truthy_num (n : option Z) : bool :=
  match n with
  | Some n => negb (n =? 0)
  | None => false
  end.

(** [a || b] on optional strings and on optional numbers. *)
Definition or_string (a b : option string) : option string :=
  if truthy_string a then a else b.

Definition or_num (a b : option Z) : option Z :=
  if truthy_num a then a else b.

(** [s.split(':')[0]]: the text before the first colon. *)
Fixpoint split_colon_0 (s : string) : string :=
  match s with
  | EmptyString => EmptyString
  | String c r => if Ascii.eqb c ":"%char then EmptyString else String c (split_colon_0 r)
  end.

(** A template literal's rendering of a value that may be [null]. *)
Definition render (s : option string) : string :=
  match s with
  | Some s => s
  | None => "null"
  end.

(** ** Persisted state (src/unnamed/part_003) *)

Inductive PaymentStatus : Type := created | paid | failed | refunded.

Inductive CreditLedgerType : Type := purchase | debit | refund | admin_adjustment.

Module Payment.
Record t : Type := mk {
  id : Z;
  userId : Z;
  razorpayOrderId : string;
  razorpayPaymentId : option string;
  razorpaySignature : option string;
  amountPaise : Z;
  creditsPurchased : Z;
  status : PaymentStatus
}.
End Payment.

Module CreditLedger.
Record t : Type := mk {
  userId : Z;
  delta : Z;
  type : CreditLedgerType;
  reason : string;
  relatedId : option string
}.
End CreditLedger.

(** The JSON body of a provider event:
    [{id, event, payload: {payment: {entity: {id, amount, order_id,
    notes: {website_id}}}, order: {entity: {id, amount, receipt}}}}]. *)
Module Event.
Record payment_entity : Type := mkPayment {
  pid : option string;
  pamount : option Z;
  order_id : option string;
  website_id : option string
}.
Record order_entity : Type := mkOrder {
  oid : option string;
  oamount : option Z;
  receipt : option string
}.
Record t : Type := mk {
  id : option string;
  event : option string;
  payment : option payment_entity;
  order : option order_entity
}.
End Event.

(** What [JSON.parse] gives for a body of that shape.  The handler reads
    every field with optional chaining and compares or stores what it finds,
    except the receipt, on which it calls [.split]: [NonStringReceipt payload]
    is a body whose [order.entity.receipt] is a truthy value that is not a
    string (a number, [true], an array, an object) and whose other fields are
    those of [payload]. *)
Inductive Parsed : Type :=
  | Typed (payload : Event.t)
  | NonStringReceipt (payload : Event.t).

(** The status column of WebhookEvent is TEXT; these are the values the code
    writes. *)
Inductive EventStatus : Type :=
  | processing
  | ignored
  | no_local_order
  | amount_mismatch
  | processed
  | error.

Module WebhookEvent.
(** [payload = None] is the empty object written with the marker. *)
Record t : Type := mk {
  status : EventStatus;
  payload : option Event.t
}.
End WebhookEvent.

(** The four tables.  [users] maps a user id to its [credits] column (the only
    User column this subsystem reads or writes); [webhookEvents] is keyed by
    [eventId], the column that carries the unique index; the CreditLedger rows
    are kept in insertion order. *)
Record DB : Type := mkDB {
  users : gmap Z Z;
  payments : list Payment.t;
  creditLedger : list CreditLedger.t;
  webhookEvents : gmap string WebhookEvent.t
}.

(** ** The transaction monad *)

Definition Tx (A : Type) : Type := DB -> result (A * DB).

Definition ret {A} (a : A) : Tx A := fun db => Ok (a, db).

Definition throw {A} (e : exn) : Tx A := fun _ => Throw e.

Definition bind {A B} (m : Tx A) (k : A -> Tx B) : Tx B :=
  fun db =>
    match m db with
    | Ok (a, db') => k a db'
    | Throw e => Throw e
    end.

Notation "'let*' x ':=' m 'in' k" := (bind m (fun x => k))
  (at level 10, x name, m at level 100, k at level 200, only parsing).
Notation "'run' m 'in' k" := (bind m (fun _ => k))
  (at level 10, m at level 100, k at level 200, only parsing).

(** [prisma.$transaction(cb)]: the writes of [cb] are kept when it returns and
    dropped when it throws. *)
Definition transaction {A} (cb : Tx A) (db : DB) : DB * result A :=
  match cb db with
  | Ok (a, db') => (db', Ok a)
  | Throw e => (db, Throw e)
  end.

(** A single awaited call outside any transaction. *)
Definition await {A} (m : Tx A) (db : DB) : DB * result A := transaction m db.

(** ** Prisma calls *)

Definition set_users (f : gmap Z Z -> gmap Z Z) (db : DB) : DB :=
  mkDB (f (users db)) (payments db) (creditLedger db) (webhookEvents db).

Definition set_payments (f : list Payment.t -> list Payment.t) (db : DB) : DB :=
  mkDB (users db) (f (payments db)) (creditLedger db) (webhookEvents db).

Definition set_creditLedger (f : list CreditLedger.t -> list CreditLedger.t) (db : DB) : DB :=
  mkDB (users db) (payments db) (f (creditLedger db)) (webhookEvents db).

Definition set_webhookEvents
    (f : gmap string WebhookEvent.t -> gmap string WebhookEvent.t) (db : DB) : DB :=
  mkDB (users db) (payments db) (creditLedger db) (f (webhookEvents db)).

(** [user.findUnique({ where: { id }, select: { credits: true } })] *)
Definition user_findUnique (uid : Z) : Tx (option Z) :=
  fun db => Ok (users db !! uid, db).

(** The values of an INTEGER column: 32-bit signed integers. *)
Definition int4 (n : Z) : bool := (-2147483648 <=? n) && (n <=? 2147483647).

(** [user.update({ where: { id }, data: { credits: { increment: n } } })].
    [credits] is an INTEGER column: an increment that is not itself an
    INTEGER, or that takes the balance out of the range, is refused.  Returns
    the updated balance. *)
Definition user_update_increment (uid n : Z) : Tx Z :=
  fun db =>
    if negb (int4 n) then Throw IntegerOutOfRange
    else
      match users db !! uid with
      | Some c =>
          if int4 (c + n) then Ok (c + n, set_users (insert uid (c + n)) db)
          else Throw IntegerOutOfRange
      | None => Throw P2025
      end.

(** [user.update({ where: { id }, data: { credits: { decrement: n } } })], as
    [debitCredits] calls it: after the check [credits < amount] has passed,
    so that for an amount that is not negative the new balance lies between 0
    and the stored one and the range of the column cannot be left. *)
Definition user_update_decrement (uid n : Z) : Tx Z :=
  fun db =>
    match users db !! uid with
    | Some c => Ok (c - n, set_users (insert uid (c - n)) db)
    | None => Throw P2025
    end.

(** [creditLedger.create({ data })]; the row's [userId] is a foreign key into
    User. *)
Definition creditLedger_create (row : CreditLedger.t) : Tx unit :=
  fun db =>
    match users db !! CreditLedger.userId row with
    | Some _ => Ok (tt, set_creditLedger (fun l => l ++ [row]) db)
    | None => Throw P2003
    end.

Definition has_relatedId (key : string) (row : CreditLedger.t) : bool :=
  match CreditLedger.relatedId row with
  | Some k => String.eqb k key
  | None => false
  end.

(** [creditLedger.findFirst({ where: { relatedId: key } })] *)
Definition creditLedger_findFirst (key : string) : Tx (option CreditLedger.t) :=
  fun db => Ok (List.find (has_relatedId key) (creditLedger db), db).

(** [payment.findUnique({ where: { razorpayOrderId } })]; an [undefined]
    selector is rejected by the client before any query is made. *)
Definition payment_findUnique (orderId : option string) : Tx (option Payment.t) :=
  fun db =>
    match orderId with
    | Some o =>
        Ok (List.find (fun p => String.eqb (Payment.razorpayOrderId p) o) (payments db), db)
    | None => Throw PrismaValidationError
    end.

(** [payment.update({ where, data })] with [where] on a unique column ([id]
    or [razorpayOrderId]), which selects at most one row of a store that
    respects the layout's unique indexes; no matching row is [P2025]. *)
Definition payment_update (sel : Payment.t -> bool) (f : Payment.t -> Payment.t) : Tx unit :=
  fun db =>
    if existsb sel (payments db)
    then Ok (tt, set_payments (List.map (fun p => if sel p then f p else p)) db)
    else Throw P2025.

(** [webhookEvent.create({ data: { eventId, status, payload } })] *)
Definition webhookEvent_create (eventId : string) (row : WebhookEvent.t) : Tx unit :=
  fun db =>
    match webhookEvents db !! eventId with
    | Some _ => Throw P2002
    | None => Ok (tt, set_webhookEvents (insert eventId row) db)
    end.

(** [webhookEvent.update({ where: { eventId }, data: { status, payload } })] *)
Definition webhookEvent_update (eventId : string) (row : WebhookEvent.t) : Tx unit :=
  fun db =>
    match webhookEvents db !! eventId with
    | Some _ => Ok (tt, set_webhookEvents (insert eventId row) db)
    | None => Throw P2025
    end.

(** ** services/credits.js (src/unnamed/part_006) *)

Definition MODEL_CREDIT_COST : list (string * Z) :=
  [ ("gpt-5", 10); ("gpt-5-mini", 3); ("gpt-5-nano", 1);
    ("gemini-2.0-flash", 1); ("gemini-2.5-pro", 5);
    ("claude-3.5-sonnet", 4); ("claude-3.5-haiku", 3) ].

Fixpoint assoc (k : string) (l : list (string * Z)) : option Z :=
  match l with
  | [] => None
  | (k', v) :: l' => if String.eqb k' k then Some v else assoc k l'
  end.

(** The names every object inherits from [Object.prototype]: looked up on
    the table they give a function (or, for [__proto__], the prototype
    itself), which is neither [null] nor [undefined]. *)
Definition Object_prototype : list string :=
  [ "constructor"; "__defineGetter__"; "__defineSetter__"; "hasOwnProperty";
    "__lookupGetter__"; "__lookupSetter__"; "isPrototypeOf"; "propertyIsEnumerable";
    "toString"; "valueOf"; "__proto__"; "toLocaleString" ].

(** What [getRequiredCredits] returns: a number of credits, or the value of
    an inherited property, which is not a number. *)
Inductive Cost : Type :=
  | Credits (n : Z)
  | Inherited.

(** [MODEL_CREDIT_COST[model] ?? 1] *)
Definition getRequiredCredits (model : string) : Cost :=
  match assoc model MODEL_CREDIT_COST with
  | Some n => Credits n
  | None => if existsb (String.eqb model) Object_prototype then Inherited else Credits 1
  end.

Definition creditCredits_tx (userId amount : Z) (reason : string)
    (relatedId : option string) : Tx Z :=
  let* user := user_update_increment userId amount in
  run creditLedger_create (CreditLedger.mk userId amount purchase reason relatedId) in
  ret user.

Definition creditCredits (userId amount : Z) (reason : string)
    (relatedId : option string) (db : DB) : DB * result Z :=
  transaction (creditCredits_tx userId amount reason relatedId) db.

Definition debitCredits_tx (userId amount : Z) (reason : string)
    (relatedId : option string) : Tx Z :=
  let* user := user_findUnique userId in
  match user with
  | None => throw InsufficientCredits
  | Some c =>
      if c <? amount then throw InsufficientCredits
      else
        let* updated := user_update_decrement userId amount in
        run creditLedger_create (CreditLedger.mk userId (- amount) debit reason relatedId) in
        ret updated
  end.

Definition debitCredits (userId amount : Z) (reason : string)
    (relatedId : option string) (db : DB) : DB * result Z :=
  transaction (debitCredits_tx userId amount reason relatedId) db.

(** [debitCredits] as the upload handler calls it, with what
    [getRequiredCredits] returned.  For a value that is not a number the
    comparison [user.credits < amount] is false, and [decrement: amount] is
    then refused by the client before any write. *)
Definition debitCredits_cost (userId : Z) (amount : Cost) (reason : string)
    (relatedId : option string) (db : DB) : DB * result Z :=
  match amount with
  | Credits n => debitCredits userId n reason relatedId db
  | Inherited =>
      transaction
        (let* user := user_findUnique userId in
         match user with
         | None => throw InsufficientCredits
         | Some _ => throw PrismaValidationError
         end) db
  end.

(** [creditCredits] with what [getRequiredCredits] returned; [increment] of a
    value that is not a number is refused by the client. *)
Definition creditCredits_cost (userId : Z) (amount : Cost) (reason : string)
    (relatedId : option string) (db : DB) : DB * result Z :=
  match amount with
  | Credits n => creditCredits userId n reason relatedId db
  | Inherited => (db, Throw PrismaValidationError)
  end.

(** ** Process environment and HTTP responses *)

Record Env : Type := mkEnv {
  SITE_ID : option string;
  RAZORPAY_WEBHOOK_SECRET : option string;
  RAZORPAY_KEY_SECRET : option string
}.

(** What a handler writes with [res.status(..).send(..)] or
    [res.status(..).json(..)]. *)
Inductive Body : Type :=
  | Text (s : string)
  | Failure (error : string)
  | FailureDetails (error details requestId : string)
  | Balance (creditsAdded balance : Z) (message : option string)
  | Solution (requestId : string).

Record Response : Type := mkResponse {
  status : Z;
  body : Body
}.

(** ** src/utils/razorpay.js *)

Definition try_catch {A} (body : result A) (handler : exn -> result A) : result A :=
  match body with
  | Ok a => Ok a
  | Throw e => handler e
  end.

Section Handlers.

(** The runtime's HMAC-SHA256 with a hex digest, as a function of key and
    data, and its JSON parser on the shape of a provider event ([None] for
    a syntax error). *)
Variable hmac_sha256_hex : string -> string -> string.
Variable JSON_parse : string -> option Parsed.

(** [crypto.createHmac('sha256', secret).update(data).digest('hex')]:
    [createHmac] throws on an [undefined] key and [update] on data that is
    neither a string nor a buffer ([None]). *)
Definition createHmac_digest (secret data : option string) : result string :=
  match secret with
  | None => Throw TypeError
  | Some key =>
      match data with
      | None => Throw TypeError
      | Some d => Ok (hmac_sha256_hex key d)
      end
  end.

Definition verifyRazorpaySignature (env : Env) (orderId paymentId signature : string)
    : result bool :=
  let body := String.append orderId (String.append "|" paymentId) in
  match createHmac_digest (RAZORPAY_KEY_SECRET env) (Some body) with
  | Ok expected => Ok (String.eqb expected signature)
  | Throw e => Throw e
  end.

Definition verifyWebhookSignature (rawBody : option string) (signature : string)
    (secret : option string) : result bool :=
  try_catch
    (match createHmac_digest secret rawBody with
     | Ok expected => Ok (String.eqb expected signature)
     | Throw e => Throw e
     end)
    (fun _ => Ok false).

(** ** src/routes/payments.js: [router.post('/verify')] *)

Record VerifyBody : Type := mkVerifyBody {
  razorpay_order_id : string;
  razorpay_payment_id : string;
  razorpay_signature : string
}.

(** [userId] is [req.user.id] as set by [requireAuth]; [reqBody = None] is
    a body that [verifySchema.parse] rejects.  A [Throw] in the result is an
    error handed to [next]. *)
Definition verify (env : Env) (userId : Z) (reqBody : option VerifyBody) (db : DB)
    : DB * result Response :=
  if userId =? 0 then (db, Ok (mkResponse 401 (Failure "Unauthorized")))
  else
    match reqBody with
    | None => (db, Ok (mkResponse 400 (Failure "Invalid input")))
    | Some b =>
        match verifyRazorpaySignature env (razorpay_order_id b) (razorpay_payment_id b)
                (razorpay_signature b) with
        | Throw e => (db, Throw e)
        | Ok false => (db, Ok (mkResponse 400 (Failure "Invalid signature")))
        | Ok true =>
            match await (payment_findUnique (Some (razorpay_order_id b))) db with
            | (db0, Throw e) => (db0, Throw e)
            | (db0, Ok None) => (db0, Ok (mkResponse 404 (Failure "Payment not found")))
            | (db0, Ok (Some payment)) =>
                if negb (Payment.userId payment =? userId)
                then (db0, Ok (mkResponse 404 (Failure "Payment not found")))
                else
                  match Payment.status payment with
                  | paid =>
                      match await (user_findUnique userId) db0 with
                      | (db1, Ok (Some credits)) =>
                          (db1, Ok (mkResponse 200 (Balance 0 credits None)))
                      | (db1, Ok None) => (db1, Throw TypeError)
                      | (db1, Throw e) => (db1, Throw e)
                      end
                  | _ =>
                      match await
                              (payment_update
                                 (fun p => String.eqb (Payment.razorpayOrderId p)
                                             (razorpay_order_id b))
                                 (fun p =>
                                    Payment.mk (Payment.id p) (Payment.userId p)
                                      (Payment.razorpayOrderId p)
                                      (Some (razorpay_payment_id b))
                                      (Some (razorpay_signature b))
                                      (Payment.amountPaise p) (Payment.creditsPurchased p)
                                      (Payment.status p)))
                              db0 with
                      | (db1, Throw e) => (db1, Throw e)
                      | (db1, Ok _) =>
                          match await (user_findUnique userId) db1 with
                          | (db2, Ok (Some credits)) =>
                              (db2, Ok (mkResponse 200
                                 (Balance 0 credits
                                    (Some "Payment verified; credits will be applied once webhook is processed"))))
                          | (db2, Ok None) => (db2, Throw TypeError)
                          | (db2, Throw e) => (db2, Throw e)
                          end
                      end
                  end
            end
        end
    end.

(** ** src/routes/payments.js: the provider webhook, [router.post('/')] *)

(** [req.body] is a Buffer when [express.raw] has read the request and
    something else ([None]) when it has not. *)
Record WebhookRequest : Type := mkWebhookRequest {
  rawBody : option string;
  x_razorpay_signature : option string
}.

Definition code (e : exn) : option string :=
  match e with
  | P2002 => Some "P2002"
  | P2003 => Some "P2003"
  | P2025 => Some "P2025"
  | _ => None
  end.

(** [payload?.id || null] *)
Definition eventId_of (payload : Event.t) : option string :=
  or_string (Event.id payload) None.

(** [notes?.website_id || (receipt || '').split(':')[0] || null], for a
    receipt that is a string or falsy; [webhook] deals with the body whose
    receipt is something else, on which [.split] throws. *)
Definition siteId_of (payload : Event.t) : option string :=
  or_string (Event.payment payload ≫= Event.website_id)
    (or_string
       (Some (split_colon_0
                (default "" (or_string (Event.order payload ≫= Event.receipt) (Some "")))))
       None).

(** [siteId !== process.env.SITE_ID]: [siteId] is a string or [null], the
    variable a string or [undefined]. *)
Definition site_differs (siteId SITE_ID : option string) : bool :=
  match siteId, SITE_ID with
  | Some a, Some b => negb (String.eqb a b)
  | _, _ => true
  end.

(** [order?.entity?.id || payment?.entity?.order_id] *)
Definition razorpayOrderId_of (payload : Event.t) : option string :=
  or_string (Event.order payload ≫= Event.oid) (Event.payment payload ≫= Event.order_id).

(** [payment?.entity?.amount || order?.entity?.amount] *)
Definition amount_of (payload : Event.t) : option Z :=
  or_num (Event.payment payload ≫= Event.pamount) (Event.order payload ≫= Event.oamount).

(** [amount && amount !== payment.amountPaise] *)
Definition amount_mismatches (amount : option Z) (amountPaise : Z) : bool :=
  match amount with
  | Some a => negb (a =? 0) && negb (a =? amountPaise)
  | None => false
  end.

(** [payment?.entity?.id || null] *)
Definition razorpayPaymentId_of (payload : Event.t) : option string :=
  or_string (Event.payment payload ≫= Event.pid) None.

Definition ledger_key (razorpayPaymentId : option string) : string :=
  String.append "razorpay:" (render razorpayPaymentId).

Definition is_event (event : option string) (name : string) : bool :=
  match event with
  | Some e => String.eqb e name
  | None => false
  end.

(** [event === 'payment.captured' || event === 'payment.authorized' ||
    event === 'order.paid'] *)
Definition is_paid_event (event : option string) : bool :=
  is_event event "payment.captured" || is_event event "payment.authorized"
  || is_event event "order.paid".

Definition mark_paid (razorpayPaymentId : option string) (signature : string)
    (p : Payment.t) : Payment.t :=
  Payment.mk (Payment.id p) (Payment.userId p) (Payment.razorpayOrderId p)
    razorpayPaymentId (Some signature)
    (Payment.amountPaise p) (Payment.creditsPurchased p) paid.

Definition mark_failed (p : Payment.t) : Payment.t :=
  Payment.mk (Payment.id p) (Payment.userId p) (Payment.razorpayOrderId p)
    (Payment.razorpayPaymentId p) (Payment.razorpaySignature p)
    (Payment.amountPaise p) (Payment.creditsPurchased p) failed.

Definition by_id (payment : Payment.t) (p : Payment.t) : bool :=
  Payment.id p =? Payment.id payment.

(** The callback of [prisma.$transaction] (lines 125-184). *)
Definition webhook_tx (env : Env) (signature eventId : string) (payload : Event.t)
    : Tx unit :=
  let siteId := siteId_of payload in
  let event := Event.event payload in
  run webhookEvent_create eventId (WebhookEvent.mk processing None) in
  if site_differs siteId (SITE_ID env) then
    webhookEvent_update eventId (WebhookEvent.mk ignored (Some payload))
  else
    let razorpayOrderId := razorpayOrderId_of payload in
    let* payment := payment_findUnique razorpayOrderId in
    match payment with
    | None => webhookEvent_update eventId (WebhookEvent.mk no_local_order (Some payload))
    | Some payment =>
        let amount := amount_of payload in
        if amount_mismatches amount (Payment.amountPaise payment) then
          webhookEvent_update eventId (WebhookEvent.mk amount_mismatch (Some payload))
        else
          run (if is_paid_event event then
                 let razorpayPaymentId := razorpayPaymentId_of payload in
                 let* existingLedger :=
                   creditLedger_findFirst (ledger_key razorpayPaymentId) in
                 match existingLedger with
                 | None =>
                     run payment_update (by_id payment)
                           (mark_paid razorpayPaymentId signature) in
                     run creditLedger_create
                           (CreditLedger.mk (Payment.userId payment)
                              (Payment.creditsPurchased payment) purchase "payment"
                              (Some (ledger_key razorpayPaymentId))) in
                     run user_update_increment (Payment.userId payment)
                           (Payment.creditsPurchased payment) in
                     ret tt
                 | Some _ =>
                     payment_update (by_id payment) (mark_paid razorpayPaymentId signature)
                 end
               else if is_event event "payment.failed" then
                 payment_update (by_id payment) mark_failed
               else ret tt) in
          webhookEvent_update eventId (WebhookEvent.mk processed (Some payload))
    end.

(** The handler after the payload has been parsed (lines 104-198). *)
Definition webhook_parsed (env : Env) (signature : string) (payload : Event.t) (db : DB)
    : DB * result Response :=
  match eventId_of payload with
  | None => (db, Ok (mkResponse 400 (Text "missing event id")))
  | Some eventId =>
      match transaction (webhook_tx env signature eventId payload) db with
      | (db1, Ok _) => (db1, Ok (mkResponse 200 (Text "ok")))
      | (db1, Throw e) =>
          if bool_decide (code e = Some "P2002")
          then (db1, Ok (mkResponse 200 (Text "ok")))
          else
            let '(db2, _) :=
              await (webhookEvent_update eventId (WebhookEvent.mk error (Some payload))) db1 in
            (db2, Ok (mkResponse 500 (Text "processing error")))
      end
  end.

(** The whole handler (lines 81-198). *)
Definition webhook (env : Env) (req : WebhookRequest) (db : DB) : DB * result Response :=
  let raw := rawBody req in
  let secret := RAZORPAY_WEBHOOK_SECRET env in
  match x_razorpay_signature req with
  | Some (String _ _ as signature) =>
      match verifyWebhookSignature raw signature secret with
      | Throw e => (db, Throw e)
      | Ok false => (db, Ok (mkResponse 400 (Text "invalid signature")))
      | Ok true =>
          match raw ≫= JSON_parse with
          | None => (db, Ok (mkResponse 400 (Text "bad payload")))
          | Some (Typed payload) => webhook_parsed env signature payload db
          | Some (NonStringReceipt payload) =>
              (* lines 104-115: the event id is checked first; the receipt is
                 read only when the notes carry no site tag, and [.split] on
                 it throws outside the handler's [try] blocks *)
              match eventId_of payload with
              | None => (db, Ok (mkResponse 400 (Text "missing event id")))
              | Some _ =>
                  if truthy_string (Event.payment payload ≫= Event.website_id)
                  then webhook_parsed env signature payload db
                  else (db, Throw TypeError)
              end
          end
      end
  | _ => (db, Ok (mkResponse 400 (Text "invalid signature")))
  end.

(** The request passes the handler's first two gates with signature
    [signature] and parsed body [payload]: the header is present, the raw
    body is a buffer whose digest under the configured webhook secret is the
    header's value, and the body parses. *)
Definition admits (env : Env) (req : WebhookRequest) (signature : string)
    (payload : Event.t) : Prop :=
  exists raw key : string,
    x_razorpay_signature req = Some signature /\
    signature <> "" /\
    rawBody req = Some raw /\
    RAZORPAY_WEBHOOK_SECRET env = Some key /\
    hmac_sha256_hex key raw = signature /\
    JSON_parse raw = Some (Typed payload).

(** The request passes the same two gates, but its body is one whose
    receipt is a truthy value that is not a string, with an event id and
    without a site tag in the payment's notes: the handler reaches
    [(receipt || '').split(':')]. *)
Definition reaches_receipt_split (env : Env) (req : WebhookRequest) : Prop :=
  exists (raw key signature : string) (payload : Event.t),
    x_razorpay_signature req = Some signature /\
    signature <> "" /\
    rawBody req = Some raw /\
    RAZORPAY_WEBHOOK_SECRET env = Some key /\
    hmac_sha256_hex key raw = signature /\
    JSON_parse raw = Some (NonStringReceipt payload) /\
    is_Some (eventId_of payload) /\
    truthy_string (Event.payment payload ≫= Event.website_id) = false.

(** The same request delivered [n] times in a row, with the responses in
    order of delivery. *)
Fixpoint deliver (n : nat) (env : Env) (req : WebhookRequest) (db : DB)
    : DB * list (result Response) :=
  match n with
  | O => (db, [])
  | S n' =>
      let '(db1, r) := webhook env req db in
      let '(db2, rs) := deliver n' env req db1 in
      (db2, r :: rs)
  end.

End Handlers.

(** ** routes/api.js (src/unnamed/part_004): the [/upload] handler *)

Definition lower (c : ascii) : ascii :=
  let n := nat_of_ascii c in
  if (65 <=? n)%nat && (n <=? 90)%nat then ascii_of_nat (n + 32) else c.

Fixpoint starts_with_ci (pat s : string) : bool :=
  match pat, s with
  | EmptyString, _ => true
  | String p pat', String c s' => Ascii.eqb (lower p) (lower c) && starts_with_ci pat' s'
  | String _ _, EmptyString => false
  end.

(** [/pat/i.test(s)] for a pattern of plain letters. *)
Fixpoint test_ci (pat s : string) : bool :=
  starts_with_ci pat s ||
  match s with
  | EmptyString => false
  | String _ s' => test_ci pat s'
  end.

(** The handler's inputs: the authenticated user, the request id sent by the
    client (if any) and the one the handler would generate, the requested
    model, the number of uploaded files, and the outcome of the processing
    pipeline (OCR, generation, evaluation), which this model does not look
    into. *)
Record UploadRequest : Type := mkUploadRequest {
  user_id : Z;
  providedRequestId : option string;
  generatedRequestId : string;
  model : option string;
  files : nat;
  pipeline : result unit
}.

Definition requestId_of (req : UploadRequest) : string :=
  default (generatedRequestId req) (or_string (providedRequestId req) None).

Definition model_of (req : UploadRequest) : string :=
  default "gpt-4" (or_string (model req) None).

Definition upload (req : UploadRequest) (db : DB) : DB * Response :=
  let requestId := requestId_of req in
  let model := model_of req in
  if (files req =? 0)%nat then
    (db, mkResponse 400 (FailureDetails "No image files provided" "" requestId))
  else if (3 <? files req)%nat then
    (db, mkResponse 400 (FailureDetails "Maximum of 3 images allowed" "" requestId))
  else
    let required := getRequiredCredits model in
    match debitCredits_cost (user_id req) required (String.append "model:" model)
            (Some requestId) db with
    | (db1, Throw debitErr) =>
        if bool_decide (statusCode debitErr = Some 402)
           || test_ci "insufficient" (message debitErr)
        then (db1, mkResponse 402
                     (FailureDetails "Insufficient credits" (message debitErr) requestId))
        else
          (* rethrown to the processing handler with [debited = false] *)
          (db1, mkResponse 500
                  (FailureDetails "Failed to process images" (message debitErr) requestId))
    | (db1, Ok _) =>
        (* [debited = true] *)
        match pipeline req with
        | Ok _ => (db1, mkResponse 200 (Solution requestId))
        | Throw processingError =>
            let '(db2, _) :=
              creditCredits_cost (user_id req) (getRequiredCredits model)
                (String.append "refund:" requestId) (Some requestId) db1 in
            (db2, mkResponse 500
                    (FailureDetails "Failed to process images" (message processingError)
                       requestId))
        end
    end.

(** The route as mounted: [upload.array('images', 3)] with [limits: { files:
    3 }] runs before the handler and hands a request with more than three
    files to [next] as an error, so the handler sees at most three. *)
Definition upload_route (req : UploadRequest) (db : DB) : DB * result Response :=
  if (3 <? files req)%nat then (db, Throw MulterError)
  else let '(db', resp) := upload req db in (db', Ok resp).

(** ** src/app.js: the process environment and the start-up check *)

(** [process.env]: a finite map from names to strings.  [env_of] reads the
    three variables the payment handlers use. *)
Definition env_of (penv : gmap string string) : Env :=
  mkEnv (penv !! "SITE_ID") (penv !! "RAZORPAY_WEBHOOK_SECRET")
    (penv !! "RAZORPAY_KEY_SECRET").

Definition requiredInProd : list string :=
  ["JWT_SECRET"; "DATABASE_URL"; "RAZORPAY_KEY_SECRET"; "RAZORPAY_WEBHOOK_SECRET"].

Definition smtpVars : list string := ["SMTP_HOST"; "SMTP_PORT"; "SMTP_USER"; "SMTP_PASS"].

(** [names.filter((k) => !process.env[k])] *)
Definition missing_vars (penv : gmap string string) (names : list string) : list string :=
  List.filter (fun k => negb (truthy_string (penv !! k))) names.

(** [process.env.NODE_ENV === 'production'] *)
Definition is_production (penv : gmap string string) : bool :=
  bool_decide (penv !! "NODE_ENV" = Some "production").

(** The outcome of the start-up check (app.js, lines 21-45): the process
    exits with a code, or goes on with the warnings it printed (each the list
    of names it reported missing). *)
Inductive Startup : Type :=
  | Exit (code : Z)
  | Started (warnings : list (list string)).

Definition startup_check (penv : gmap string string) : Startup :=
  let missing := missing_vars penv requiredInProd in
  if is_production penv && (0 <? length missing)%nat then Exit 1
  else
    let warned := if (0 <? length missing)%nat then [missing] else [] in
    let smtpProvided := truthy_string (penv !! "SMTP_HOST") in
    if smtpProvided then
      let missingSmtp := missing_vars penv smtpVars in
      if is_production penv && (0 <? length missingSmtp)%nat then Exit 1
      else if (0 <? length missingSmtp)%nat then Started (warned ++ [missingSmtp])
      else Started warned
    else Started warned.

(** ** src/app.js: the global error handler (lines 120-149) *)

(** [err.statusCode || 500] *)
Definition error_status (e : exn) : Z :=
  match statusCode e with
  | Some c => if c =? 0 then 500 else c
  | None => 500
  end.

(** The response of the global error handler to an error handed to [next].
    None of the errors of [exn] carries the name of a token error, so the
    body's text is [err.message || 'Internal Server Error']. *)
Definition error_handler (e : exn) : Response :=
  mkResponse (error_status e)
    (Failure (default "Internal Server Error" (or_string (Some (message e)) None))).

(** What the client sees of a route: the handler's own response, or the
    error handler's. *)
Definition respond (r : result Response) : Response :=
  match r with
  | Ok resp => resp
  | Throw e => error_handler e
  end.

(** ** src/routes/payments.js: [router.post('/create-order')] *)

(** [createOrderSchema.parse(req.body)]: [credits] must be an integer ([None]
    when the field is missing or of another type) and at least 1. *)
Definition createOrderSchema_parse (credits : option Z) : result Z :=
  match credits with
  | Some c => if 1 <=? c then Ok c else Throw ZodError
  | None => Throw ZodError
  end.

(** [process.env.SITE_ID || 'unknown_site'] *)
Definition site_tag (penv : gmap string string) : string :=
  default "unknown_site" (or_string (penv !! "SITE_ID") None).

(** [`${siteId}:u${userId}:${Date.now()}`] *)
Definition receipt_of (siteId : string) (userId now : Z) : string :=
  String.append siteId
    (String.append ":u" (String.append (pretty userId) (String.append ":" (pretty now)))).

(** The argument of [razorpay.orders.create]. *)
Record OrderRequest : Type := mkOrderRequest {
  or_amount : Z;
  or_currency : string;
  or_receipt : string;
  or_website_id : string
}.

(** [payment.create({ data })]: [amountPaise] and [creditsPurchased] are
    INTEGER columns, [razorpayOrderId] carries a unique index and [userId] is
    a foreign key into User; [seq] is the value the id sequence yields for the
    new row. *)
Definition payment_create (seq userId : Z) (razorpayOrderId : string)
    (amountPaise creditsPurchased : Z) : Tx Payment.t :=
  fun db =>
    if negb (int4 amountPaise && int4 creditsPurchased) then Throw IntegerOutOfRange
    else if existsb (fun p => String.eqb (Payment.razorpayOrderId p) razorpayOrderId)
              (payments db)
    then Throw P2002
    else
      match users db !! userId with
      | None => Throw P2003
      | Some _ =>
          let row := Payment.mk seq userId razorpayOrderId None None amountPaise
                       creditsPurchased created in
          Ok (row, set_payments (fun l => l ++ [row]) db)
      end.

(** What [/create-order] answers. *)
Inductive OrderReply : Type :=
  | OrderCreated (orderId : string) (amount : Z) (currency : string)
      (razorpayKeyId : option string)
  | OrderRejected (status : Z) (error : string).

(** The handler.  [provider] is the provider's answer to
    [razorpay.orders.create] (the new order's id, or an error); [userId] is
    [req.user.id]; [credits] the body's field; [now] is [Date.now()] and [seq]
    the next value of the Payment id sequence.  A [Throw] is an error handed
    to [next]. *)
Definition create_order (provider : OrderRequest -> result string)
    (penv : gmap string string) (userId : Z) (credits : option Z) (now seq : Z) (db : DB)
    : DB * result OrderReply :=
  if userId =? 0 then (db, Ok (OrderRejected 401 "Unauthorized"))
  else
    match createOrderSchema_parse credits with
    | Throw _ => (db, Ok (OrderRejected 400 "Invalid input"))
    | Ok credits =>
        let amountPaise := credits * 5 * 100 in
        let siteId := site_tag penv in
        let receipt := receipt_of siteId userId now in
        match provider (mkOrderRequest amountPaise "INR" receipt siteId) with
        | Throw e => (db, Throw e)
        | Ok orderId =>
            match await (payment_create seq userId orderId amountPaise credits) db with
            | (db1, Throw e) => (db1, Throw e)
            | (db1, Ok _) =>
                (db1, Ok (OrderCreated orderId amountPaise "INR" (penv !! "RAZORPAY_KEY_ID")))
            end
        end
    end.

(** A provider event that echoes what [/create-order] sent and answered: the
    order id, the amount, the site tag in the payment's notes and the receipt
    on the order. *)
Definition echo_event (eventId event paymentId orderId : string) (q : OrderRequest)
    : Event.t :=
  Event.mk (Some eventId) (Some event)
    (Some (Event.mkPayment (Some paymentId) (Some (or_amount q)) (Some orderId)
             (Some (or_website_id q))))
    (Some (Event.mkOrder (Some orderId) (Some (or_amount q)) (Some (or_receipt q)))).

(** ** middlewares/auth.js: [requireAuth] *)

Section Auth.

(** [jwt.verify(token, secret)]: [None] when it throws, otherwise the
    payload's [uid] ([None] when the payload has none). *)
Variable jwt_verify : string -> string -> option (option Z).

Record AuthRequest : Type := mkAuthRequest {
  cookie_auth_token : option string;
  authorization : option string
}.

(** [s.slice(n)] *)
Definition slice (n : nat) (s : string) : string :=
  String.substring n (String.length s - n) s.

(** [req.cookies?.auth_token ||
     (authorization?.startsWith('Bearer ') ? authorization.slice(7) : null)] *)
Definition token_of (req : AuthRequest) : option string :=
  or_string (cookie_auth_token req)
    (match authorization req with
     | Some h => if String.prefix "Bearer " h then Some (slice 7 h) else None
     | None => None
     end).

(** [process.env.JWT_SECRET || 'development_secret_change_me'], as the
    middleware evaluates it on every request: [penv] is the environment at
    that time. *)
Definition jwt_secret (penv : gmap string string) : string :=
  default "development_secret_change_me" (or_string (penv !! "JWT_SECRET") None).

(** [dotenv.config()]: the variables of the [.env] file are added to the
    environment; a variable that is already there keeps its value. *)
Definition dotenv_config (file ienv : gmap string string) : gmap string string :=
  ienv ∪ file.

(** The constant [JWT_SECRET] of utils/jwt.js (line 3), evaluated once when
    the module is loaded.  app.js imports the routes, and with them this
    module, before its own body runs [dotenv.config()]: [ienv] is the
    environment the process was started with. *)
Definition JWT_SECRET (ienv : gmap string string) : string :=
  default "development_secret_change_me" (or_string (ienv !! "JWT_SECRET") None).

(** [verifyToken(token)] of utils/jwt.js *)
Definition verifyToken (ienv : gmap string string) (token : string) : option (option Z) :=
  jwt_verify token (JWT_SECRET ienv).

(** The middleware's outcome: [next()] with [req.user] set (its id and stored
    credits), the 401 response, or [next(err)]. *)
Inductive AuthOutcome : Type :=
  | Next (uid credits : Z)
  | Unauthorized
  | AuthError (e : exn).

Definition requireAuth (penv : gmap string string) (req : AuthRequest) (db : DB)
    : AuthOutcome :=
  match token_of req with
  | Some (String _ _ as token) =>
      match jwt_verify token (jwt_secret penv) with
      | None => Unauthorized
      | Some None => AuthError PrismaValidationError
      | Some (Some uid) =>
          match users db !! uid with
          | Some credits => Next uid credits
          | None => Unauthorized
          end
      end
  | _ => Unauthorized
  end.

(** [GET /auth/me] (src/routes/auth.js, lines 101-120): the same steps,
    written out again in the route, but with [verifyToken] and so with the
    secret of load time; it answers with the user. *)
Inductive MeReply : Type :=
  | MeUser (uid credits : Z)
  | MeUnauthorized.

Definition me (ienv : gmap string string) (req : AuthRequest) (db : DB) : result MeReply :=
  match token_of req with
  | Some (String _ _ as token) =>
      match verifyToken ienv token with
      | None => Ok MeUnauthorized
      | Some None => Throw PrismaValidationError
      | Some (Some uid) =>
          match users db !! uid with
          | Some credits => Ok (MeUser uid credits)
          | None => Ok MeUnauthorized
          end
      end
  | _ => Ok MeUnauthorized
  end.

(** A route behind [requireAuth]: the handler runs with [req.user.id] only
    after [next()]. *)
Definition protected {R : Type} (unauthorized : R) (penv : gmap string string)
    (req : AuthRequest) (handler : Z -> DB -> DB * result R) (db : DB) : DB * result R :=
  match requireAuth penv req db with
  | Next uid _ => handler uid db
  | Unauthorized => (db, Ok unauthorized)
  | AuthError e => (db, Throw e)
  end.

End Auth.

(** ** routes/api.js (src/unnamed/part_004): the progress stream *)

(** A connected client: its id ([Date.now()] at connect time), its response
    stream [res] (a handle that tells connections apart), the request ids it
    subscribed to, and the user of its token, if any. *)
Module Sse.
Record client : Type := mk {
  id : Z;
  res : nat;
  subscriptions : list string;
  userId : option Z
}.
End Sse.

(** [clients]: a [Map] from client id to client, in insertion order.
    [clients.set] replaces the value of a key that is present, in place, and
    appends otherwise; [clients.delete] removes the key. *)
Fixpoint clients_set (k : Z) (v : Sse.client) (clients : list (Z * Sse.client))
    : list (Z * Sse.client) :=
  match clients with
  | [] => [(k, v)]
  | (k', v') :: rest =>
      if k' =? k then (k, v) :: rest else (k', v') :: clients_set k v rest
  end.

Definition clients_delete (k : Z) (clients : list (Z * Sse.client))
    : list (Z * Sse.client) :=
  List.filter (fun kv => negb (kv.1 =? k)) clients.

Fixpoint clients_get (k : Z) (clients : list (Z * Sse.client)) : option Sse.client :=
  match clients with
  | [] => None
  | (k', v') :: rest => if k' =? k then Some v' else clients_get k rest
  end.

Section Progress.

Variable jwt_verify : string -> string -> option (option Z).

(** [router.get('/progress')]: [now] is [Date.now()], [res] the response
    stream, [requestId] and [token] the query parameters.  The token is
    checked with [verifyToken], under the secret of load time ([ienv]);
    [NODE_ENV] is read from the environment of the request ([penv]).  The
    result is the registry and the status written (401, or 200 with the stream
    left open). *)
Definition progress (ienv penv : gmap string string) (now : Z) (res : nat)
    (requestId token : option string) (clients : list (Z * Sse.client))
    : list (Z * Sse.client) * Z :=
  let subscribeTo := or_string requestId None in
  let newClient uid :=
    Sse.mk now res (match subscribeTo with Some r => [r] | None => [] end) uid in
  match or_string token None with
  | Some t =>
      match verifyToken jwt_verify ienv t with
      | Some (Some uid) =>
          if uid =? 0 then (clients, 401)
          else (clients_set now (newClient (Some uid)) clients, 200)
      | _ => (clients, 401)
      end
  | None =>
      if is_production penv then (clients, 401)
      else (clients_set now (newClient None) clients, 200)
  end.

End Progress.

(** The [close] handler a connection installs: [clients.delete(clientId)]. *)
Definition on_close (clientId : Z) (clients : list (Z * Sse.client))
    : list (Z * Sse.client) :=
  clients_delete clientId clients.

Definition newline : string := String "010"%char EmptyString.

(** [sendProgressUpdate(update, requestId)]: [json] is
    [JSON.stringify(update)]; the result lists the writes, stream by stream,
    in the order of the registry. *)
Definition sendProgressUpdate (json : string) (requestId : option string)
    (clients : list (Z * Sse.client)) : list (nat * string) :=
  let data := String.append "data: " (String.append json (String.append newline newline)) in
  flat_map
    (fun kv =>
       match or_string requestId None with
       | None => [(Sse.res kv.2, data)]
       | Some r =>
           if existsb (String.eqb r) (Sse.subscriptions kv.2) then [(Sse.res kv.2, data)]
           else []
       end)
    clients.

(** The streams of the registered clients. *)
Definition streams (clients : list (Z * Sse.client)) : list nat :=
  List.map (fun kv => Sse.res kv.2) clients.

(** The text [sendProgressUpdate] writes for [json]. *)
Definition progress_data (json : string) : string :=
  String.append "data: " (String.append json (String.append newline newline)).

(** ** utils/logger.js (src/unnamed/part_008): log levels *)

Definition LEVELS : list (string * Z) :=
  [ ("ERROR", 0); ("WARN", 1); ("INFO", 2); ("DEBUG", 3) ].

Definition upper (c : ascii) : ascii :=
  let n := nat_of_ascii c in
  if (97 <=? n)%nat && (n <=? 122)%nat then ascii_of_nat (n - 32) else c.

(** [s.toUpperCase()], on the letters a-z. *)
Fixpoint toUpperCase (s : string) : string :=
  match s with
  | EmptyString => EmptyString
  | String c r => String (upper c) (toUpperCase r)
  end.

(** [LOG_LEVEL && LEVELS[LOG_LEVEL.toUpperCase()] !== undefined
     ? LEVELS[LOG_LEVEL.toUpperCase()] : LEVELS.INFO], evaluated once, when
    the module is loaded: [penv] is the environment at that time. *)
Definition CURRENT_LEVEL (penv : gmap string string) : Z :=
  match or_string (penv !! "LOG_LEVEL") None with
  | Some l => default 2 (assoc (toUpperCase l) LEVELS)
  | None => 2
  end.

(** [LEVELS[level] <= CURRENT_LEVEL]; a comparison with [undefined] is
    false. *)
Definition shouldLog (penv : gmap string string) (level : string) : bool :=
  match assoc level LEVELS with
  | Some n => n <=? CURRENT_LEVEL penv
  | None => false
  end.

(** ** The User table in full (src/unnamed/part_003, lines 8-21 and 53-59)

    The routes of [auth.js] and the low-credit job read and write more columns
    of User than [credits]; for them the table is a list of rows in insertion
    order.  Times are milliseconds since the epoch. *)

Module User.
Record t : Type := mk {
  id : Z;
  username : string;
  email : option string;
  name : option string;
  passwordHash : option string;
  googleId : option string;
  credits : Z;
  lastLowCreditEmailAt : option Z
}.
End User.

(** [select: { id, username, email, credits, name }] *)
Record PublicUser : Type := mkPublicUser {
  pub_id : Z;
  pub_username : string;
  pub_email : option string;
  pub_credits : Z;
  pub_name : option string
}.

Definition public_of (u : User.t) : PublicUser :=
  mkPublicUser (User.id u) (User.username u) (User.email u) (User.credits u) (User.name u).

(** A nullable column with a unique index holds a given non-null value. *)
Definition column_is (column : option string) (value : option string) : bool :=
  match column, value with
  | Some a, Some b => String.eqb a b
  | _, _ => false
  end.

(** [prisma.user.findFirst({ where: { OR: [{ username }, { email }] } })],
    the second condition only when [email] is given. *)
Definition user_findFirst (username : string) (email : option string)
    (accounts : list User.t) : option User.t :=
  List.find (fun u => String.eqb (User.username u) username || column_is (User.email u) email)
    accounts.

(** [prisma.user.findUnique({ where: { username } })] *)
Definition user_findUnique_username (username : string) (accounts : list User.t)
    : option User.t :=
  List.find (fun u => String.eqb (User.username u) username) accounts.

(** [prisma.user.create]: the unique indexes on [username], [email] and
    [googleId] refuse a value another row holds (nulls do not collide). *)
Definition user_create (row : User.t) (accounts : list User.t) : result (list User.t) :=
  if existsb (fun u => String.eqb (User.username u) (User.username row)
                       || column_is (User.email u) (User.email row)
                       || column_is (User.googleId u) (User.googleId row)) accounts
  then Throw P2002
  else Ok (accounts ++ [row]).

(** [prisma.user.update({ where: { id }, data: { lastLowCreditEmailAt } })] *)
Definition stamp (t : Z) (u : User.t) : User.t :=
  User.mk (User.id u) (User.username u) (User.email u) (User.name u) (User.passwordHash u)
    (User.googleId u) (User.credits u) (Some t).

Definition user_update_stamp (id t : Z) (accounts : list User.t) : result (list User.t) :=
  if existsb (fun u => User.id u =? id) accounts
  then Ok (List.map (fun u => if User.id u =? id then stamp t u else u) accounts)
  else Throw P2025.

(** ** src/routes/auth.js: [/register] and [/login] *)

Record RegisterBody : Type := mkRegisterBody {
  reg_username : option string;
  reg_password : option string;
  reg_email : option string
}.

Record LoginBody : Type := mkLoginBody {
  login_username : option string;
  login_password : option string
}.

(** What the two routes answer: [res.json({ success: true, user })] with the
    [auth_token] cookie set, or [res.status(..).json({ success: false, error })]. *)
Inductive AuthReply : Type :=
  | AuthUser (user : PublicUser) (auth_token : string)
  | AuthFailure (status : Z) (error : string).

(** [/^[a-zA-Z0-9_\.\-]+$/] *)
Definition username_char (c : ascii) : bool :=
  let n := nat_of_ascii c in
  ((97 <=? n) && (n <=? 122) || (65 <=? n) && (n <=? 90) || (48 <=? n) && (n <=? 57)
   || (n =? 95) || (n =? 46) || (n =? 45))%nat.

Fixpoint all_chars (f : ascii -> bool) (s : string) : bool :=
  match s with
  | EmptyString => true
  | String c r => f c && all_chars f r
  end.

(** [z.string().min(3).max(30).regex(..)] *)
Definition username_ok (s : string) : bool :=
  ((3 <=? String.length s) && (String.length s <=? 30))%nat && all_chars username_char s.

Section Accounts.

(** The runtime and the libraries: [String.prototype.toLowerCase], zod's
    e-mail test, argon2 (the salt it draws is an argument here; [None] is a
    thrown error), and [jwt.sign] (the time of signing is an argument). *)
Variable toLowerCase : string -> string.
Variable is_email : string -> bool.
Variable argon2Hash : string -> string -> option string.
Variable argon2Verify : string -> string -> option bool.
Variable jwt_sign : Z -> string -> Z -> string.

(** [registerSchema.parse(req.body)], on a body whose fields are absent or
    strings. *)
Definition registerSchema_parse (b : RegisterBody)
    : option (string * string * option string) :=
  match reg_username b, reg_password b with
  | Some username, Some password =>
      if username_ok username && (8 <=? String.length password)%nat
         && match reg_email b with Some e => is_email e | None => true end
      then Some (username, password, reg_email b)
      else None
  | _, _ => None
  end.

(** utils/password.js (src/unnamed/part_009) *)
Definition hashPassword (salt plainPassword : string) : result string :=
  if (String.length plainPassword <? 8)%nat
  then Throw (ProcessingError "Password must be at least 8 characters long")
  else
    match argon2Hash salt plainPassword with
    | Some encoded => Ok encoded
    | None => Throw (ProcessingError "Failed to hash password")
    end.

Definition verifyPassword (plainPassword : string) (storedHash : option string) : bool :=
  match or_string storedHash None with
  | None => false
  | Some h => default false (argon2Verify h plainPassword)
  end.

(** [signToken({ uid })] of utils/jwt.js: signed with the module's constant
    [JWT_SECRET], the secret of load time. *)
Definition signToken (ienv : gmap string string) (uid now : Z) : string :=
  jwt_sign uid (JWT_SECRET ienv) now.

(** [email ? email.toLowerCase() : null] *)
Definition email_of (email : option string) : option string :=
  toLowerCase <$> or_string email None.

(** [router.post('/register')] (lines 16-58): [salt] is the salt argon2
    draws, [seq] the id the table's sequence gives the new row, [now] the
    time. *)
Definition register (ienv : gmap string string) (b : RegisterBody) (salt : string)
    (seq now : Z) (accounts : list User.t) : list User.t * result AuthReply :=
  match registerSchema_parse b with
  | None => (accounts, Ok (AuthFailure 400 "Invalid input"))
  | Some (username, password, email) =>
      match user_findFirst (toLowerCase username) (email_of email) accounts with
      | Some _ => (accounts, Ok (AuthFailure 409 "Username or email already exists"))
      | None =>
          match hashPassword salt password with
          | Throw e => (accounts, Throw e)
          | Ok passwordHash =>
              let user :=
                User.mk seq (toLowerCase username) (email_of email) None (Some passwordHash)
                  None 0 None in
              match user_create user accounts with
              | Throw e => (accounts, Throw e)
              | Ok accounts' =>
                  (accounts', Ok (AuthUser (public_of user) (signToken ienv seq now)))
              end
          end
      end
  end.

(** [router.post('/login')] (lines 65-94) *)
Definition login (ienv : gmap string string) (b : LoginBody) (now : Z)
    (accounts : list User.t) : result AuthReply :=
  match login_username b, login_password b with
  | Some username, Some password =>
      match user_findUnique_username (toLowerCase username) accounts with
      | None => Ok (AuthFailure 401 "Invalid credentials")
      | Some user =>
          if negb (truthy_string (User.passwordHash user))
          then Ok (AuthFailure 401 "Invalid credentials")
          else if verifyPassword password (User.passwordHash user)
          then Ok (AuthUser (public_of user) (signToken ienv (User.id user) now))
          else Ok (AuthFailure 401 "Invalid credentials")
      end
  | _, _ => Ok (AuthFailure 400 "Invalid input")
  end.

End Accounts.

(** The [users] map of the store as a view of the table: every row's id maps
    to the row's credits. *)
Definition credits_view (accounts : list User.t) (db : DB) : Prop :=
  forall u, In u accounts -> users db !! User.id u = Some (User.credits u).

(** ** utils/email.js (src/unnamed/part_007) and jobs/lowCreditNotifier.js *)

Record Mail : Type := mkMail {
  mail_from : string;
  mail_to : string;
  mail_subject : string;
  mail_text : string
}.

(** [sendLowCreditEmail(user)]: the mails handed to the SMTP transport.
    Without [SMTP_HOST] the transport is the no-op one; a failure of the real
    one is caught and logged, so the function returns normally either way. *)
Definition sendLowCreditEmail (penv : gmap string string) (user : User.t) : list Mail :=
  match or_string (User.email user) None with
  | None => []
  | Some to =>
      if truthy_string (penv !! "SMTP_HOST") then
        [mkMail (default "no-reply@example.com" (or_string (penv !! "EMAIL_FROM") None))
           to "Low credits warning"
           (String.append "Hi "
              (String.append (User.username user)
                 (String.append ", your credit balance is "
                    (String.append (pretty (User.credits user))
                       ". Please top up to continue using the app."))))]
      else []
  end.

(** [credits: { lt: 10 }, OR: [{ lastLowCreditEmailAt: null },
    { lastLowCreditEmailAt: { lt: sevenDaysAgo } }]] *)
Definition low_credit_due (now : Z) (u : User.t) : bool :=
  let sevenDaysAgo := now - 7 * 24 * 60 * 60 * 1000 in
  (User.credits u <? 10) &&
  match User.lastLowCreditEmailAt u with
  | None => true
  | Some t => t <? sevenDaysAgo
  end.

(** One run of the scheduled job (lines 7-27).  [now] is [Date.now()] when
    the run starts and [clock id] the time [new Date()] gives when the row of
    user [id] is updated.  The result is the table and the mails handed to
    the transport, each with the id of the user it was written for.  An
    update that throws is caught and the loop goes on. *)
Definition notifier_run (penv : gmap string string) (now : Z) (clock : Z -> Z)
    (accounts : list User.t) : list User.t * list (Z * Mail) :=
  let due := List.filter (low_credit_due now) accounts in
  List.fold_left
    (fun acc user =>
       let sent := List.map (fun m => (User.id user, m)) (sendLowCreditEmail penv user) in
       match user_update_stamp (User.id user) (clock (User.id user)) acc.1 with
       | Ok accounts' => (accounts', acc.2 ++ sent)
       | Throw _ => (acc.1, acc.2 ++ sent)
       end)
    due (accounts, []).

(** ** Ledger observations *)

(** How many ledger rows carry the key [key] in [relatedId]. *)
Definition count_key (key : string) (ledger : list CreditLedger.t) : nat :=
  length (List.filter (has_relatedId key) ledger).

(** At most one ledger row per non-null key. *)
Definition ledger_unique (ledger : list CreditLedger.t) : Prop :=
  forall key : string, (count_key key ledger <= 1)%nat.

(** The sum of the ledger's deltas for one user, and the store in which
    every user's cached balance is that sum. *)
Definition ledger_sum (uid : Z) (ledger : list CreditLedger.t) : Z :=
  fold_right
    (fun row acc => if CreditLedger.userId row =? uid then CreditLedger.delta row + acc
                    else acc)
    0 ledger.

Definition balanced (db : DB) : Prop :=
  forall uid c, users db !! uid = Some c -> c = ledger_sum uid (creditLedger db).

(** The key is null or not yet in the ledger. *)
Definition key_fresh (relatedId : option string) (ledger : list CreditLedger.t) : Prop :=
  match relatedId with
  | Some key => count_key key ledger = 0%nat
  | None => True
  end.

(** A terminal status: what the transaction writes over [processing] before
    it commits. *)
Definition terminal (st : EventStatus) : bool :=
  match st with
  | ignored | no_local_order | amount_mismatch | processed => true
  | processing | error => false
  end.

(** ** Sample data

    The order and event of the repository's integration tests
    ([tests/concurrency.integration.test.js]): order [order_dup] of user 20,
    2000 paise for 4 credits, and the [payment.captured] event [evt_dup] for
    payment [pay_dup], tagged for the site [ai_ot_helper]. *)

Definition sample_env : Env :=
  mkEnv (Some "ai_ot_helper") (Some "hook_secret_test") (Some "test_key_secret").

Definition sample_payment : Payment.t :=
  Payment.mk 10 20 "order_dup" None None 2000 4 created.

Definition sample_db : DB :=
  mkDB {[ 20 := 100 ]} [sample_payment] [] ∅.

Definition sample_event (site : string) (amount : Z) : Event.t :=
  Event.mk (Some "evt_dup") (Some "payment.captured")
    (Some (Event.mkPayment (Some "pay_dup") (Some amount) (Some "order_dup") (Some site)))
    (Some (Event.mkOrder (Some "order_dup") (Some amount) None)).

(** Two more events for the same payment: the provider's [order.paid] and
    [payment.failed] notifications, each with an event id of its own. *)
Definition sample_paid_event : Event.t :=
  Event.mk (Some "evt_paid") (Some "order.paid")
    (Some (Event.mkPayment (Some "pay_dup") (Some 2000) (Some "order_dup")
             (Some "ai_ot_helper")))
    (Some (Event.mkOrder (Some "order_dup") (Some 2000) None)).

Definition sample_failed_event : Event.t :=
  Event.mk (Some "evt_failed") (Some "payment.failed")
    (Some (Event.mkPayment (Some "pay_dup") (Some 2000) (Some "order_dup")
             (Some "ai_ot_helper")))
    (Some (Event.mkOrder (Some "order_dup") (Some 2000) None)).

(** An event for an order this deployment never created. *)
Definition sample_stray_event : Event.t :=
  Event.mk (Some "evt_stray") (Some "payment.captured")
    (Some (Event.mkPayment (Some "pay_x") (Some 2000) (Some "order_x")
             (Some "ai_ot_helper")))
    None.

(** A stand-in for the runtime's digest and parser in the examples: the
    digest of [data] under [key] is written [key/data], and the raw bodies
    below parse to the events beside them. *)
Definition sample_hmac (key data : string) : string :=
  String.append key (String.append "/" data).

Definition sample_parse (raw : string) : option Parsed :=
  if String.eqb raw "captured-2000" then Some (Typed (sample_event "ai_ot_helper" 2000))
  else if String.eqb raw "captured-1999" then Some (Typed (sample_event "ai_ot_helper" 1999))
  else if String.eqb raw "captured-0" then Some (Typed (sample_event "ai_ot_helper" 0))
  else if String.eqb raw "other-site" then Some (Typed (sample_event "other_site" 2000))
  else if String.eqb raw "paid-2000" then Some (Typed sample_paid_event)
  else if String.eqb raw "failed-2000" then Some (Typed sample_failed_event)
  else if String.eqb raw "stray" then Some (Typed sample_stray_event)
  else None.

Definition sample_request (raw : string) : WebhookRequest :=
  mkWebhookRequest (Some raw) (Some (sample_hmac "hook_secret_test" raw)).

(** The store with the marker of [eventId] set to [st] and the payload
    recorded. *)
Definition with_marker (eventId : string) (st : EventStatus) (payload : Event.t)
    (db : DB) : DB :=
  set_webhookEvents (insert eventId (WebhookEvent.mk st (Some payload))) db.

(** The ledger row the webhook writes for [payment] when the provider's
    payment id is [razorpayPaymentId]. *)
Definition purchase_row (payment : Payment.t) (razorpayPaymentId : option string)
    : CreditLedger.t :=
  CreditLedger.mk (Payment.userId payment) (Payment.creditsPurchased payment) purchase
    "payment" (Some (ledger_key razorpayPaymentId)).



Definition sample_upload : UploadRequest :=
  mkUploadRequest 20 (Some "r1") "generated" (Some "gpt-5") 1
    (Throw (ProcessingError "ocr failed")).

(** The sample store with the balance of user 20 backed by a ledger row. *)
Definition sample_balanced_db : DB :=
  mkDB {[ 20 := 100 ]} [sample_payment]
    [CreditLedger.mk 20 100 admin_adjustment "opening balance" None] ∅.

(** Does the string contain a colon? *)
Fixpoint has_colon (s : string) : bool :=
  match s with
  | EmptyString => false
  | String c r => Ascii.eqb c ":"%char || has_colon r
  end.

(** An event that carries the site only in the order's receipt. *)
Definition receipt_event (eventId event orderId receipt : string) (amount : Z) : Event.t :=
  Event.mk (Some eventId) (Some event) None
    (Some (Event.mkOrder (Some orderId) (Some amount) (Some receipt))).

(** Two orders of two users and the provider's [order.paid] events for them,
    each without a payment entity, so that the site is read from the receipt
    and the payment id is null; a further [order.paid] event for the payment
    of [sample_event] that reports no amount; and the sample store with the
    balance of user 20 three credits below the largest INTEGER. *)
Definition sample_orders_db : DB :=
  mkDB {[ 20 := 100; 21 := 7 ]}
    [Payment.mk 10 20 "order_a" None None 2000 4 created;
     Payment.mk 11 21 "order_b" None None 5000 10 created] [] ∅.

Definition sample_order_paid (eventId orderId : string) (amount : Z) : Event.t :=
  receipt_event eventId "order.paid" orderId "ai_ot_helper:u20:1700000000000" amount.

Definition sample_paid_no_amount : Event.t :=
  Event.mk (Some "evt_paid_again") (Some "order.paid")
    (Some (Event.mkPayment (Some "pay_dup") None (Some "order_dup") (Some "ai_ot_helper")))
    (Some (Event.mkOrder (Some "order_dup") None None)).

Definition sample_orders_parse (raw : string) : option Parsed :=
  if String.eqb raw "paid-a" then Some (Typed (sample_order_paid "evt_a" "order_a" 2000))
  else if String.eqb raw "paid-b" then Some (Typed (sample_order_paid "evt_b" "order_b" 5000))
  else if String.eqb raw "paid-no-amount" then Some (Typed sample_paid_no_amount)
  else sample_parse raw.

Definition sample_full_db : DB :=
  mkDB {[ 20 := 2147483645 ]} [sample_payment] [] ∅.

(** Sample data for the purchase flow: an environment with the site and the
    webhook secret set, a provider that answers every order request with the
    id [order_new], and the event the provider then sends for it. *)
Definition sample_penv : gmap string string :=
  {[ "SITE_ID" := "ai_ot_helper"; "RAZORPAY_WEBHOOK_SECRET" := "hook_secret_test";
     "RAZORPAY_KEY_SECRET" := "test_key_secret" ]}.

Definition sample_provider (q : OrderRequest) : result string := Ok "order_new".

Definition sample_order_request : OrderRequest :=
  mkOrderRequest (4 * 5 * 100) "INR" (receipt_of "ai_ot_helper" 20 1700000000000)
    "ai_ot_helper".

Definition sample_flow_event : Event.t :=
  echo_event "evt_new" "payment.captured" "pay_new" "order_new" sample_order_request.

Definition sample_flow_parse (raw : string) : option Parsed :=
  if String.eqb raw "flow" then Some (Typed sample_flow_event) else None.

(** The same without [SITE_ID]. *)
Definition sample_penv_no_site : gmap string string :=
  {[ "RAZORPAY_WEBHOOK_SECRET" := "hook_secret_test" ]}.

(** A production environment that passes the start-up check. *)
Definition sample_prod_penv : gmap string string :=
  {[ "NODE_ENV" := "production"; "JWT_SECRET" := "jwt_secret_test";
     "DATABASE_URL" := "postgres://db"; "RAZORPAY_KEY_SECRET" := "test_key_secret";
     "RAZORPAY_WEBHOOK_SECRET" := "hook_secret_test" ]}.

(** A stand-in for the token library in the examples: the one valid token is
    [token-20], of user 20. *)
Definition sample_jwt_verify (token secret : string) : option (option Z) :=
  if String.eqb token "token-20" then Some (Some 20) else None.

(** Stand-ins for the runtime and the libraries of the account routes in
    the examples: lower case on the letters A-Z, an e-mail test that asks for
    a non-empty string, a hash that writes salt and password out, a verifier
    for the salt [salt], and tokens [token-<uid>]. *)
Fixpoint sample_toLowerCase (s : string) : string :=
  match s with
  | EmptyString => EmptyString
  | String c r => String (lower c) (sample_toLowerCase r)
  end.

Definition sample_is_email (e : string) : bool := negb (String.eqb e "").

Definition sample_argon2Hash (salt password : string) : option string :=
  Some (String.append "$argon2id$" (String.append salt (String.append "$" password))).

Definition sample_argon2Verify (encoded password : string) : option bool :=
  Some (String.eqb encoded (String.append "$argon2id$salt$" password)).

Definition sample_jwt_sign (uid : Z) (secret : string) (now : Z) : string :=
  String.append "token-" (pretty uid).

(** Tokens that carry the secret they were signed with, a verifier that
    accepts the token of user 20 under that secret only, and a [.env] file
    that sets [JWT_SECRET]. *)
Definition sample_jwt_sign_secret (uid : Z) (secret : string) (now : Z) : string :=
  String.append "token-" (String.append (pretty uid) (String.append "/" secret)).

Definition sample_jwt_verify_secret (token secret : string) : option (option Z) :=
  if String.eqb token (String.append "token-20/" secret) then Some (Some 20) else None.

Definition sample_dotenv : gmap string string :=
  {[ "JWT_SECRET" := "jwt_secret_test" ]}.

(** An upload that asks for the model [constructor]. *)
Definition sample_upload_constructor : UploadRequest :=
  mkUploadRequest 20 (Some "r2") "generated" (Some "constructor") 1 (Ok tt).

(** The User table behind [sample_db]: user 20, registered with a password;
    and a table for the low-credit job: user 20 with credits to spare, user 21
    low on credits and never written to, user 22 low on credits and written to
    a day before, user 23 low on credits and without an address. *)
Definition sample_accounts : list User.t :=
  [User.mk 20 "asha" (Some "asha@example.com") None
     (Some "$argon2id$salt$correct horse") None 100 None].

Definition sample_low_credit_accounts : list User.t :=
  [User.mk 20 "asha" (Some "asha@example.com") None None None 100 None;
   User.mk 21 "ravi" (Some "ravi@example.com") None None None 3 None;
   User.mk 22 "mina" (Some "mina@example.com") None None None 5
     (Some (1700000000000 - 86400000));
   User.mk 23 "omar" None None None None 0 None].

Definition sample_smtp_penv : gmap string string :=
  {[ "SMTP_HOST" := "smtp.example.com" ]}.

(** ** Tactics for stepping through a transaction *)

Ltac tx_unfold :=
  unfold webhookEvent_update, payment_findUnique, payment_update,
    creditLedger_findFirst, creditLedger_create, user_update_increment, ret, bind,
    with_marker, set_webhookEvents, set_payments, set_users, set_creditLedger;
  cbn [users payments creditLedger webhookEvents].

Ltac tx_step :=
  cbv beta iota; cbn [users payments creditLedger webhookEvents CreditLedger.userId].

Ltac tx_marker :=
  tx_unfold; rewrite ?lookup_insert_eq, ?insert_insert_eq; try reflexivity.

Ltac tx_start Hfresh :=
  unfold webhook_tx; unfold bind at 1; unfold webhookEvent_create; rewrite Hfresh.

(** * Properties *)

(** ** The transaction monad and the Prisma calls *)

Lemma bind_ok {A B} (m : Tx A) (k : A -> Tx B) db a db1 :
  m db = Ok (a, db1) -> bind m k db = k a db1.
Proof. intros H. unfold bind. now rewrite H. Qed.

Lemma bind_throw {A B} (m : Tx A) (k : A -> Tx B) db e :
  m db = Throw e -> bind m k db = Throw e.
Proof. intros H. unfold bind. now rewrite H. Qed.

Lemma bind_inv {A B} (m : Tx A) (k : A -> Tx B) db b db' :
  bind m k db = Ok (b, db') ->
  exists a db1, m db = Ok (a, db1) /\ k a db1 = Ok (b, db').
Proof.
  unfold bind. destruct (m db) as [[a db1]|e]; [|discriminate].
  intros H. now exists a, db1.
Qed.

Lemma transaction_throw {A} (cb : Tx A) db e :
  cb db = Throw e -> transaction cb db = (db, Throw e).
Proof. intros H. unfold transaction. now rewrite H. Qed.

Lemma transaction_ok {A} (cb : Tx A) db a db' :
  cb db = Ok (a, db') -> transaction cb db = (db', Ok a).
Proof. intros H. unfold transaction. now rewrite H. Qed.

(** ** Counting keys in the ledger *)

Lemma count_key_app key l1 l2 :
  count_key key (l1 ++ l2) = (count_key key l1 + count_key key l2)%nat.
Proof. unfold count_key. now rewrite List.filter_app, length_app. Qed.

Lemma count_key_find_None key l :
  List.find (has_relatedId key) l = None <-> count_key key l = 0%nat.
Proof.
  unfold count_key. induction l as [|row l IH]; simpl; [tauto|].
  destruct (has_relatedId key row); simpl.
  - split; discriminate.
  - exact IH.
Qed.

Lemma has_relatedId_true key row :
  has_relatedId key row = true <-> CreditLedger.relatedId row = Some key.
Proof.
  unfold has_relatedId. destruct (CreditLedger.relatedId row) as [k|].
  - rewrite String.eqb_eq. split; congruence.
  - split; discriminate.
Qed.

Lemma count_key_single key row :
  count_key key [row] = if has_relatedId key row then 1%nat else 0%nat.
Proof. unfold count_key. simpl. now destruct (has_relatedId key row). Qed.

(** Appending a row whose key is null or absent from the ledger keeps the
    ledger free of repeated keys. *)
Lemma ledger_unique_snoc ledger row :
  ledger_unique ledger ->
  key_fresh (CreditLedger.relatedId row) ledger ->
  ledger_unique (ledger ++ [row]).
Proof.
  intros Hu Hf key. rewrite count_key_app, count_key_single.
  destruct (has_relatedId key row) eqn:Hk.
  - apply has_relatedId_true in Hk. rewrite Hk in Hf. simpl in Hf.
    rewrite Hf. lia.
  - specialize (Hu key). lia.
Qed.

(** ** services/credits.js *)

Lemma debitCredits_insufficient db userId amount reason relatedId c :
  users db !! userId = Some c -> c < amount ->
  debitCredits userId amount reason relatedId db = (db, Throw InsufficientCredits).
Proof.
  intros Hu Hlt. unfold debitCredits. apply transaction_throw.
  unfold debitCredits_tx, bind, user_findUnique. rewrite Hu.
  apply Z.ltb_lt in Hlt. now rewrite Hlt.
Qed.

Lemma debitCredits_no_user db userId amount reason relatedId :
  users db !! userId = None ->
  debitCredits userId amount reason relatedId db = (db, Throw InsufficientCredits).
Proof.
  intros Hu. unfold debitCredits. apply transaction_throw.
  unfold debitCredits_tx, bind, user_findUnique. now rewrite Hu.
Qed.

Lemma debitCredits_sufficient db userId amount reason relatedId c :
  users db !! userId = Some c -> amount <= c ->
  debitCredits userId amount reason relatedId db =
    (mkDB (<[userId := c - amount]> (users db)) (payments db)
          (creditLedger db ++ [CreditLedger.mk userId (- amount) debit reason relatedId])
          (webhookEvents db),
     Ok (c - amount)).
Proof.
  intros Hu Hle. unfold debitCredits. apply transaction_ok.
  unfold debitCredits_tx, bind, user_findUnique. rewrite Hu.
  apply Z.ltb_ge in Hle. rewrite Hle.
  unfold user_update_decrement. rewrite Hu.
  unfold creditLedger_create, set_users, set_creditLedger, ret. simpl.
  now rewrite lookup_insert_eq.
Qed.

Lemma int4_spec n : int4 n = true <-> -2147483648 <= n <= 2147483647.
Proof. unfold int4. rewrite andb_true_iff, !Z.leb_le. tauto. Qed.

Lemma creditCredits_ok db userId amount reason relatedId c :
  users db !! userId = Some c ->
  int4 amount = true -> int4 (c + amount) = true ->
  creditCredits userId amount reason relatedId db =
    (mkDB (<[userId := c + amount]> (users db)) (payments db)
          (creditLedger db ++ [CreditLedger.mk userId amount purchase reason relatedId])
          (webhookEvents db),
     Ok (c + amount)).
Proof.
  intros Hu Ha Hsum. unfold creditCredits. apply transaction_ok.
  unfold creditCredits_tx, bind, user_update_increment. rewrite Ha, Hu, Hsum.
  unfold creditLedger_create, set_users, set_creditLedger, ret. simpl.
  now rewrite lookup_insert_eq.
Qed.

Lemma creditCredits_no_user db userId amount reason relatedId :
  users db !! userId = None ->
  exists e, creditCredits userId amount reason relatedId db = (db, Throw e).
Proof.
  intros Hu. unfold creditCredits, transaction, creditCredits_tx, bind,
    user_update_increment. rewrite Hu. destruct (negb (int4 amount)); eauto.
Qed.

Lemma creditCredits_out_of_range db userId amount reason relatedId c :
  users db !! userId = Some c ->
  int4 amount && int4 (c + amount) = false ->
  creditCredits userId amount reason relatedId db = (db, Throw IntegerOutOfRange).
Proof.
  intros Hu Hr. unfold creditCredits. apply transaction_throw.
  unfold creditCredits_tx, bind, user_update_increment. rewrite Hu.
  destruct (int4 amount); [|reflexivity]. simpl in *. now rewrite Hr.
Qed.

(** [creditCredits] either fails and writes nothing, or raises the balance
    and appends its row. *)
Lemma creditCredits_cases db userId amount reason relatedId :
  (exists e, creditCredits userId amount reason relatedId db = (db, Throw e)) \/
  (exists c, users db !! userId = Some c /\
     creditCredits userId amount reason relatedId db =
       (mkDB (<[userId := c + amount]> (users db)) (payments db)
             (creditLedger db ++ [CreditLedger.mk userId amount purchase reason relatedId])
             (webhookEvents db),
        Ok (c + amount))).
Proof.
  destruct (users db !! userId) as [c|] eqn:Hu;
    [|left; now apply creditCredits_no_user].
  destruct (int4 amount && int4 (c + amount)) eqn:Hr.
  - apply andb_true_iff in Hr as [Ha Hsum]. right. exists c. split; [reflexivity|].
    now apply creditCredits_ok.
  - left. eexists. now apply creditCredits_out_of_range with (c := c).
Qed.

(** C5. [debitCredits] on an existing user: when the balance is below the
    amount the call throws the insufficient-credits error, whose [statusCode]
    is 402, and the store is left as it was (no ledger row, same balance);
    otherwise the balance is lowered by the amount and one ledger row of type
    [debit] with delta minus the amount is appended, both in the one
    transaction, and the new balance is returned. *)
Theorem C5_debitCredits (db : DB) (userId amount : Z) (reason : string)
    (relatedId : option string) (c : Z) :
  users db !! userId = Some c ->
  (c < amount ->
     debitCredits userId amount reason relatedId db = (db, Throw InsufficientCredits) /\
     statusCode InsufficientCredits = Some 402 /\
     message InsufficientCredits = "Insufficient credits") /\
  (~ c < amount ->
     let db' := (debitCredits userId amount reason relatedId db).1 in
     (debitCredits userId amount reason relatedId db).2 = Ok (c - amount) /\
     users db' = <[userId := c - amount]> (users db) /\
     users db' !! userId = Some (c - amount) /\
     creditLedger db' =
       creditLedger db ++ [CreditLedger.mk userId (- amount) debit reason relatedId] /\
     payments db' = payments db /\
     webhookEvents db' = webhookEvents db).
Proof.
  intros Hu. split.
  - intros Hlt. split; [|split; reflexivity].
    now apply debitCredits_insufficient with (c := c).
  - intros Hge. assert (amount <= c) as Hle by lia.
    rewrite (debitCredits_sufficient db userId amount reason relatedId c Hu Hle).
    simpl. rewrite lookup_insert_eq. repeat split; reflexivity.
Qed.

Lemma C5_debitCredits_witness :
  let poor := mkDB {[ 20 := 5 ]} [] [] ∅ in
  let rich := mkDB {[ 20 := 12 ]} [] [] ∅ in
  debitCredits 20 10 "model:gpt-5" (Some "r1") poor = (poor, Throw InsufficientCredits) /\
  statusCode InsufficientCredits = Some 402 /\
  (debitCredits 20 10 "model:gpt-5" (Some "r1") rich).2 = Ok (12 - 10) /\
  users (debitCredits 20 10 "model:gpt-5" (Some "r1") rich).1 !! 20 = Some (12 - 10) /\
  creditLedger (debitCredits 20 10 "model:gpt-5" (Some "r1") rich).1 =
    creditLedger rich ++ [CreditLedger.mk 20 (- 10) debit "model:gpt-5" (Some "r1")].
Proof.
  cbv zeta.
  destruct (C5_debitCredits (mkDB {[ 20 := 5 ]} [] [] ∅) 20 10 "model:gpt-5" (Some "r1") 5)
    as [Hpoor _]; [reflexivity|].
  destruct (C5_debitCredits (mkDB {[ 20 := 12 ]} [] [] ∅) 20 10 "model:gpt-5" (Some "r1") 12)
    as [_ Hrich]; [reflexivity|].
  destruct Hpoor as (H1 & H2 & _); [lia|].
  destruct Hrich as (H3 & _ & H4 & H5 & _); [lia|].
  split_and!; assumption.
Defined.

(** ** The upload handler's debit and refund *)

Lemma upload_runs (req : UploadRequest) :
  (0 < files req <= 3)%nat ->
  (files req =? 0)%nat = false /\ (3 <? files req)%nat = false.
Proof.
  intros [H0 H3]. split.
  - apply Nat.eqb_neq. lia.
  - apply Nat.ltb_ge. lia.
Qed.

Lemma getRequiredCredits_bounds model n :
  getRequiredCredits model = Credits n -> 1 <= n <= 10.
Proof.
  unfold getRequiredCredits, MODEL_CREDIT_COST, assoc.
  repeat (destruct (String.eqb _ model); [intros [= <-]; lia|]).
  destruct (existsb _ _); [discriminate|]. intros [= <-]. lia.
Qed.

Lemma debitCredits_cost_inherited db userId reason relatedId :
  exists e,
    debitCredits_cost userId Inherited reason relatedId db = (db, Throw e) /\
    (is_Some (users db !! userId) -> e = PrismaValidationError).
Proof.
  unfold debitCredits_cost, transaction, bind, user_findUnique, throw.
  destruct (users db !! userId) as [c|]; eexists; (split; [reflexivity|]).
  - reflexivity.
  - intros [x Hx]. discriminate.
Qed.

(** The debit of the upload handler succeeds exactly when the model has a
    price in credits and the user's balance covers it. *)
Lemma debitCredits_cost_ok db userId cost reason relatedId c balance :
  users db !! userId = Some c ->
  (debitCredits_cost userId cost reason relatedId db).2 = Ok balance ->
  exists n, cost = Credits n /\ n <= c /\ balance = c - n.
Proof.
  intros Hu Hok. destruct cost as [n|].
  - simpl in Hok. destruct (Z.lt_ge_cases c n) as [Hlt|Hge].
    + now rewrite (debitCredits_insufficient _ _ _ _ _ c Hu Hlt) in Hok.
    + rewrite (debitCredits_sufficient _ _ _ _ _ c Hu Hge) in Hok.
      injection Hok as <-. now exists n.
  - destruct (debitCredits_cost_inherited db userId reason relatedId) as (e & He & _).
    now rewrite He in Hok.
Qed.

(** C6 (as amended). When the pipeline fails after a successful debit (of a
    balance that is an INTEGER), the handler appends a second ledger row that
    gives the debited credits back: type [purchase], reason
    [refund:<requestId>], and [relatedId] the request id itself, the same
    [relatedId] as the debit row.  The debited amount is the model's price,
    between 1 and 10 credits; the balance is back to what it was and the
    response is 500. *)
Theorem C6_upload_refund (req : UploadRequest) (db : DB) (c balance : Z) (e : exn) :
  (0 < files req <= 3)%nat ->
  users db !! user_id req = Some c ->
  -2147483648 <= c <= 2147483647 ->
  (debitCredits_cost (user_id req) (getRequiredCredits (model_of req))
     (String.append "model:" (model_of req)) (Some (requestId_of req)) db).2 = Ok balance ->
  pipeline req = Throw e ->
  let requestId := requestId_of req in
  let db' := (upload req db).1 in
  exists required,
    getRequiredCredits (model_of req) = Credits required /\
    1 <= required <= 10 /\
    balance = c - required /\
    creditLedger db' =
      creditLedger db ++
        [ CreditLedger.mk (user_id req) (- required) debit
            (String.append "model:" (model_of req)) (Some requestId);
          CreditLedger.mk (user_id req) required purchase
            (String.append "refund:" requestId) (Some requestId) ] /\
    users db' = users db /\
    payments db' = payments db /\
    (upload req db).2 =
      mkResponse 500 (FailureDetails "Failed to process images" (message e) requestId).
Proof.
  intros Hfiles Hu Hc Hdebit He. cbv zeta.
  destruct (upload_runs req Hfiles) as [H0 H3].
  destruct (debitCredits_cost_ok _ _ _ _ _ _ _ Hu Hdebit) as (required & Hcost & Hle & ->).
  pose proof (getRequiredCredits_bounds _ _ Hcost) as Hbounds.
  exists required. split_and!; auto; try lia.
  all: unfold upload; rewrite H0, H3, Hcost; cbn [debitCredits_cost creditCredits_cost].
  all: rewrite (debitCredits_sufficient db _ _ _ _ c Hu Hle), He.
  all: erewrite creditCredits_ok;
    [ | simpl; apply lookup_insert_eq | apply int4_spec; lia | apply int4_spec; lia ].
  all: simpl; rewrite ?insert_insert_eq.
  all: replace (c - required + required) with c by lia.
  all: rewrite ?(insert_id _ _ _ Hu), <- ?app_assoc; reflexivity.
Qed.

Lemma C6_upload_refund_witness :
  let req := sample_upload in
  let db := sample_db in
  let requestId := requestId_of req in
  let db' := (upload req db).1 in
  exists required,
    getRequiredCredits (model_of req) = Credits required /\
    1 <= required <= 10 /\
    90 = 100 - required /\
    creditLedger db' =
      creditLedger db ++
        [ CreditLedger.mk (user_id req) (- required) debit
            (String.append "model:" (model_of req)) (Some requestId);
          CreditLedger.mk (user_id req) required purchase
            (String.append "refund:" requestId) (Some requestId) ] /\
    users db' = users db /\
    payments db' = payments db /\
    (upload req db).2 =
      mkResponse 500
        (FailureDetails "Failed to process images" (message (ProcessingError "ocr failed"))
           requestId).
Proof.
  apply (C6_upload_refund sample_upload sample_db 100 90 (ProcessingError "ocr failed")).
  - unfold sample_upload. simpl. lia.
  - reflexivity.
  - lia.
  - reflexivity.
  - reflexivity.
Defined.

(** The refund row of a failed upload carries the key of the debit row: after
    the request [r1] of the sample upload the ledger holds a debit and a
    purchase row, both with [relatedId = "r1"]. *)
Lemma upload_refund_key_is_debit_key :
  List.map CreditLedger.relatedId (creditLedger (upload sample_upload sample_db).1)
    = [Some "r1"; Some "r1"] /\
  List.map CreditLedger.type (creditLedger (upload sample_upload sample_db).1)
    = [debit; purchase] /\
  List.map CreditLedger.reason (creditLedger (upload sample_upload sample_db).1)
    = ["model:gpt-5"; "refund:r1"].
Proof. vm_compute. repeat split; reflexivity. Qed.

(** The service functions append whatever key they are given.  On the sample
    store a debit under [relatedId = "r1"] leaves a ledger without repeated
    keys; the credit under the same [relatedId] (the upload handler's refund)
    succeeds on it and leaves two rows with that key. *)
Lemma credit_after_debit_repeats_key :
  let db1 := (debitCredits 20 10 "model:gpt-5" (Some "r1") sample_db).1 in
  let db2 := (creditCredits 20 10 "refund:r1" (Some "r1") db1).1 in
  (debitCredits 20 10 "model:gpt-5" (Some "r1") sample_db).2 = Ok 90 /\
  ledger_unique (creditLedger db1) /\
  (creditCredits 20 10 "refund:r1" (Some "r1") db1).2 = Ok 100 /\
  count_key "r1" (creditLedger db2) = 2%nat.
Proof.
  cbv zeta. split_and!; try (vm_compute; reflexivity).
  assert (creditLedger (debitCredits 20 10 "model:gpt-5" (Some "r1") sample_db).1
          = [CreditLedger.mk 20 (- 10) debit "model:gpt-5" (Some "r1")]) as ->
    by (vm_compute; reflexivity).
  intros key. rewrite count_key_single. destruct (has_relatedId key _); lia.
Qed.

Lemma creditCredits_ledger_unique db userId amount reason relatedId :
  ledger_unique (creditLedger db) ->
  key_fresh relatedId (creditLedger db) ->
  ledger_unique (creditLedger (creditCredits userId amount reason relatedId db).1).
Proof.
  intros Hu Hf.
  destruct (creditCredits_cases db userId amount reason relatedId)
    as [(e & ->)|(c & Hc & ->)]; [exact Hu|].
  simpl. now apply ledger_unique_snoc.
Qed.

Lemma debitCredits_ledger_unique db userId amount reason relatedId :
  ledger_unique (creditLedger db) ->
  key_fresh relatedId (creditLedger db) ->
  ledger_unique (creditLedger (debitCredits userId amount reason relatedId db).1).
Proof.
  intros Hu Hf. destruct (users db !! userId) as [c|] eqn:Hc.
  - destruct (Z.lt_ge_cases c amount) as [Hlt|Hge].
    + now rewrite (debitCredits_insufficient _ _ _ _ _ c Hc Hlt).
    + rewrite (debitCredits_sufficient _ _ _ _ _ c Hc Hge). simpl.
      now apply ledger_unique_snoc.
  - now rewrite (debitCredits_no_user _ _ _ _ _ Hc).
Qed.

(** ** The signature verifiers and the client verify endpoint *)

Lemma find_existsb {A} (f : A -> bool) (l : list A) (a : A) :
  List.find f l = Some a -> existsb f l = true.
Proof.
  intros H. apply List.find_some in H as [Hin Hf].
  apply List.existsb_exists. now exists a.
Qed.



Section Properties.

Variable hmac_sha256_hex : string -> string -> string.
Variable JSON_parse : string -> option Parsed.

Local Abbreviation verifyWebhookSig := (verifyWebhookSignature hmac_sha256_hex).
Local Abbreviation verifyRazorpaySig := (verifyRazorpaySignature hmac_sha256_hex).
Local Abbreviation verify_ := (verify hmac_sha256_hex).
Local Abbreviation webhook_ := (webhook hmac_sha256_hex JSON_parse).
Local Abbreviation deliver_ := (deliver hmac_sha256_hex JSON_parse).
Local Abbreviation admits_ := (admits hmac_sha256_hex JSON_parse).

Lemma verifyWebhookSignature_total rawBody signature secret :
  verifyWebhookSig rawBody signature secret =
    Ok (match secret, rawBody with
        | Some key, Some raw => String.eqb (hmac_sha256_hex key raw) signature
        | _, _ => false
        end).
Proof.
  unfold verifyWebhookSignature, try_catch, createHmac_digest.
  destruct secret, rawBody; reflexivity.
Qed.

(** C7. The webhook verifier never throws: it returns [true] exactly when
    secret and body are present and the digest equals the signature, and
    [false] otherwise.  The client verifier has no handler around the digest:
    with a configured key secret it returns the comparison, and with
    [RAZORPAY_KEY_SECRET] unset it throws a [TypeError] for every order id,
    payment id and signature. *)
Theorem C7_verifiers (rawBody secret : option string) (env : Env)
    (orderId paymentId signature : string) :
  (exists b : bool,
     verifyWebhookSig rawBody signature secret = Ok b /\
     (b = true <->
      exists key raw, secret = Some key /\ rawBody = Some raw /\
                      hmac_sha256_hex key raw = signature)) /\
  (forall key, RAZORPAY_KEY_SECRET env = Some key ->
     verifyRazorpaySig env orderId paymentId signature =
       Ok (String.eqb
             (hmac_sha256_hex key (String.append orderId (String.append "|" paymentId)))
             signature)) /\
  verifyRazorpaySig (mkEnv (SITE_ID env) (RAZORPAY_WEBHOOK_SECRET env) None)
    orderId paymentId signature = Throw TypeError.
Proof.
  split; [|split].
  - rewrite verifyWebhookSignature_total. eexists. split; [reflexivity|].
    destruct secret as [key|], rawBody as [raw|]; split;
      try discriminate; try (intros (k & r & Hk & Hr & _); discriminate).
    + intros H. exists key, raw. apply String.eqb_eq in H. auto.
    + intros (k & r & Hk & Hr & H). apply String.eqb_eq. congruence.
  - intros key Hkey. unfold verifyRazorpaySignature, createHmac_digest.
    now rewrite Hkey.
  - reflexivity.
Qed.


(** C10 (as amended). An authenticated caller who presents a valid
    confirmation (the signature is the digest of [orderId|paymentId] under the
    configured key secret) for an order that belongs to another user gets 404
    [Payment not found] and the store is left as it was: the same response,
    and the same absence of writes, as on any store in which the order does
    not exist. *)
Theorem C10_verify_foreign_order (env : Env) (userId : Z) (b : VerifyBody) (db : DB)
    (payment : Payment.t) :
  userId <> 0 ->
  verifyRazorpaySig env (razorpay_order_id b) (razorpay_payment_id b)
    (razorpay_signature b) = Ok true ->
  List.find (fun p => String.eqb (Payment.razorpayOrderId p) (razorpay_order_id b))
    (payments db) = Some payment ->
  Payment.userId payment <> userId ->
  verify_ env userId (Some b) db =
    (db, Ok (mkResponse 404 (Failure "Payment not found"))) /\
  (forall db0 : DB,
     List.find (fun p => String.eqb (Payment.razorpayOrderId p) (razorpay_order_id b))
       (payments db0) = None ->
     verify_ env userId (Some b) db0 =
       (db0, Ok (mkResponse 404 (Failure "Payment not found")))).
Proof.
  intros Hid Hsig Hfind Hother.
  apply Z.eqb_neq in Hid. apply Z.eqb_neq in Hother.
  split; [|intros db0 Hnone];
    unfold verify, await, transaction, payment_findUnique;
    rewrite Hid, Hsig.
  - rewrite Hfind. now rewrite Hother.
  - now rewrite Hnone.
Qed.

(** ** The webhook handler *)

Lemma webhook_admitted env req signature payload db :
  admits_ env req signature payload ->
  webhook_ env req db = webhook_parsed env signature payload db.
Proof.
  intros (raw & key & Hsig & Hne & Hraw & Hkey & Hmac & Hparse).
  unfold webhook. rewrite Hsig, Hraw, Hkey.
  destruct signature as [|ch rest]; [congruence|].
  rewrite verifyWebhookSignature_total, Hmac, String.eqb_refl. simpl.
  now rewrite Hparse.
Qed.

(** A request either runs the handler's steps on a parsed event or changes
    nothing. *)
Lemma webhook_cases env req db :
  (exists signature payload,
     webhook_ env req db = webhook_parsed env signature payload db) \/
  (webhook_ env req db).1 = db.
Proof.
  unfold webhook. destruct (x_razorpay_signature req) as [[|ch rest]|] eqn:Hsig;
    [now right| |now right].
  rewrite verifyWebhookSignature_total.
  destruct (RAZORPAY_WEBHOOK_SECRET env) as [key|] eqn:Hkey; [|now right].
  destruct (rawBody req) as [raw|] eqn:Hraw; [|now right].
  destruct (String.eqb _ _) eqn:Hmac; [|now right].
  simpl. destruct (JSON_parse raw) as [[payload|payload]|] eqn:Hparse; [| |now right].
  - left. now exists (String ch rest), payload.
  - destruct (eventId_of payload); [|now right].
    destruct (truthy_string _); [|now right].
    left. now exists (String ch rest), payload.
Qed.

Lemma find_by_id payment (l : list Payment.t) (f : Payment.t -> bool) :
  List.find f l = Some payment -> existsb (by_id payment) l = true.
Proof.
  intros H. apply List.find_some in H as [Hin _].
  apply List.existsb_exists. exists payment. split; [exact Hin|].
  unfold by_id. apply Z.eqb_refl.
Qed.

(** *** The paths of the transaction *)

Lemma webhook_tx_duplicate env signature eventId payload db w :
  webhookEvents db !! eventId = Some w ->
  webhook_tx env signature eventId payload db = Throw P2002.
Proof. intros Hdup. now tx_start Hdup. Qed.

Lemma webhook_tx_ignored env signature eventId payload db :
  webhookEvents db !! eventId = None ->
  site_differs (siteId_of payload) (SITE_ID env) = true ->
  webhook_tx env signature eventId payload db =
    Ok (tt, with_marker eventId ignored payload db).
Proof. intros Hfresh Hsite. tx_start Hfresh. rewrite Hsite. tx_marker. Qed.

Lemma webhook_tx_no_selector env signature eventId payload db :
  webhookEvents db !! eventId = None ->
  site_differs (siteId_of payload) (SITE_ID env) = false ->
  razorpayOrderId_of payload = None ->
  webhook_tx env signature eventId payload db = Throw PrismaValidationError.
Proof. intros Hfresh Hsite Hsel. tx_start Hfresh. rewrite Hsite, Hsel. tx_marker. Qed.

Lemma webhook_tx_no_order env signature eventId payload db orderId :
  webhookEvents db !! eventId = None ->
  site_differs (siteId_of payload) (SITE_ID env) = false ->
  razorpayOrderId_of payload = Some orderId ->
  List.find (fun p => String.eqb (Payment.razorpayOrderId p) orderId) (payments db) = None ->
  webhook_tx env signature eventId payload db =
    Ok (tt, with_marker eventId no_local_order payload db).
Proof.
  intros Hfresh Hsite Hsel Hfind. tx_start Hfresh. rewrite Hsite, Hsel.
  tx_unfold. rewrite Hfind. tx_marker.
Qed.

Lemma webhook_tx_mismatch env signature eventId payload db orderId payment :
  webhookEvents db !! eventId = None ->
  site_differs (siteId_of payload) (SITE_ID env) = false ->
  razorpayOrderId_of payload = Some orderId ->
  List.find (fun p => String.eqb (Payment.razorpayOrderId p) orderId) (payments db)
    = Some payment ->
  amount_mismatches (amount_of payload) (Payment.amountPaise payment) = true ->
  webhook_tx env signature eventId payload db =
    Ok (tt, with_marker eventId amount_mismatch payload db).
Proof.
  intros Hfresh Hsite Hsel Hfind Hamt. tx_start Hfresh. rewrite Hsite, Hsel.
  tx_unfold. rewrite Hfind, Hamt. tx_marker.
Qed.

Lemma webhook_tx_credit env signature eventId payload db orderId payment c :
  webhookEvents db !! eventId = None ->
  site_differs (siteId_of payload) (SITE_ID env) = false ->
  razorpayOrderId_of payload = Some orderId ->
  List.find (fun p => String.eqb (Payment.razorpayOrderId p) orderId) (payments db)
    = Some payment ->
  amount_mismatches (amount_of payload) (Payment.amountPaise payment) = false ->
  is_paid_event (Event.event payload) = true ->
  List.find (has_relatedId (ledger_key (razorpayPaymentId_of payload))) (creditLedger db)
    = None ->
  users db !! Payment.userId payment = Some c ->
  int4 (Payment.creditsPurchased payment) = true ->
  int4 (c + Payment.creditsPurchased payment) = true ->
  webhook_tx env signature eventId payload db =
    Ok (tt,
        mkDB (<[Payment.userId payment := c + Payment.creditsPurchased payment]> (users db))
          (List.map (fun p => if by_id payment p
                              then mark_paid (razorpayPaymentId_of payload) signature p
                              else p) (payments db))
          (creditLedger db ++ [purchase_row payment (razorpayPaymentId_of payload)])
          (<[eventId := WebhookEvent.mk processed (Some payload)]> (webhookEvents db))).
Proof.
  intros Hfresh Hsite Hsel Hfind Hamt Hev Hled Hu Hp Hsum. tx_start Hfresh.
  rewrite Hsite, Hsel.
  tx_unfold. rewrite Hfind, Hamt, Hev. tx_step. rewrite Hled.
  tx_step. rewrite (find_by_id _ _ _ Hfind).
  tx_step. rewrite Hu. tx_step. rewrite Hp. cbn [negb]. tx_step. rewrite Hu, Hsum. tx_step.
  rewrite lookup_insert_eq, insert_insert_eq. reflexivity.
Qed.

(** The increment that would take the balance out of the INTEGER range is
    refused, and with it the whole transaction. *)
Lemma webhook_tx_credit_out_of_range env signature eventId payload db orderId payment c :
  webhookEvents db !! eventId = None ->
  site_differs (siteId_of payload) (SITE_ID env) = false ->
  razorpayOrderId_of payload = Some orderId ->
  List.find (fun p => String.eqb (Payment.razorpayOrderId p) orderId) (payments db)
    = Some payment ->
  amount_mismatches (amount_of payload) (Payment.amountPaise payment) = false ->
  is_paid_event (Event.event payload) = true ->
  List.find (has_relatedId (ledger_key (razorpayPaymentId_of payload))) (creditLedger db)
    = None ->
  users db !! Payment.userId payment = Some c ->
  int4 (Payment.creditsPurchased payment) && int4 (c + Payment.creditsPurchased payment)
    = false ->
  webhook_tx env signature eventId payload db = Throw IntegerOutOfRange.
Proof.
  intros Hfresh Hsite Hsel Hfind Hamt Hev Hled Hu Hr. tx_start Hfresh.
  rewrite Hsite, Hsel.
  tx_unfold. rewrite Hfind, Hamt, Hev. tx_step. rewrite Hled.
  tx_step. rewrite (find_by_id _ _ _ Hfind).
  tx_step. rewrite Hu. tx_step.
  destruct (int4 (Payment.creditsPurchased payment)); [|reflexivity].
  cbn [negb andb] in *. tx_step. now rewrite Hu, Hr.
Qed.

Lemma webhook_tx_credit_no_user env signature eventId payload db orderId payment :
  webhookEvents db !! eventId = None ->
  site_differs (siteId_of payload) (SITE_ID env) = false ->
  razorpayOrderId_of payload = Some orderId ->
  List.find (fun p => String.eqb (Payment.razorpayOrderId p) orderId) (payments db)
    = Some payment ->
  amount_mismatches (amount_of payload) (Payment.amountPaise payment) = false ->
  is_paid_event (Event.event payload) = true ->
  List.find (has_relatedId (ledger_key (razorpayPaymentId_of payload))) (creditLedger db)
    = None ->
  users db !! Payment.userId payment = None ->
  webhook_tx env signature eventId payload db = Throw P2003.
Proof.
  intros Hfresh Hsite Hsel Hfind Hamt Hev Hled Hu. tx_start Hfresh. rewrite Hsite, Hsel.
  tx_unfold. rewrite Hfind, Hamt, Hev. tx_step. rewrite Hled.
  tx_step. rewrite (find_by_id _ _ _ Hfind).
  tx_step. now rewrite Hu.
Qed.

Lemma webhook_tx_already_credited env signature eventId payload db orderId payment row :
  webhookEvents db !! eventId = None ->
  site_differs (siteId_of payload) (SITE_ID env) = false ->
  razorpayOrderId_of payload = Some orderId ->
  List.find (fun p => String.eqb (Payment.razorpayOrderId p) orderId) (payments db)
    = Some payment ->
  amount_mismatches (amount_of payload) (Payment.amountPaise payment) = false ->
  is_paid_event (Event.event payload) = true ->
  List.find (has_relatedId (ledger_key (razorpayPaymentId_of payload))) (creditLedger db)
    = Some row ->
  webhook_tx env signature eventId payload db =
    Ok (tt,
        with_marker eventId processed payload
          (set_payments
             (List.map (fun p => if by_id payment p
                                 then mark_paid (razorpayPaymentId_of payload) signature p
                                 else p)) db)).
Proof.
  intros Hfresh Hsite Hsel Hfind Hamt Hev Hled. tx_start Hfresh. rewrite Hsite, Hsel.
  tx_unfold. rewrite Hfind, Hamt, Hev. tx_step. rewrite Hled.
  tx_step. rewrite (find_by_id _ _ _ Hfind). tx_step.
  rewrite lookup_insert_eq, insert_insert_eq. reflexivity.
Qed.

Lemma webhook_tx_failed env signature eventId payload db orderId payment :
  webhookEvents db !! eventId = None ->
  site_differs (siteId_of payload) (SITE_ID env) = false ->
  razorpayOrderId_of payload = Some orderId ->
  List.find (fun p => String.eqb (Payment.razorpayOrderId p) orderId) (payments db)
    = Some payment ->
  amount_mismatches (amount_of payload) (Payment.amountPaise payment) = false ->
  is_paid_event (Event.event payload) = false ->
  is_event (Event.event payload) "payment.failed" = true ->
  webhook_tx env signature eventId payload db =
    Ok (tt,
        with_marker eventId processed payload
          (set_payments
             (List.map (fun p => if by_id payment p then mark_failed p else p)) db)).
Proof.
  intros Hfresh Hsite Hsel Hfind Hamt Hev Hfail. tx_start Hfresh. rewrite Hsite, Hsel.
  tx_unfold. rewrite Hfind, Hamt, Hev, Hfail. tx_step.
  rewrite (find_by_id _ _ _ Hfind). tx_step.
  rewrite lookup_insert_eq, insert_insert_eq. reflexivity.
Qed.

Lemma webhook_tx_other env signature eventId payload db orderId payment :
  webhookEvents db !! eventId = None ->
  site_differs (siteId_of payload) (SITE_ID env) = false ->
  razorpayOrderId_of payload = Some orderId ->
  List.find (fun p => String.eqb (Payment.razorpayOrderId p) orderId) (payments db)
    = Some payment ->
  amount_mismatches (amount_of payload) (Payment.amountPaise payment) = false ->
  is_paid_event (Event.event payload) = false ->
  is_event (Event.event payload) "payment.failed" = false ->
  webhook_tx env signature eventId payload db =
    Ok (tt, with_marker eventId processed payload db).
Proof.
  intros Hfresh Hsite Hsel Hfind Hamt Hev Hfail. tx_start Hfresh. rewrite Hsite, Hsel.
  tx_unfold. rewrite Hfind, Hamt, Hev, Hfail. tx_step.
  rewrite lookup_insert_eq, insert_insert_eq. reflexivity.
Qed.

(** *** From the transaction to the response *)

Lemma webhook_parsed_ok env signature payload db eventId db' :
  eventId_of payload = Some eventId ->
  webhook_tx env signature eventId payload db = Ok (tt, db') ->
  webhook_parsed env signature payload db = (db', Ok (mkResponse 200 (Text "ok"))).
Proof.
  intros Hid Htx. unfold webhook_parsed, transaction. now rewrite Hid, Htx.
Qed.

Lemma webhook_parsed_duplicate env signature payload db eventId w :
  eventId_of payload = Some eventId ->
  webhookEvents db !! eventId = Some w ->
  webhook_parsed env signature payload db = (db, Ok (mkResponse 200 (Text "ok"))).
Proof.
  intros Hid Hdup. unfold webhook_parsed, transaction.
  now rewrite Hid, (webhook_tx_duplicate _ _ _ _ _ _ Hdup).
Qed.

Lemma webhook_parsed_error env signature payload db eventId e :
  eventId_of payload = Some eventId ->
  webhookEvents db !! eventId = None ->
  webhook_tx env signature eventId payload db = Throw e ->
  e <> P2002 ->
  webhook_parsed env signature payload db =
    (db, Ok (mkResponse 500 (Text "processing error"))).
Proof.
  intros Hid Hfresh Htx He. unfold webhook_parsed, transaction. rewrite Hid, Htx.
  rewrite bool_decide_eq_false_2 by (destruct e; simpl; congruence).
  unfold await, transaction, webhookEvent_update. now rewrite Hfresh.
Qed.

(** *** Scope, amount and crediting *)

(** C8. An admitted event whose site tag differs from the configured
    [SITE_ID] (a tag for another site, no tag at all, or no [SITE_ID]) leaves
    payments, ledger and balances as they were.  If it carries an event id the
    response is 200; on first delivery its marker is set to [ignored] with the
    payload, and on a repeated delivery nothing at all is written. *)
Theorem C8_scope_isolation (env : Env) (req : WebhookRequest) (signature : string)
    (payload : Event.t) (db : DB) :
  admits_ env req signature payload ->
  site_differs (siteId_of payload) (SITE_ID env) = true ->
  let db' := (webhook_ env req db).1 in
  payments db' = payments db /\
  creditLedger db' = creditLedger db /\
  users db' = users db /\
  (forall eventId, eventId_of payload = Some eventId ->
     (webhook_ env req db).2 = Ok (mkResponse 200 (Text "ok")) /\
     (webhookEvents db !! eventId = None ->
        webhookEvents db' =
          <[eventId := WebhookEvent.mk ignored (Some payload)]> (webhookEvents db)) /\
     (is_Some (webhookEvents db !! eventId) -> db' = db)).
Proof.
  intros Hadm Hsite. cbv zeta. rewrite (webhook_admitted _ _ _ _ db Hadm).
  destruct (eventId_of payload) as [eventId|] eqn:Hid.
  - destruct (webhookEvents db !! eventId) as [w|] eqn:Hm.
    + rewrite (webhook_parsed_duplicate _ _ _ _ _ _ Hid Hm). simpl.
      split_and!; try reflexivity.
      intros eid [= <-]. split_and!; try reflexivity. congruence.
    + rewrite (webhook_parsed_ok _ _ _ _ _ _ Hid
                 (webhook_tx_ignored _ signature _ _ _ Hm Hsite)). simpl.
      split_and!; try reflexivity.
      intros eid [= <-]. split_and!; try reflexivity.
      rewrite Hm. intros [w Hw]. discriminate.
  - unfold webhook_parsed. rewrite Hid. simpl. split_and!; try reflexivity.
    intros eid [=].
Qed.

Lemma amount_mismatches_true payload amount amountPaise :
  amount_of payload = Some amount -> amount <> 0 -> amount <> amountPaise ->
  amount_mismatches (amount_of payload) amountPaise = true.
Proof.
  intros -> H0 Hne. unfold amount_mismatches.
  apply Z.eqb_neq in H0. apply Z.eqb_neq in Hne. now rewrite H0, Hne.
Qed.

(** C3 (as amended). An admitted event for this site whose order is found
    and which reports a non-zero amount different from the order's
    [amountPaise] leaves ledger, balances and payments (so also the order's
    status) as they were and is answered with 200; on first delivery its
    marker is set to [amount_mismatch], on a repeated delivery nothing is
    written. *)
Theorem C3_amount_mismatch (env : Env) (req : WebhookRequest) (signature : string)
    (payload : Event.t) (db : DB) (eventId orderId : string) (payment : Payment.t)
    (amount : Z) :
  admits_ env req signature payload ->
  eventId_of payload = Some eventId ->
  site_differs (siteId_of payload) (SITE_ID env) = false ->
  razorpayOrderId_of payload = Some orderId ->
  List.find (fun p => String.eqb (Payment.razorpayOrderId p) orderId) (payments db)
    = Some payment ->
  amount_of payload = Some amount ->
  amount <> 0 ->
  amount <> Payment.amountPaise payment ->
  let db' := (webhook_ env req db).1 in
  creditLedger db' = creditLedger db /\
  users db' = users db /\
  payments db' = payments db /\
  (webhook_ env req db).2 = Ok (mkResponse 200 (Text "ok")) /\
  (webhookEvents db !! eventId = None ->
     webhookEvents db' =
       <[eventId := WebhookEvent.mk amount_mismatch (Some payload)]> (webhookEvents db)) /\
  (is_Some (webhookEvents db !! eventId) -> db' = db).
Proof.
  intros Hadm Hid Hsite Hsel Hfind Hamt H0 Hne. cbv zeta.
  rewrite (webhook_admitted _ _ _ _ db Hadm).
  destruct (webhookEvents db !! eventId) as [w|] eqn:Hm.
  - rewrite (webhook_parsed_duplicate _ _ _ _ _ _ Hid Hm). simpl.
    split_and!; try reflexivity. congruence.
  - rewrite (webhook_parsed_ok _ _ _ _ _ _ Hid
               (webhook_tx_mismatch _ signature _ _ _ _ _ Hm Hsite Hsel Hfind
                  (amount_mismatches_true _ _ _ Hamt H0 Hne))).
    simpl. split_and!; try reflexivity. intros [w Hw]. discriminate.
Qed.

Lemma amount_of_falsy payload amountPaise :
  truthy_num (Event.payment payload ≫= Event.pamount) = false ->
  truthy_num (Event.order payload ≫= Event.oamount) = false ->
  amount_mismatches (amount_of payload) amountPaise = false.
Proof.
  intros Hp Ho. unfold amount_of, or_num. rewrite Hp.
  unfold amount_mismatches, truthy_num in *.
  destruct (Event.order payload ≫= Event.oamount) as [a|]; [|reflexivity].
  apply negb_false_iff in Ho. now rewrite Ho.
Qed.

(** C9 (as amended). When neither the payment entity nor the order entity of
    an admitted event carries a truthy amount (absent, null or zero), no
    comparison with the order's [amountPaise] takes place, whatever that
    amount is.  A first delivery of such a captured, authorized or paid event
    for a found order, when no ledger row carries the key
    [razorpay:<payment id>] yet and the owner's balance with the order's
    [creditsPurchased] added is still an INTEGER, is credited in full (one
    purchase row for [creditsPurchased], the balance raised by as much, the
    order marked paid with the provider's payment id and the signature, the
    marker [processed], response 200). *)
Theorem C9_missing_amount_is_credited (env : Env) (req : WebhookRequest)
    (signature : string) (payload : Event.t) (db : DB) (eventId orderId : string)
    (payment : Payment.t) (c : Z) :
  admits_ env req signature payload ->
  eventId_of payload = Some eventId ->
  webhookEvents db !! eventId = None ->
  site_differs (siteId_of payload) (SITE_ID env) = false ->
  razorpayOrderId_of payload = Some orderId ->
  List.find (fun p => String.eqb (Payment.razorpayOrderId p) orderId) (payments db)
    = Some payment ->
  truthy_num (Event.payment payload ≫= Event.pamount) = false ->
  truthy_num (Event.order payload ≫= Event.oamount) = false ->
  is_paid_event (Event.event payload) = true ->
  count_key (ledger_key (razorpayPaymentId_of payload)) (creditLedger db) = 0%nat ->
  users db !! Payment.userId payment = Some c ->
  int4 (Payment.creditsPurchased payment) = true ->
  int4 (c + Payment.creditsPurchased payment) = true ->
  let db' := (webhook_ env req db).1 in
  amount_mismatches (amount_of payload) (Payment.amountPaise payment) = false /\
  creditLedger db' =
    creditLedger db ++ [purchase_row payment (razorpayPaymentId_of payload)] /\
  users db' = <[Payment.userId payment := c + Payment.creditsPurchased payment]> (users db) /\
  payments db' =
    List.map (fun p => if by_id payment p
                       then mark_paid (razorpayPaymentId_of payload) signature p
                       else p) (payments db) /\
  webhookEvents db' =
    <[eventId := WebhookEvent.mk processed (Some payload)]> (webhookEvents db) /\
  (webhook_ env req db).2 = Ok (mkResponse 200 (Text "ok")).
Proof.
  intros Hadm Hid Hm Hsite Hsel Hfind Hp Ho Hev Hkey Hu Hcp Hsum. cbv zeta.
  pose proof (amount_of_falsy payload (Payment.amountPaise payment) Hp Ho) as Hamt.
  apply count_key_find_None in Hkey.
  rewrite (webhook_admitted _ _ _ _ db Hadm).
  rewrite (webhook_parsed_ok _ _ _ _ _ _ Hid
             (webhook_tx_credit _ signature _ _ _ _ _ _ Hm Hsite Hsel Hfind Hamt Hev
                Hkey Hu Hcp Hsum)).
  simpl. split_and!; try reflexivity. exact Hamt.
Qed.

(** *** Repeated delivery *)

Lemma webhook_duplicate env req signature payload eventId db w :
  admits_ env req signature payload ->
  eventId_of payload = Some eventId ->
  webhookEvents db !! eventId = Some w ->
  webhook_ env req db = (db, Ok (mkResponse 200 (Text "ok"))).
Proof.
  intros Hadm Hid Hm. rewrite (webhook_admitted _ _ _ _ db Hadm).
  exact (webhook_parsed_duplicate _ _ _ _ _ _ Hid Hm).
Qed.

Lemma deliver_duplicates env req signature payload eventId db w (n : nat) :
  admits_ env req signature payload ->
  eventId_of payload = Some eventId ->
  webhookEvents db !! eventId = Some w ->
  deliver_ n env req db = (db, replicate n (Ok (mkResponse 200 (Text "ok")))).
Proof.
  intros Hadm Hid Hm. induction n as [|n IH]; simpl; [reflexivity|].
  now rewrite (webhook_duplicate _ _ _ _ _ _ _ Hadm Hid Hm), IH.
Qed.

(** C1 (as amended). An admitted captured, authorized or paid event for this
    site, with a found order and no amount mismatch, whose event id has no
    marker yet, whose key [razorpay:<payment id>] is carried by no ledger row
    yet, and whose order's [creditsPurchased] added to the owner's balance is
    still an INTEGER, is delivered [n >= 1] times in a row.  Afterwards the
    ledger is the old ledger plus one purchase row under that key for the
    order's [creditsPurchased], so exactly one row carries the key; the
    owner's balance has grown by [creditsPurchased], once; every response is
    200; and the store is the one the first delivery left, which any further
    delivery leaves as it is. *)
Theorem C1_idempotent_delivery (env : Env) (req : WebhookRequest) (signature : string)
    (payload : Event.t) (db : DB) (eventId orderId : string) (payment : Payment.t)
    (c : Z) (n : nat) :
  admits_ env req signature payload ->
  eventId_of payload = Some eventId ->
  webhookEvents db !! eventId = None ->
  site_differs (siteId_of payload) (SITE_ID env) = false ->
  razorpayOrderId_of payload = Some orderId ->
  List.find (fun p => String.eqb (Payment.razorpayOrderId p) orderId) (payments db)
    = Some payment ->
  amount_mismatches (amount_of payload) (Payment.amountPaise payment) = false ->
  is_paid_event (Event.event payload) = true ->
  count_key (ledger_key (razorpayPaymentId_of payload)) (creditLedger db) = 0%nat ->
  users db !! Payment.userId payment = Some c ->
  int4 (Payment.creditsPurchased payment) = true ->
  int4 (c + Payment.creditsPurchased payment) = true ->
  (1 <= n)%nat ->
  let dbn := (deliver_ n env req db).1 in
  creditLedger dbn =
    creditLedger db ++ [purchase_row payment (razorpayPaymentId_of payload)] /\
  count_key (ledger_key (razorpayPaymentId_of payload)) (creditLedger dbn) = 1%nat /\
  users dbn = <[Payment.userId payment := c + Payment.creditsPurchased payment]> (users db) /\
  (deliver_ n env req db).2 = replicate n (Ok (mkResponse 200 (Text "ok"))) /\
  dbn = (webhook_ env req db).1 /\
  webhook_ env req dbn = (dbn, Ok (mkResponse 200 (Text "ok"))).
Proof.
  intros Hadm Hid Hm Hsite Hsel Hfind Hamt Hev Hkey Hu Hcp Hsum Hn. cbv zeta.
  destruct n as [|n]; [lia|]. simpl.
  pose proof Hkey as Hnone. apply count_key_find_None in Hnone.
  pose proof (webhook_parsed_ok _ _ _ _ _ _ Hid
                (webhook_tx_credit _ signature _ _ _ _ _ _ Hm Hsite Hsel Hfind Hamt Hev
                   Hnone Hu Hcp Hsum)) as Hfirst.
  rewrite <- (webhook_admitted _ _ _ _ db Hadm) in Hfirst. rewrite Hfirst.
  match type of Hfirst with _ = (?d, _) => set (db1 := d) in * end.
  assert (webhookEvents db1 !! eventId = Some (WebhookEvent.mk processed (Some payload)))
    as Hm1 by (subst db1; simpl; apply lookup_insert_eq).
  rewrite (deliver_duplicates _ _ _ _ _ _ _ n Hadm Hid Hm1). simpl.
  split_and!; try reflexivity.
  - subst db1. simpl. rewrite count_key_app, Hkey, count_key_single.
    unfold has_relatedId, purchase_row. simpl. now rewrite String.eqb_refl.
  - exact (webhook_duplicate _ _ _ _ _ _ _ Hadm Hid Hm1).
Qed.

(** *** The ledger under the webhook *)

(** Whatever the parsed event and the store, the handler either leaves the
    ledger and the balances alone or appends one purchase row whose key was
    not in the ledger and raises the owner's balance by the row's delta. *)
Lemma webhook_parsed_ledger env signature payload db :
  let db' := (webhook_parsed env signature payload db).1 in
  (creditLedger db' = creditLedger db /\ users db' = users db) \/
  (exists row key c,
     CreditLedger.relatedId row = Some key /\
     count_key key (creditLedger db) = 0%nat /\
     creditLedger db' = creditLedger db ++ [row] /\
     users db !! CreditLedger.userId row = Some c /\
     users db' = <[CreditLedger.userId row := c + CreditLedger.delta row]> (users db)).
Proof.
  cbv zeta.
  destruct (eventId_of payload) as [eventId|] eqn:Hid;
    [|left; unfold webhook_parsed; now rewrite Hid].
  destruct (webhookEvents db !! eventId) as [w|] eqn:Hm;
    [left; now rewrite (webhook_parsed_duplicate _ _ _ _ _ _ Hid Hm)|].
  destruct (site_differs (siteId_of payload) (SITE_ID env)) eqn:Hsite.
  { left. now rewrite (webhook_parsed_ok _ _ _ _ _ _ Hid
                         (webhook_tx_ignored _ signature _ _ _ Hm Hsite)). }
  destruct (razorpayOrderId_of payload) as [orderId|] eqn:Hsel.
  2:{ left. now rewrite (webhook_parsed_error _ _ _ _ _ _ Hid Hm
                           (webhook_tx_no_selector _ signature _ _ _ Hm Hsite Hsel)). }
  destruct (List.find (fun p => String.eqb (Payment.razorpayOrderId p) orderId)
              (payments db)) as [payment|] eqn:Hfind.
  2:{ left. now rewrite (webhook_parsed_ok _ _ _ _ _ _ Hid
                           (webhook_tx_no_order _ signature _ _ _ _ Hm Hsite Hsel Hfind)). }
  destruct (amount_mismatches (amount_of payload) (Payment.amountPaise payment)) eqn:Hamt.
  { left. now rewrite (webhook_parsed_ok _ _ _ _ _ _ Hid
                         (webhook_tx_mismatch _ signature _ _ _ _ _ Hm Hsite Hsel Hfind
                            Hamt)). }
  destruct (is_paid_event (Event.event payload)) eqn:Hev.
  - destruct (List.find (has_relatedId (ledger_key (razorpayPaymentId_of payload)))
                (creditLedger db)) as [row|] eqn:Hled.
    { left. now rewrite (webhook_parsed_ok _ _ _ _ _ _ Hid
                           (webhook_tx_already_credited _ signature _ _ _ _ _ _ Hm Hsite
                              Hsel Hfind Hamt Hev Hled)). }
    destruct (users db !! Payment.userId payment) as [c|] eqn:Hu.
    + destruct (int4 (Payment.creditsPurchased payment)
                && int4 (c + Payment.creditsPurchased payment)) eqn:Hr.
      2:{ left. now rewrite (webhook_parsed_error _ _ _ _ _ _ Hid Hm
                               (webhook_tx_credit_out_of_range _ signature _ _ _ _ _ _ Hm
                                  Hsite Hsel Hfind Hamt Hev Hled Hu Hr)). }
      apply andb_true_iff in Hr as [Hcp Hsum].
      right. exists (purchase_row payment (razorpayPaymentId_of payload)),
        (ledger_key (razorpayPaymentId_of payload)), c.
      rewrite (webhook_parsed_ok _ _ _ _ _ _ Hid
                 (webhook_tx_credit _ signature _ _ _ _ _ _ Hm Hsite Hsel Hfind Hamt Hev
                    Hled Hu Hcp Hsum)).
      simpl. split_and!; try reflexivity; try assumption.
      now apply count_key_find_None.
    + left. now rewrite (webhook_parsed_error _ _ _ _ _ _ Hid Hm
                           (webhook_tx_credit_no_user _ signature _ _ _ _ _ Hm Hsite Hsel
                              Hfind Hamt Hev Hled Hu)).
  - destruct (is_event (Event.event payload) "payment.failed") eqn:Hfail.
    + left. now rewrite (webhook_parsed_ok _ _ _ _ _ _ Hid
                           (webhook_tx_failed _ signature _ _ _ _ _ Hm Hsite Hsel Hfind
                              Hamt Hev Hfail)).
    + left. now rewrite (webhook_parsed_ok _ _ _ _ _ _ Hid
                           (webhook_tx_other _ signature _ _ _ _ _ Hm Hsite Hsel Hfind
                              Hamt Hev Hfail)).
Qed.

Lemma webhook_ledger_unique env req db :
  ledger_unique (creditLedger db) ->
  ledger_unique (creditLedger (webhook_ env req db).1).
Proof.
  intros Hu. destruct (webhook_cases env req db) as [(signature & payload & Hadm)|Hsame];
    [|now rewrite Hsame].
  rewrite Hadm.
  destruct (webhook_parsed_ledger env signature payload db)
    as [[Hl _]|(row & key & c & Hrow & Hkey & Hl & _)]; rewrite Hl; [exact Hu|].
  apply ledger_unique_snoc; [exact Hu|]. now rewrite Hrow.
Qed.

(** C2 (as amended). The layout puts no unique index on
    [CreditLedger.relatedId]; what keeps keys from repeating is the code that
    appends.  The webhook looks the key up inside its transaction and appends
    only when no row carries it, so on every request it keeps a ledger free
    of repeated keys free of them.  [creditCredits] and [debitCredits] append
    without looking: they keep the ledger free of repeated keys when the key
    they are given is null or not yet in the ledger. *)
Theorem C2_ledger_key_uniqueness :
  (forall (env : Env) (req : WebhookRequest) (db : DB),
     ledger_unique (creditLedger db) ->
     ledger_unique (creditLedger (webhook_ env req db).1)) /\
  (forall (db : DB) (userId amount : Z) (reason : string) (relatedId : option string),
     ledger_unique (creditLedger db) ->
     key_fresh relatedId (creditLedger db) ->
     ledger_unique (creditLedger (creditCredits userId amount reason relatedId db).1)) /\
  (forall (db : DB) (userId amount : Z) (reason : string) (relatedId : option string),
     ledger_unique (creditLedger db) ->
     key_fresh relatedId (creditLedger db) ->
     ledger_unique (creditLedger (debitCredits userId amount reason relatedId db).1)).
Proof.
  split_and!.
  - exact webhook_ledger_unique.
  - exact creditCredits_ledger_unique.
  - exact debitCredits_ledger_unique.
Qed.

(** *** Further paths of the handler *)

(** X1. A captured, authorized or paid event for a payment that already has its
    ledger row (the provider's next notification for the same payment, under
    an event id of its own) appends nothing and leaves every balance as it
    was; it marks the order paid and its marker [processed]. *)
Theorem webhook_credited_payment_not_credited_again (env : Env) (req : WebhookRequest)
    (signature : string) (payload : Event.t) (db : DB) (eventId orderId : string)
    (payment : Payment.t) :
  admits_ env req signature payload ->
  eventId_of payload = Some eventId ->
  webhookEvents db !! eventId = None ->
  site_differs (siteId_of payload) (SITE_ID env) = false ->
  razorpayOrderId_of payload = Some orderId ->
  List.find (fun p => String.eqb (Payment.razorpayOrderId p) orderId) (payments db)
    = Some payment ->
  amount_mismatches (amount_of payload) (Payment.amountPaise payment) = false ->
  is_paid_event (Event.event payload) = true ->
  (1 <= count_key (ledger_key (razorpayPaymentId_of payload)) (creditLedger db))%nat ->
  let db' := (webhook_ env req db).1 in
  creditLedger db' = creditLedger db /\
  users db' = users db /\
  payments db' =
    List.map (fun p => if by_id payment p
                       then mark_paid (razorpayPaymentId_of payload) signature p
                       else p) (payments db) /\
  webhookEvents db' =
    <[eventId := WebhookEvent.mk processed (Some payload)]> (webhookEvents db) /\
  (webhook_ env req db).2 = Ok (mkResponse 200 (Text "ok")).
Proof.
  intros Hadm Hid Hm Hsite Hsel Hfind Hamt Hev Hkey. cbv zeta.
  destruct (List.find (has_relatedId (ledger_key (razorpayPaymentId_of payload)))
              (creditLedger db)) as [row|] eqn:Hled.
  2:{ apply count_key_find_None in Hled. lia. }
  rewrite (webhook_admitted _ _ _ _ db Hadm).
  now rewrite (webhook_parsed_ok _ _ _ _ _ _ Hid
                 (webhook_tx_already_credited _ signature _ _ _ _ _ _ Hm Hsite Hsel Hfind
                    Hamt Hev Hled)).
Qed.

(** X4. A [payment.failed] event for a found order sets the order's status to
    [failed] and its marker to [processed]; ledger and balances are as they
    were. *)
Theorem webhook_failed_payment (env : Env) (req : WebhookRequest)
    (signature : string) (payload : Event.t) (db : DB) (eventId orderId : string)
    (payment : Payment.t) :
  admits_ env req signature payload ->
  eventId_of payload = Some eventId ->
  webhookEvents db !! eventId = None ->
  site_differs (siteId_of payload) (SITE_ID env) = false ->
  razorpayOrderId_of payload = Some orderId ->
  List.find (fun p => String.eqb (Payment.razorpayOrderId p) orderId) (payments db)
    = Some payment ->
  amount_mismatches (amount_of payload) (Payment.amountPaise payment) = false ->
  Event.event payload = Some "payment.failed" ->
  let db' := (webhook_ env req db).1 in
  creditLedger db' = creditLedger db /\
  users db' = users db /\
  payments db' =
    List.map (fun p => if by_id payment p then mark_failed p else p) (payments db) /\
  webhookEvents db' =
    <[eventId := WebhookEvent.mk processed (Some payload)]> (webhookEvents db) /\
  (webhook_ env req db).2 = Ok (mkResponse 200 (Text "ok")).
Proof.
  intros Hadm Hid Hm Hsite Hsel Hfind Hamt Hev. cbv zeta.
  assert (is_paid_event (Event.event payload) = false) as Hpaid by now rewrite Hev.
  assert (is_event (Event.event payload) "payment.failed" = true) as Hfail
    by now rewrite Hev.
  rewrite (webhook_admitted _ _ _ _ db Hadm).
  now rewrite (webhook_parsed_ok _ _ _ _ _ _ Hid
                 (webhook_tx_failed _ signature _ _ _ _ _ Hm Hsite Hsel Hfind Hamt Hpaid
                    Hfail)).
Qed.

(** X5. An event for this site that names an order the store does not hold sets
    its marker to [no_local_order] and changes nothing else; the response is
    200. *)
Theorem webhook_no_local_order (env : Env) (req : WebhookRequest)
    (signature : string) (payload : Event.t) (db : DB) (eventId orderId : string) :
  admits_ env req signature payload ->
  eventId_of payload = Some eventId ->
  webhookEvents db !! eventId = None ->
  site_differs (siteId_of payload) (SITE_ID env) = false ->
  razorpayOrderId_of payload = Some orderId ->
  List.find (fun p => String.eqb (Payment.razorpayOrderId p) orderId) (payments db) = None ->
  webhook_ env req db =
    (with_marker eventId no_local_order payload db, Ok (mkResponse 200 (Text "ok"))).
Proof.
  intros Hadm Hid Hm Hsite Hsel Hfind.
  rewrite (webhook_admitted _ _ _ _ db Hadm).
  exact (webhook_parsed_ok _ _ _ _ _ _ Hid
           (webhook_tx_no_order _ signature _ _ _ _ Hm Hsite Hsel Hfind)).
Qed.

Lemma webhook_parsed_responds env signature payload db :
  exists resp, (webhook_parsed env signature payload db).2 = Ok resp /\
               (status resp = 200 \/ status resp = 400 \/ status resp = 500).
Proof.
  unfold webhook_parsed, await. repeat case_match; simpl; eauto.
Qed.

(** X3. The one error that leaves the webhook handler.  The site tag is
    read before the handler's [try] blocks, and [.split] is called on the
    receipt whatever its type: a signed body with an event id, no site tag in
    the payment's notes and a truthy receipt that is not a string makes the
    handler throw a [TypeError], with nothing written.  Every other request is
    answered, with 200, 400 or 500. *)
Theorem webhook_responds (env : Env) (req : WebhookRequest) (db : DB) :
  (reaches_receipt_split hmac_sha256_hex JSON_parse env req ->
   webhook_ env req db = (db, Throw TypeError)) /\
  (~ reaches_receipt_split hmac_sha256_hex JSON_parse env req ->
   exists resp, (webhook_ env req db).2 = Ok resp /\
                (status resp = 200 \/ status resp = 400 \/ status resp = 500)).
Proof.
  split.
  - intros (raw & key & signature & payload & Hsig & Hne & Hraw & Hkey & Hmac & Hparse
            & [eid Hid] & Hw).
    unfold webhook. rewrite Hsig, Hraw, Hkey.
    destruct signature as [|ch rest]; [congruence|].
    rewrite verifyWebhookSignature_total, Hmac, String.eqb_refl. simpl.
    now rewrite Hparse, Hid, Hw.
  - intros Hno. unfold webhook.
    destruct (x_razorpay_signature req) as [[|ch rest]|] eqn:Hsig; simpl; eauto.
    rewrite verifyWebhookSignature_total.
    destruct (RAZORPAY_WEBHOOK_SECRET env) as [key|] eqn:Hkey; simpl; eauto.
    destruct (rawBody req) as [raw|] eqn:Hraw; simpl; eauto.
    destruct (String.eqb _ _) eqn:Hmac; simpl; eauto.
    destruct (JSON_parse raw) as [[payload|payload]|] eqn:Hparse; simpl; eauto.
    + apply webhook_parsed_responds.
    + destruct (eventId_of payload) as [eid|] eqn:Hid; simpl; eauto.
      destruct (truthy_string _) eqn:Hw; [apply webhook_parsed_responds|].
      exfalso. apply Hno. exists raw, key, (String ch rest), payload.
      apply String.eqb_eq in Hmac. split_and!; eauto; discriminate.
Qed.

(** X6. A request without a signature header, or whose header is not the digest
    of the raw body under the configured secret, is answered with 400 and
    writes nothing. *)
Theorem webhook_rejects_bad_signature (env : Env) (req : WebhookRequest) (db : DB) :
  (forall signature,
     x_razorpay_signature req = Some signature ->
     verifyWebhookSig (rawBody req) signature (RAZORPAY_WEBHOOK_SECRET env) = Ok false) ->
  webhook_ env req db = (db, Ok (mkResponse 400 (Text "invalid signature"))).
Proof.
  intros Hbad. unfold webhook.
  destruct (x_razorpay_signature req) as [[|ch rest]|]; try reflexivity.
  now rewrite (Hbad _ eq_refl).
Qed.

(** *** Balances and the ledger *)

Lemma ledger_sum_snoc uid ledger row :
  ledger_sum uid (ledger ++ [row]) =
    ledger_sum uid ledger
    + (if CreditLedger.userId row =? uid then CreditLedger.delta row else 0).
Proof.
  induction ledger as [|r l IH]; simpl.
  - destruct (CreditLedger.userId row =? uid); lia.
  - rewrite IH. destruct (CreditLedger.userId r =? uid); lia.
Qed.

Lemma balanced_append db db' row c :
  balanced db ->
  users db !! CreditLedger.userId row = Some c ->
  users db' = <[CreditLedger.userId row := c + CreditLedger.delta row]> (users db) ->
  creditLedger db' = creditLedger db ++ [row] ->
  balanced db'.
Proof.
  intros Hb Hu Hus Hl uid c'. rewrite Hus, Hl, ledger_sum_snoc.
  destruct (decide (CreditLedger.userId row = uid)) as [<-|Hne].
  - rewrite lookup_insert_eq, Z.eqb_refl. intros [= <-].
    rewrite <- (Hb _ _ Hu). reflexivity.
  - rewrite lookup_insert_ne by exact Hne. intros Hc.
    apply Z.eqb_neq in Hne. rewrite Hne, <- (Hb _ _ Hc). lia.
Qed.

Lemma balanced_same db db' :
  balanced db -> users db' = users db -> creditLedger db' = creditLedger db ->
  balanced db'.
Proof. intros Hb Hu Hl uid c. rewrite Hu, Hl. apply Hb. Qed.

Lemma creditCredits_balanced db userId amount reason relatedId :
  balanced db -> balanced (creditCredits userId amount reason relatedId db).1.
Proof.
  intros Hb.
  destruct (creditCredits_cases db userId amount reason relatedId)
    as [(e & ->)|(c & Hc & ->)]; [exact Hb|].
  now apply (balanced_append db _ (CreditLedger.mk userId amount purchase reason relatedId) c).
Qed.

Lemma debitCredits_balanced db userId amount reason relatedId :
  balanced db -> balanced (debitCredits userId amount reason relatedId db).1.
Proof.
  intros Hb. destruct (users db !! userId) as [c|] eqn:Hc.
  - destruct (Z.lt_ge_cases c amount) as [Hlt|Hge].
    + now rewrite (debitCredits_insufficient _ _ _ _ _ c Hc Hlt).
    + rewrite (debitCredits_sufficient _ _ _ _ _ c Hc Hge).
      apply (balanced_append db _ (CreditLedger.mk userId (- amount) debit reason relatedId) c);
        try assumption; try reflexivity.
  - now rewrite (debitCredits_no_user _ _ _ _ _ Hc).
Qed.

Lemma webhook_balanced env req db :
  balanced db -> balanced (webhook_ env req db).1.
Proof.
  intros Hb. destruct (webhook_cases env req db) as [(signature & payload & Hadm)|Hsame];
    [|now rewrite Hsame].
  rewrite Hadm.
  destruct (webhook_parsed_ledger env signature payload db)
    as [[Hl Hu]|(row & key & c & _ & _ & Hl & Hc & Hu)].
  - exact (balanced_same _ _ Hb Hu Hl).
  - exact (balanced_append _ _ _ _ Hb Hc Hu Hl).
Qed.

Lemma verify_frame env userId reqBody db :
  creditLedger (verify_ env userId reqBody db).1 = creditLedger db /\
  users (verify_ env userId reqBody db).1 = users db.
Proof.
  unfold verify, await, transaction, payment_findUnique, user_findUnique,
    payment_update, set_payments.
  repeat (case_match; simplify_eq; simpl); split; reflexivity.
Qed.

Lemma upload_balanced req db :
  balanced db -> balanced (upload req db).1.
Proof.
  intros Hb. unfold upload.
  destruct (files req =? 0)%nat; [exact Hb|].
  destruct (3 <? files req)%nat; [exact Hb|].
  destruct (getRequiredCredits (model_of req)) as [required|].
  - cbn [debitCredits_cost creditCredits_cost].
    pose proof (debitCredits_balanced db (user_id req) required
                  (String.append "model:" (model_of req)) (Some (requestId_of req)) Hb)
      as Hd.
    destruct (debitCredits _ _ _ _ db) as [db1 [bal|e]]; simpl in Hd.
    + destruct (pipeline req) as [|e]; [exact Hd|].
      pose proof (creditCredits_balanced db1 (user_id req) required
                    (String.append "refund:" (requestId_of req))
                    (Some (requestId_of req)) Hd) as Hc.
      now destruct (creditCredits _ _ _ _ db1).
    + now destruct (_ || _).
  - destruct (debitCredits_cost_inherited db (user_id req)
                (String.append "model:" (model_of req)) (Some (requestId_of req)))
      as (e & -> & _).
    now destruct (_ || _).
Qed.

(** X2. Every handler keeps each user's cached balance equal to the sum of the
    user's ledger deltas: the webhook, the two ledger services, the verify
    endpoint and the upload handler, on every input. *)
Theorem balance_is_ledger_sum (env : Env) (db : DB) :
  balanced db ->
  (forall req, balanced (webhook_ env req db).1) /\
  (forall userId amount reason relatedId,
     balanced (creditCredits userId amount reason relatedId db).1) /\
  (forall userId amount reason relatedId,
     balanced (debitCredits userId amount reason relatedId db).1) /\
  (forall userId reqBody, balanced (verify_ env userId reqBody db).1) /\
  (forall req, balanced (upload req db).1).
Proof.
  intros Hb. split_and!.
  - intros req. now apply webhook_balanced.
  - intros. now apply creditCredits_balanced.
  - intros. now apply debitCredits_balanced.
  - intros userId reqBody. destruct (verify_frame env userId reqBody db) as [Hl Hu].
    exact (balanced_same _ _ Hb Hu Hl).
  - intros req. now apply upload_balanced.
Qed.

End Properties.

(** * The properties on the sample data *)

Lemma sample_admits (raw : string) (payload : Event.t) :
  sample_parse raw = Some (Typed payload) ->
  admits sample_hmac sample_parse sample_env (sample_request raw)
    (sample_hmac "hook_secret_test" raw) payload.
Proof.
  intros Hparse. exists raw, "hook_secret_test". split_and!; try reflexivity.
  - discriminate.
  - exact Hparse.
Qed.

Lemma C1_idempotent_delivery_witness :
  let req := sample_request "captured-2000" in
  let payload := sample_event "ai_ot_helper" 2000 in
  let dbn := (deliver sample_hmac sample_parse 3 sample_env req sample_db).1 in
  creditLedger dbn =
    creditLedger sample_db ++ [purchase_row sample_payment (razorpayPaymentId_of payload)] /\
  count_key (ledger_key (razorpayPaymentId_of payload)) (creditLedger dbn) = 1%nat /\
  users dbn =
    <[Payment.userId sample_payment := 100 + Payment.creditsPurchased sample_payment]>
      (users sample_db) /\
  (deliver sample_hmac sample_parse 3 sample_env req sample_db).2 =
    replicate 3 (Ok (mkResponse 200 (Text "ok"))) /\
  dbn = (webhook sample_hmac sample_parse sample_env req sample_db).1 /\
  webhook sample_hmac sample_parse sample_env req dbn =
    (dbn, Ok (mkResponse 200 (Text "ok"))).
Proof.
  apply (C1_idempotent_delivery sample_hmac sample_parse sample_env
           (sample_request "captured-2000") (sample_hmac "hook_secret_test" "captured-2000")
           (sample_event "ai_ot_helper" 2000) sample_db "evt_dup" "order_dup"
           sample_payment 100 3).
  - apply sample_admits. reflexivity.
  - reflexivity.
  - reflexivity.
  - reflexivity.
  - reflexivity.
  - reflexivity.
  - reflexivity.
  - reflexivity.
  - reflexivity.
  - reflexivity.
  - reflexivity.
  - reflexivity.
  - lia.
Defined.

(** An event can meet every condition of the claim and credit nothing.  Two
    orders are paid with events that carry no payment id: both look their
    ledger row up under the key [razorpay:null].  The event for [order_a] is
    credited; the event for [order_b], a first delivery with a valid
    signature, the right site, a found order and the right amount, finds that
    row, marks [order_b] paid and credits its owner nothing, however often it
    is delivered.  And an event whose credits would take the balance past the
    largest INTEGER is answered 500 on every delivery and leaves the store as
    it was. *)
Lemma shared_null_key_order_is_not_credited :
  let event_b := sample_order_paid "evt_b" "order_b" 5000 in
  let db1 :=
    (webhook sample_hmac sample_orders_parse sample_env (sample_request "paid-a")
       sample_orders_db).1 in
  let r := deliver sample_hmac sample_orders_parse 2 sample_env (sample_request "paid-b")
             db1 in
  let rf := deliver sample_hmac sample_parse 2 sample_env (sample_request "captured-2000")
              sample_full_db in
  site_differs (siteId_of event_b) (SITE_ID sample_env) = false /\
  razorpayOrderId_of event_b = Some "order_b" /\
  amount_mismatches (amount_of event_b) 5000 = false /\
  is_paid_event (Event.event event_b) = true /\
  webhookEvents db1 !! "evt_b" = None /\
  ledger_key (razorpayPaymentId_of event_b) = "razorpay:null" /\
  r.2 = [Ok (mkResponse 200 (Text "ok")); Ok (mkResponse 200 (Text "ok"))] /\
  creditLedger r.1 = [CreditLedger.mk 20 4 purchase "payment" (Some "razorpay:null")] /\
  users r.1 !! 21 = Some 7 /\
  List.map Payment.status (payments r.1) = [paid; paid] /\
  rf.2 = [Ok (mkResponse 500 (Text "processing error"));
          Ok (mkResponse 500 (Text "processing error"))] /\
  rf.1 = sample_full_db.
Proof. vm_compute. split_and!; reflexivity. Qed.

Lemma C2_ledger_key_uniqueness_witness :
  ledger_unique
    (creditLedger
       (webhook sample_hmac sample_parse sample_env (sample_request "captured-2000")
          sample_db).1) /\
  ledger_unique (creditLedger (creditCredits 20 10 "refund:r1" (Some "r1") sample_db).1) /\
  ledger_unique (creditLedger (debitCredits 20 10 "model:gpt-5" (Some "r1") sample_db).1).
Proof.
  assert (ledger_unique (creditLedger sample_db)) as Hu
    by (intros key; unfold count_key; simpl; lia).
  destruct (C2_ledger_key_uniqueness sample_hmac sample_parse) as (Hw & Hc & Hd).
  split_and!.
  - apply Hw, Hu.
  - apply Hc; [exact Hu | reflexivity].
  - apply Hd; [exact Hu | reflexivity].
Defined.

Lemma C3_amount_mismatch_witness :
  let req := sample_request "captured-1999" in
  let payload := sample_event "ai_ot_helper" 1999 in
  let db' := (webhook sample_hmac sample_parse sample_env req sample_db).1 in
  creditLedger db' = creditLedger sample_db /\
  users db' = users sample_db /\
  payments db' = payments sample_db /\
  (webhook sample_hmac sample_parse sample_env req sample_db).2 =
    Ok (mkResponse 200 (Text "ok")) /\
  (webhookEvents sample_db !! "evt_dup" = None ->
     webhookEvents db' =
       <["evt_dup" := WebhookEvent.mk amount_mismatch (Some payload)]>
         (webhookEvents sample_db)) /\
  (is_Some (webhookEvents sample_db !! "evt_dup") -> db' = sample_db).
Proof.
  apply (C3_amount_mismatch sample_hmac sample_parse sample_env
           (sample_request "captured-1999") (sample_hmac "hook_secret_test" "captured-1999")
           (sample_event "ai_ot_helper" 1999) sample_db "evt_dup" "order_dup"
           sample_payment 1999).
  - apply sample_admits. reflexivity.
  - reflexivity.
  - reflexivity.
  - reflexivity.
  - reflexivity.
  - reflexivity.
  - discriminate.
  - discriminate.
Defined.

(** An event that reports the amount 0 for an order stored at 2000 paise is
    not stopped: the zero is falsy, the comparison is skipped, and the event is
    credited like a matching one. *)
Lemma zero_amount_event_is_credited :
  let payload := sample_event "ai_ot_helper" 0 in
  let signature := sample_hmac "hook_secret_test" "captured-0" in
  let r := webhook_parsed sample_env signature payload sample_db in
  amount_of payload = Some 0 /\
  Payment.amountPaise sample_payment = 2000 /\
  r.2 = Ok (mkResponse 200 (Text "ok")) /\
  creditLedger r.1 = [CreditLedger.mk 20 4 purchase "payment" (Some "razorpay:pay_dup")] /\
  users r.1 !! 20 = Some 104 /\
  List.map Payment.status (payments r.1) = [paid] /\
  WebhookEvent.status <$> (webhookEvents r.1 !! "evt_dup") = Some processed /\
  webhook sample_hmac sample_parse sample_env (sample_request "captured-0") sample_db = r.
Proof. vm_compute. split_and!; reflexivity. Qed.

Lemma C8_scope_isolation_witness :
  let req := sample_request "other-site" in
  let payload := sample_event "other_site" 2000 in
  let db' := (webhook sample_hmac sample_parse sample_env req sample_db).1 in
  payments db' = payments sample_db /\
  creditLedger db' = creditLedger sample_db /\
  users db' = users sample_db /\
  (forall eventId, eventId_of payload = Some eventId ->
     (webhook sample_hmac sample_parse sample_env req sample_db).2 =
       Ok (mkResponse 200 (Text "ok")) /\
     (webhookEvents sample_db !! eventId = None ->
        webhookEvents db' =
          <[eventId := WebhookEvent.mk ignored (Some payload)]> (webhookEvents sample_db)) /\
     (is_Some (webhookEvents sample_db !! eventId) -> db' = sample_db)).
Proof.
  apply (C8_scope_isolation sample_hmac sample_parse sample_env (sample_request "other-site")
           (sample_hmac "hook_secret_test" "other-site") (sample_event "other_site" 2000)
           sample_db).
  - apply sample_admits. reflexivity.
  - reflexivity.
Defined.

Lemma C9_missing_amount_is_credited_witness :
  let req := sample_request "captured-0" in
  let signature := sample_hmac "hook_secret_test" "captured-0" in
  let payload := sample_event "ai_ot_helper" 0 in
  let db' := (webhook sample_hmac sample_parse sample_env req sample_db).1 in
  amount_mismatches (amount_of payload) (Payment.amountPaise sample_payment) = false /\
  creditLedger db' =
    creditLedger sample_db ++ [purchase_row sample_payment (razorpayPaymentId_of payload)] /\
  users db' =
    <[Payment.userId sample_payment := 100 + Payment.creditsPurchased sample_payment]>
      (users sample_db) /\
  payments db' =
    List.map (fun p => if by_id sample_payment p
                       then mark_paid (razorpayPaymentId_of payload) signature p
                       else p) (payments sample_db) /\
  webhookEvents db' =
    <["evt_dup" := WebhookEvent.mk processed (Some payload)]> (webhookEvents sample_db) /\
  (webhook sample_hmac sample_parse sample_env req sample_db).2 =
    Ok (mkResponse 200 (Text "ok")).
Proof.
  apply (C9_missing_amount_is_credited sample_hmac sample_parse sample_env
           (sample_request "captured-0") (sample_hmac "hook_secret_test" "captured-0")
           (sample_event "ai_ot_helper" 0) sample_db "evt_dup" "order_dup"
           sample_payment 100).
  - apply sample_admits. reflexivity.
  - reflexivity.
  - reflexivity.
  - reflexivity.
  - reflexivity.
  - reflexivity.
  - reflexivity.
  - reflexivity.
  - reflexivity.
  - reflexivity.
  - reflexivity.
  - reflexivity.
  - reflexivity.
Defined.

(** An event that reports no amount is not always credited.  A second
    [order.paid] event for a payment that an earlier event has credited, on
    its first delivery, finds the ledger row of the payment and adds nothing.
    And on a store where the credits would take the balance past the largest
    INTEGER, the first delivery of a captured event that reports the amount 0
    is answered 500 and writes nothing. *)
Lemma amountless_event_is_not_always_credited :
  let db1 :=
    (webhook sample_hmac sample_orders_parse sample_env (sample_request "captured-2000")
       sample_db).1 in
  let r := webhook sample_hmac sample_orders_parse sample_env
             (sample_request "paid-no-amount") db1 in
  amount_of sample_paid_no_amount = None /\
  is_paid_event (Event.event sample_paid_no_amount) = true /\
  site_differs (siteId_of sample_paid_no_amount) (SITE_ID sample_env) = false /\
  webhookEvents db1 !! "evt_paid_again" = None /\
  users db1 !! 20 = Some 104 /\
  r.2 = Ok (mkResponse 200 (Text "ok")) /\
  creditLedger r.1 = creditLedger db1 /\
  users r.1 !! 20 = Some 104 /\
  amount_of (sample_event "ai_ot_helper" 0) = Some 0 /\
  webhook sample_hmac sample_parse sample_env (sample_request "captured-0") sample_full_db =
    (sample_full_db, Ok (mkResponse 500 (Text "processing error"))).
Proof. vm_compute. split_and!; reflexivity. Qed.

(** An authenticated caller who names another user's order does not always
    get 404: the signature is checked before the order is looked up, so with a
    signature that is not the digest the answer is 400 [Invalid signature],
    and with the key secret unset the verifier throws. *)
Lemma verify_foreign_order_bad_signature :
  let b := mkVerifyBody "order_dup" "pay_dup" "forged" in
  Payment.userId sample_payment = 20 /\
  List.find (fun p => String.eqb (Payment.razorpayOrderId p) "order_dup")
    (payments sample_db) = Some sample_payment /\
  verify sample_hmac sample_env 21 (Some b) sample_db =
    (sample_db, Ok (mkResponse 400 (Failure "Invalid signature"))) /\
  verify sample_hmac (mkEnv (Some "ai_ot_helper") (Some "hook_secret_test") None) 21
    (Some b) sample_db = (sample_db, Throw TypeError).
Proof. vm_compute. split_and!; reflexivity. Qed.

Lemma C10_verify_foreign_order_witness :
  let b := mkVerifyBody "order_dup" "pay_dup" (sample_hmac "test_key_secret" "order_dup|pay_dup") in
  verify sample_hmac sample_env 21 (Some b) sample_db =
    (sample_db, Ok (mkResponse 404 (Failure "Payment not found"))) /\
  (forall db0 : DB,
     List.find (fun p => String.eqb (Payment.razorpayOrderId p) (razorpay_order_id b))
       (payments db0) = None ->
     verify sample_hmac sample_env 21 (Some b) db0 =
       (db0, Ok (mkResponse 404 (Failure "Payment not found")))).
Proof.
  apply (C10_verify_foreign_order sample_hmac sample_env 21
           (mkVerifyBody "order_dup" "pay_dup"
              (sample_hmac "test_key_secret" "order_dup|pay_dup"))
           sample_db sample_payment).
  - discriminate.
  - reflexivity.
  - reflexivity.
  - discriminate.
Defined.

Lemma webhook_credited_payment_not_credited_again_witness :
  let db1 :=
    (webhook sample_hmac sample_parse sample_env (sample_request "captured-2000")
       sample_db).1 in
  let credited :=
    mark_paid (Some "pay_dup") (sample_hmac "hook_secret_test" "captured-2000")
      sample_payment in
  let req := sample_request "paid-2000" in
  let signature := sample_hmac "hook_secret_test" "paid-2000" in
  let db' := (webhook sample_hmac sample_parse sample_env req db1).1 in
  creditLedger db' = creditLedger db1 /\
  users db' = users db1 /\
  payments db' =
    List.map (fun p => if by_id credited p
                       then mark_paid (razorpayPaymentId_of sample_paid_event) signature p
                       else p) (payments db1) /\
  webhookEvents db' =
    <["evt_paid" := WebhookEvent.mk processed (Some sample_paid_event)]>
      (webhookEvents db1) /\
  (webhook sample_hmac sample_parse sample_env req db1).2 =
    Ok (mkResponse 200 (Text "ok")).
Proof.
  apply (webhook_credited_payment_not_credited_again sample_hmac sample_parse sample_env
           (sample_request "paid-2000") (sample_hmac "hook_secret_test" "paid-2000")
           sample_paid_event _ "evt_paid" "order_dup"
           (mark_paid (Some "pay_dup") (sample_hmac "hook_secret_test" "captured-2000")
              sample_payment)).
  - apply sample_admits. reflexivity.
  - reflexivity.
  - reflexivity.
  - reflexivity.
  - reflexivity.
  - reflexivity.
  - reflexivity.
  - reflexivity.
  - vm_compute. lia.
Defined.

Lemma webhook_failed_payment_witness :
  let req := sample_request "failed-2000" in
  let db' := (webhook sample_hmac sample_parse sample_env req sample_db).1 in
  creditLedger db' = creditLedger sample_db /\
  users db' = users sample_db /\
  payments db' =
    List.map (fun p => if by_id sample_payment p then mark_failed p else p)
      (payments sample_db) /\
  webhookEvents db' =
    <["evt_failed" := WebhookEvent.mk processed (Some sample_failed_event)]>
      (webhookEvents sample_db) /\
  (webhook sample_hmac sample_parse sample_env req sample_db).2 =
    Ok (mkResponse 200 (Text "ok")).
Proof.
  apply (webhook_failed_payment sample_hmac sample_parse sample_env
           (sample_request "failed-2000") (sample_hmac "hook_secret_test" "failed-2000")
           sample_failed_event sample_db "evt_failed" "order_dup" sample_payment).
  - apply sample_admits. reflexivity.
  - reflexivity.
  - reflexivity.
  - reflexivity.
  - reflexivity.
  - reflexivity.
  - reflexivity.
  - reflexivity.
Defined.

Lemma webhook_no_local_order_witness :
  webhook sample_hmac sample_parse sample_env (sample_request "stray") sample_db =
    (with_marker "evt_stray" no_local_order sample_stray_event sample_db,
     Ok (mkResponse 200 (Text "ok"))).
Proof.
  apply (webhook_no_local_order sample_hmac sample_parse sample_env (sample_request "stray")
           (sample_hmac "hook_secret_test" "stray") sample_stray_event sample_db
           "evt_stray" "order_x").
  - apply sample_admits. reflexivity.
  - reflexivity.
  - reflexivity.
  - reflexivity.
  - reflexivity.
  - reflexivity.
Defined.

Lemma webhook_rejects_bad_signature_witness :
  let req := mkWebhookRequest (Some "captured-2000") (Some "bad") in
  webhook sample_hmac sample_parse sample_env req sample_db =
    (sample_db, Ok (mkResponse 400 (Text "invalid signature"))).
Proof.
  apply (webhook_rejects_bad_signature sample_hmac sample_parse sample_env
           (mkWebhookRequest (Some "captured-2000") (Some "bad")) sample_db).
  intros signature [= <-]. reflexivity.
Defined.

Lemma sample_balanced : balanced sample_balanced_db.
Proof.
  intros uid c. unfold sample_balanced_db. simpl.
  destruct (decide (uid = 20)) as [->|Hne].
  - rewrite lookup_singleton_eq. intros [= <-]. reflexivity.
  - rewrite lookup_singleton_ne by congruence. discriminate.
Qed.

Lemma balance_is_ledger_sum_witness :
  (forall req,
     balanced (webhook sample_hmac sample_parse sample_env req sample_balanced_db).1) /\
  (forall userId amount reason relatedId,
     balanced (creditCredits userId amount reason relatedId sample_balanced_db).1) /\
  (forall userId amount reason relatedId,
     balanced (debitCredits userId amount reason relatedId sample_balanced_db).1) /\
  (forall userId reqBody,
     balanced (verify sample_hmac sample_env userId reqBody sample_balanced_db).1) /\
  (forall req, balanced (upload req sample_balanced_db).1).
Proof.
  exact (balance_is_ledger_sum sample_hmac sample_parse sample_env sample_balanced_db
           sample_balanced).
Defined.

(** * Further properties *)

(** ** Creating an order *)

Lemma existsb_find_None {A} (f : A -> bool) (l : list A) :
  existsb f l = false -> List.find f l = None.
Proof.
  induction l as [|a l IH]; simpl; [reflexivity|].
  destruct (f a); simpl; [discriminate|exact IH].
Qed.

Lemma find_snoc_new {A} (f : A -> bool) (l : list A) (a : A) :
  List.find f l = None -> f a = true -> List.find f (l ++ [a]) = Some a.
Proof.
  intros Hnone Ha. induction l as [|b l IH]; simpl in *.
  - now rewrite Ha.
  - destruct (f b); [discriminate|auto].
Qed.

Lemma create_order_created provider penv userId n now seq db orderId c :
  userId <> 0 -> 1 <= n -> n * 5 * 100 <= 2147483647 ->
  provider (mkOrderRequest (n * 5 * 100) "INR" (receipt_of (site_tag penv) userId now)
              (site_tag penv)) = Ok orderId ->
  existsb (fun p => String.eqb (Payment.razorpayOrderId p) orderId) (payments db) = false ->
  users db !! userId = Some c ->
  create_order provider penv userId (Some n) now seq db =
    (set_payments
       (fun l => l ++ [Payment.mk seq userId orderId None None (n * 5 * 100) n created]) db,
     Ok (OrderCreated orderId (n * 5 * 100) "INR" (penv !! "RAZORPAY_KEY_ID"))).
Proof.
  intros Hid Hn Hmax Hprov Hfresh Hu. unfold create_order, createOrderSchema_parse.
  assert (int4 (n * 5 * 100) && int4 n = true) as Hr
    by (apply andb_true_iff; split; apply int4_spec; lia).
  apply Z.eqb_neq in Hid. apply Z.leb_le in Hn. rewrite Hid, Hn, Hprov.
  unfold await, transaction, payment_create. now rewrite Hr, Hfresh, Hu.
Qed.

(** X7. Whatever the caller, the body, the provider's answer and the store,
    [/create-order] leaves balances, ledger and event markers as they were.
    Either it also leaves the payments as they were and does not answer with
    an order, or it answers with the provider's order id and an amount of 500
    paise per credit and has appended exactly one payment: status [created],
    the caller as owner, [creditsPurchased] the requested credits (at least
    1), [amountPaise] 500 times that, under an order id no earlier payment
    carries. *)
Theorem create_order_effect (provider : OrderRequest -> result string)
    (penv : gmap string string) (userId : Z) (credits : option Z) (now seq : Z) (db : DB) :
  let db' := (create_order provider penv userId credits now seq db).1 in
  let reply := (create_order provider penv userId credits now seq db).2 in
  users db' = users db /\
  creditLedger db' = creditLedger db /\
  webhookEvents db' = webhookEvents db /\
  ((payments db' = payments db /\
    forall orderId amount currency key,
      reply <> Ok (OrderCreated orderId amount currency key)) \/
   (exists n orderId,
      credits = Some n /\ 1 <= n /\
      reply = Ok (OrderCreated orderId (500 * n) "INR" (penv !! "RAZORPAY_KEY_ID")) /\
      payments db' =
        payments db ++ [Payment.mk seq userId orderId None None (500 * n) n created] /\
      List.find (fun p => String.eqb (Payment.razorpayOrderId p) orderId) (payments db)
        = None /\
      is_Some (users db !! userId))).
Proof.
  cbv zeta. unfold create_order, createOrderSchema_parse, await, transaction,
    payment_create.
  destruct (userId =? 0) eqn:Hid; simpl.
  { split_and!; try reflexivity. left. split; [reflexivity|discriminate]. }
  destruct credits as [n|]; simpl.
  2:{ split_and!; try reflexivity. left. split; [reflexivity|discriminate]. }
  destruct (1 <=? n) eqn:Hn; simpl.
  2:{ split_and!; try reflexivity. left. split; [reflexivity|discriminate]. }
  destruct (provider _) as [orderId|e]; simpl.
  2:{ split_and!; try reflexivity. left. split; [reflexivity|discriminate]. }
  destruct (int4 (n * 5 * 100) && int4 n) eqn:Hr; simpl.
  2:{ split_and!; try reflexivity. left. split; [reflexivity|discriminate]. }
  destruct (existsb _ (payments db)) eqn:Hfresh; simpl.
  { split_and!; try reflexivity. left. split; [reflexivity|discriminate]. }
  destruct (users db !! userId) as [c|] eqn:Hu; simpl.
  2:{ split_and!; try reflexivity. left. split; [reflexivity|discriminate]. }
  split_and!; try reflexivity. right. exists n, orderId.
  apply Z.leb_le in Hn.
  replace (n * 5 * 100) with (500 * n) by lia.
  split_and!; try reflexivity; try assumption.
  - now apply existsb_find_None.
  - now exists c.
Qed.

Lemma find_map_preserved {A} (f : A -> bool) (g : A -> A) (l : list A) :
  (forall a, f (g a) = f a) ->
  List.find f (List.map g l) = option_map g (List.find f l).
Proof.
  intros Hfg. induction l as [|a l IH]; simpl; [reflexivity|].
  rewrite Hfg. destruct (f a); [reflexivity|exact IH].
Qed.

Lemma siteId_of_nonempty payload s : siteId_of payload = Some s -> s <> "".
Proof.
  unfold siteId_of, or_string.
  destruct (Event.payment payload ≫= Event.website_id) as [[|ch rest]|]; simpl;
    try (intros [= <-]; discriminate);
    destruct (split_colon_0 _); simpl; intros [= <-]; discriminate.
Qed.

Lemma site_differs_without_site_id penv payload :
  penv !! "SITE_ID" = None \/ penv !! "SITE_ID" = Some "" ->
  site_differs (siteId_of payload) (SITE_ID (env_of penv)) = true.
Proof.
  intros [H|H]; simpl; rewrite H; unfold site_differs.
  - now destruct (siteId_of payload).
  - destruct (siteId_of payload) as [s|] eqn:Hs; [|reflexivity].
    apply siteId_of_nonempty in Hs. destruct s; [congruence|reflexivity].
Qed.

Section Flows.

Variable hmac_sha256_hex : string -> string -> string.
Variable JSON_parse : string -> option Parsed.

Local Abbreviation webhook' := (webhook hmac_sha256_hex JSON_parse).
Local Abbreviation admits' := (admits hmac_sha256_hex JSON_parse).

(** X8. The purchase flow end to end.  A user asks [/create-order] for [n]
    credits on a deployment with a non-empty [SITE_ID], where the price of 500
    paise per credit and the balance with [n] added are still INTEGERs; the
    provider answers with a new order id; later its captured, authorized or
    paid event for that order arrives, echoing the order id, the amount and
    the notes the handler sent.  Then the user's balance has grown by exactly
    [n], the ledger has one new purchase row of [n] credits under
    [razorpay:<payment id>], the order is found [paid] with the payment id
    recorded, and the webhook answered 200. *)
Theorem purchase_flow_credits_requested (provider : OrderRequest -> result string)
    (penv : gmap string string) (userId n now seq c : Z) (db : DB)
    (site orderId eventId event paymentId signature : string) (req : WebhookRequest) :
  let q := mkOrderRequest (n * 5 * 100) "INR" (receipt_of (site_tag penv) userId now)
             (site_tag penv) in
  let payload := echo_event eventId event paymentId orderId q in
  let db1 := (create_order provider penv userId (Some n) now seq db).1 in
  let db2 := (webhook' (env_of penv) req db1).1 in
  penv !! "SITE_ID" = Some site -> site <> "" ->
  userId <> 0 -> 1 <= n ->
  n * 5 * 100 <= 2147483647 -> int4 (c + n) = true ->
  provider q = Ok orderId ->
  existsb (fun p => String.eqb (Payment.razorpayOrderId p) orderId) (payments db) = false ->
  users db !! userId = Some c ->
  admits' (env_of penv) req signature payload ->
  eventId <> "" -> webhookEvents db !! eventId = None ->
  is_paid_event (Some event) = true ->
  count_key (ledger_key (or_string (Some paymentId) None)) (creditLedger db) = 0%nat ->
  users db2 = <[userId := c + n]> (users db) /\
  creditLedger db2 =
    creditLedger db ++
      [CreditLedger.mk userId n purchase "payment"
         (Some (ledger_key (or_string (Some paymentId) None)))] /\
  List.find (fun p => String.eqb (Payment.razorpayOrderId p) orderId) (payments db2) =
    Some (Payment.mk seq userId orderId (or_string (Some paymentId) None) (Some signature)
            (n * 5 * 100) n paid) /\
  (webhook' (env_of penv) req db1).2 = Ok (mkResponse 200 (Text "ok")).
Proof.
  cbv zeta. intros Hsite Hne Hid Hn Hmax Hsum Hprov Hfresh Hu Hadm Heid Hm Hev Hkey.
  assert (int4 n = true) as Hcp by (apply int4_spec; lia).
  rewrite (create_order_created _ _ _ _ _ _ _ _ c Hid Hn Hmax Hprov Hfresh Hu).
  cbn [fst snd]. rewrite (webhook_admitted _ _ _ _ _ _ _ Hadm).
  set (q := mkOrderRequest _ _ _ _) in *.
  set (payload := echo_event _ _ _ _ _) in *.
  set (row := Payment.mk seq userId orderId None None (n * 5 * 100) n created).
  set (db1 := set_payments _ db).
  assert (site_tag penv = site) as Htag.
  { unfold site_tag, or_string. rewrite Hsite. now destruct site. }
  assert (eventId_of payload = Some eventId) as Hide
    by (unfold eventId_of, or_string; simpl; now destruct eventId).
  assert (site_differs (siteId_of payload) (SITE_ID (env_of penv)) = false) as Hs.
  { unfold siteId_of, or_string. simpl. rewrite Htag, Hsite.
    destruct site; [congruence|]. simpl. now rewrite Ascii.eqb_refl, String.eqb_refl. }
  assert (razorpayOrderId_of payload = Some orderId) as Ho
    by (unfold razorpayOrderId_of, or_string; simpl; now destruct orderId).
  assert (List.find (fun p => String.eqb (Payment.razorpayOrderId p) orderId) (payments db1)
          = Some row) as Hfind.
  { apply find_snoc_new; [now apply existsb_find_None|]. apply String.eqb_refl. }
  assert (amount_mismatches (amount_of payload) (Payment.amountPaise row) = false) as Hamt.
  { unfold amount_of, or_num, amount_mismatches. simpl.
    destruct (n * 5 * 100 =? 0) eqn:H0; simpl; [lia|].
    rewrite H0. simpl. now rewrite Z.eqb_refl. }
  assert (razorpayPaymentId_of payload = or_string (Some paymentId) None) as Hpid
    by reflexivity.
  rewrite <- Hpid in Hkey. apply count_key_find_None in Hkey.
  rewrite (webhook_parsed_ok _ _ _ _ _ _ Hide
             (webhook_tx_credit _ signature _ _ db1 _ _ c Hm Hs Ho Hfind Hamt Hev Hkey Hu
                Hcp Hsum)).
  simpl. split_and!; try reflexivity.
  rewrite find_map_preserved.
  - simpl in Hfind. rewrite Hfind. simpl. unfold by_id. now rewrite Z.eqb_refl.
  - intros a. now destruct (by_id row a).
Qed.

(** X9. On a deployment whose [SITE_ID] is unset or empty, [/create-order]
    tags its orders [unknown_site], but the webhook compares the event's tag
    with the unset variable: every admitted event, also one that echoes an
    order of this deployment, leaves payments, ledger and balances as they
    were, and on first delivery its marker is [ignored]. *)
Theorem unset_site_id_ignores_every_event (penv : gmap string string)
    (req : WebhookRequest) (signature : string) (payload : Event.t) (db : DB) :
  penv !! "SITE_ID" = None \/ penv !! "SITE_ID" = Some "" ->
  admits' (env_of penv) req signature payload ->
  let db' := (webhook' (env_of penv) req db).1 in
  site_tag penv = "unknown_site" /\
  payments db' = payments db /\
  creditLedger db' = creditLedger db /\
  users db' = users db /\
  (forall eventId, eventId_of payload = Some eventId ->
     webhookEvents db !! eventId = None ->
     webhookEvents db' =
       <[eventId := WebhookEvent.mk ignored (Some payload)]> (webhookEvents db)).
Proof.
  intros Hsite Hadm. cbv zeta.
  pose proof (site_differs_without_site_id penv payload Hsite) as Hd.
  rewrite (webhook_admitted _ _ _ _ _ _ _ Hadm).
  split; [destruct Hsite as [H|H]; unfold site_tag; now rewrite H|].
  destruct (eventId_of payload) as [eventId|] eqn:Hid.
  - destruct (webhookEvents db !! eventId) as [w|] eqn:Hm.
    + rewrite (webhook_parsed_duplicate _ _ _ _ _ _ Hid Hm). simpl.
      split_and!; try reflexivity. intros eid [= <-]. congruence.
    + rewrite (webhook_parsed_ok _ _ _ _ _ _ Hid
                 (webhook_tx_ignored _ signature _ _ _ Hm Hd)). simpl.
      split_and!; try reflexivity. now intros eid [= <-] _.
  - unfold webhook_parsed. rewrite Hid. simpl. split_and!; try reflexivity.
    intros eid [=].
Qed.

End Flows.

(** ** The site tag in the receipt *)

Lemma split_colon_0_append s r :
  split_colon_0 (String.append s (String ":"%char r)) = split_colon_0 s.
Proof.
  induction s as [|c s IH]; simpl; [reflexivity|].
  destruct (Ascii.eqb c ":"%char); [reflexivity|now rewrite IH].
Qed.

Lemma split_colon_0_length s : (String.length (split_colon_0 s) <= String.length s)%nat.
Proof.
  induction s as [|c s IH]; simpl; [lia|].
  destruct (Ascii.eqb c ":"%char); simpl; lia.
Qed.

Lemma split_colon_0_fixed s : split_colon_0 s = s <-> has_colon s = false.
Proof.
  induction s as [|c s IH]; simpl; [tauto|].
  destruct (Ascii.eqb c ":"%char); simpl.
  - split; discriminate.
  - rewrite <- IH. split; [intros [= H]; exact H | intros ->; reflexivity].
Qed.

Lemma siteId_of_receipt eventId event orderId amount s r :
  s <> "" ->
  siteId_of (receipt_event eventId event orderId (String.append s (String ":"%char r)) amount)
    = or_string (Some (split_colon_0 s)) None.
Proof.
  intros Hne. unfold siteId_of, receipt_event.
  cbn [Event.payment Event.order Event.receipt mbind option_bind].
  destruct s as [|c s]; [congruence|].
  change (or_string (Some (String.append (String c s) (String ":"%char r))) (Some ""))
    with (Some (String.append (String c s) (String ":"%char r))).
  cbn [default]. unfold id. rewrite split_colon_0_append. reflexivity.
Qed.

(** X10. The receipt [/create-order] writes is [<site>:u<user>:<time>], and the
    webhook reads the site back as the receipt's text before the first colon.
    For an event that carries the site only in the receipt (no notes), this
    round trip gives the site back exactly when the site contains no colon:
    for a non-empty site [s], such an event is out of scope for the deployment
    whose [SITE_ID] is [s] if and only if [s] contains a colon. *)
Theorem receipt_site_round_trip (s eventId event orderId : string) (amount userId now : Z) :
  s <> "" ->
  site_differs
    (siteId_of (receipt_event eventId event orderId (receipt_of s userId now) amount))
    (Some s) = has_colon s.
Proof.
  intros Hne.
  change (receipt_of s userId now)
    with (String.append s
            (String ":"%char
               (String "u"%char (String.append (pretty userId)
                                   (String ":"%char (pretty now)))))).
  rewrite (siteId_of_receipt _ _ _ _ _ _ Hne).
  destruct (has_colon s) eqn:Hc.
  - destruct (split_colon_0 s) as [|ch rest] eqn:Hsplit; [reflexivity|].
    unfold or_string, truthy_string, site_differs.
    apply negb_true_iff, String.eqb_neq.
    intros Heq. rewrite <- Hsplit in Heq. apply split_colon_0_fixed in Heq. congruence.
  - apply split_colon_0_fixed in Hc. rewrite Hc. destruct s as [|c s]; [congruence|].
    unfold or_string, truthy_string, site_differs. now rewrite String.eqb_refl.
Qed.

(** ** The start-up check *)

Lemma missing_vars_none penv names :
  (0 <? length (missing_vars penv names))%nat = false ->
  forall k, In k names -> truthy_string (penv !! k) = true.
Proof.
  intros Hlen k Hin. apply Nat.ltb_ge in Hlen.
  destruct (truthy_string (penv !! k)) eqn:Ht; [reflexivity|].
  assert (In k (missing_vars penv names)) as Hmiss.
  { unfold missing_vars. apply List.filter_In. split; [exact Hin|]. now rewrite Ht. }
  destruct (missing_vars penv names); [destruct Hmiss|simpl in Hlen; lia].
Qed.

Section Startup.

Variable hmac_sha256_hex : string -> string -> string.

(** X11. When [NODE_ENV] is [production] and the start-up check lets the
    process go on, the four required variables are all set and non-empty, no
    warning was printed, and a configured [SMTP_HOST] comes with all of the
    SMTP variables.  In particular the key secret is there, so on such a
    process the client signature verifier returns a verdict for every input
    instead of throwing. *)
Theorem startup_check_production (penv : gmap string string) (warnings : list (list string)) :
  is_production penv = true ->
  startup_check penv = Started warnings ->
  warnings = [] /\
  (forall k, In k requiredInProd -> truthy_string (penv !! k) = true) /\
  (truthy_string (penv !! "SMTP_HOST") = true ->
   forall k, In k smtpVars -> truthy_string (penv !! k) = true) /\
  (forall orderId paymentId signature,
     exists verdict,
       verifyRazorpaySignature hmac_sha256_hex (env_of penv) orderId paymentId signature
         = Ok verdict).
Proof.
  intros Hprod. unfold startup_check. rewrite Hprod. cbn [andb].
  destruct (0 <? length (missing_vars penv requiredInProd))%nat eqn:Hreq; [discriminate|].
  pose proof (missing_vars_none _ _ Hreq) as Hall.
  assert (exists key, penv !! "RAZORPAY_KEY_SECRET" = Some key) as [key Hkey].
  { specialize (Hall "RAZORPAY_KEY_SECRET"). simpl in Hall.
    destruct (penv !! "RAZORPAY_KEY_SECRET") as [k|]; [now exists k|].
    discriminate Hall. tauto. }
  assert (forall orderId paymentId signature,
            exists verdict,
              verifyRazorpaySignature hmac_sha256_hex (env_of penv) orderId paymentId
                signature = Ok verdict) as Hverify.
  { intros. unfold verifyRazorpaySignature, createHmac_digest. simpl. rewrite Hkey.
    eauto. }
  destruct (truthy_string (penv !! "SMTP_HOST")) eqn:Hhost.
  - destruct (0 <? length (missing_vars penv smtpVars))%nat eqn:Hsmtp; [discriminate|].
    intros [= <-]. split_and!; auto.
    intros _. exact (missing_vars_none _ _ Hsmtp).
  - intros [= <-]. split_and!; auto. discriminate.
Qed.

End Startup.

(** Outside production the check never stops the process. *)
Lemma startup_check_development penv :
  is_production penv = false -> exists warnings, startup_check penv = Started warnings.
Proof.
  intros Hprod. unfold startup_check. rewrite Hprod. cbn [andb].
  destruct (truthy_string _); [|eauto].
  destruct (0 <? _)%nat; eauto.
Qed.

(** ** Authentication *)

Lemma substring_full s : String.substring 0 (String.length s) s = s.
Proof. induction s as [|c s IH]; simpl; [reflexivity|now rewrite IH]. Qed.

Lemma slice_bearer t : slice 7 (String.append "Bearer " t) = t.
Proof. unfold slice. simpl. rewrite Nat.sub_0_r. apply substring_full. Qed.

Lemma prefix_bearer t : String.prefix "Bearer " (String.append "Bearer " t) = true.
Proof. simpl. now destruct t. Qed.

Section AuthProperties.

Variable hmac_sha256_hex : string -> string -> string.
Variable jwt_verify : string -> string -> option (option Z).

Local Abbreviation requireAuth' := (requireAuth jwt_verify).

(** X12. Where the token comes from.  A non-empty [auth_token] cookie decides
    alone: the [Authorization] header is not looked at, so a cookie that fails
    verification is not rescued by a valid header.  Without a cookie (or with
    an empty one) the token is what follows [Bearer ] in the header, and the
    outcome is that of the same token in a cookie.  Without a cookie and
    without that exact prefix the request is unauthorized. *)
Theorem requireAuth_token_source (penv : gmap string string) (db : DB) :
  (forall cookie header,
     cookie <> "" ->
     requireAuth' penv (mkAuthRequest (Some cookie) header) db =
       requireAuth' penv (mkAuthRequest (Some cookie) None) db) /\
  (forall cookie token,
     cookie = None \/ cookie = Some "" ->
     requireAuth' penv (mkAuthRequest cookie (Some (String.append "Bearer " token))) db =
       requireAuth' penv (mkAuthRequest (Some token) None) db) /\
  (forall cookie header,
     cookie = None \/ cookie = Some "" ->
     String.prefix "Bearer " header = false ->
     requireAuth' penv (mkAuthRequest cookie (Some header)) db = Unauthorized).
Proof.
  split_and!.
  - intros cookie header Hne. unfold requireAuth, token_of, or_string. simpl.
    destruct cookie; [congruence|reflexivity].
  - intros cookie token Hc. unfold requireAuth, token_of, or_string.
    cbn [cookie_auth_token authorization].
    rewrite prefix_bearer, slice_bearer.
    destruct Hc as [-> | ->]; destruct token; reflexivity.
  - intros cookie header Hc Hp. unfold requireAuth, token_of, or_string.
    cbn [cookie_auth_token authorization]. rewrite Hp.
    destruct Hc as [-> | ->]; reflexivity.
Qed.

(** The secret of load time is the secret of the requests when
    [JWT_SECRET] was in the environment the process was started with, or is
    not in the [.env] file either. *)
Lemma JWT_SECRET_dotenv (file ienv : gmap string string) :
  is_Some (ienv !! "JWT_SECRET") \/ file !! "JWT_SECRET" = None ->
  JWT_SECRET ienv = jwt_secret (dotenv_config file ienv).
Proof.
  unfold JWT_SECRET, jwt_secret, dotenv_config. intros [[v Hv]|Hfile].
  - now rewrite (lookup_union_Some_l _ _ _ _ Hv), Hv.
  - destruct (ienv !! "JWT_SECRET") as [v|] eqn:Hv.
    + now rewrite (lookup_union_Some_l _ _ _ _ Hv).
    + now rewrite (lookup_union_r _ _ _ Hv), Hfile.
Qed.

Lemma jwt_secret_dotenv_file (file ienv : gmap string string) (s : string) :
  ienv !! "JWT_SECRET" = None -> file !! "JWT_SECRET" = Some s -> s <> "" ->
  JWT_SECRET ienv = "development_secret_change_me" /\
  jwt_secret (dotenv_config file ienv) = s.
Proof.
  intros Hv Hfile Hne. unfold JWT_SECRET, jwt_secret, dotenv_config.
  rewrite Hv, (lookup_union_r _ _ _ Hv), Hfile. split; [reflexivity|].
  destruct s; [congruence|reflexivity].
Qed.

(** X13. [GET /auth/me] repeats the middleware's steps in the route itself,
    but verifies with the secret utils/jwt.js read when it was loaded, before
    app.js ran [dotenv.config()], where the middleware reads [JWT_SECRET] on
    every request.  When [JWT_SECRET] was in the environment the process was
    started with, or is not in the [.env] file, the two agree on every request
    and store.  When it comes from the [.env] file only, they use different
    secrets: a token that verifies under the built-in secret and not under the
    file's is answered with the user by [/me] and with 401 by the
    middleware. *)
Theorem me_agrees_with_requireAuth (file ienv : gmap string string) (req : AuthRequest)
    (db : DB) :
  let penv := dotenv_config file ienv in
  (is_Some (ienv !! "JWT_SECRET") \/ file !! "JWT_SECRET" = None ->
   me jwt_verify ienv req db =
     match requireAuth' penv req db with
     | Next uid credits => Ok (MeUser uid credits)
     | Unauthorized => Ok MeUnauthorized
     | AuthError e => Throw e
     end) /\
  (forall s token uid credits,
     ienv !! "JWT_SECRET" = None -> file !! "JWT_SECRET" = Some s -> s <> "" ->
     token_of req = Some token -> token <> "" ->
     jwt_verify token "development_secret_change_me" = Some (Some uid) ->
     jwt_verify token s = None ->
     users db !! uid = Some credits ->
     me jwt_verify ienv req db = Ok (MeUser uid credits) /\
     requireAuth' penv req db = Unauthorized).
Proof.
  cbv zeta. split.
  - intros Henv. unfold me, requireAuth, verifyToken.
    rewrite (JWT_SECRET_dotenv file ienv Henv). repeat case_match; reflexivity.
  - intros s token uid credits Hv Hfile Hne Htok Htne Hfallback Hfile_secret Hu.
    destruct (jwt_secret_dotenv_file file ienv s Hv Hfile Hne) as [Hload Hreq].
    unfold me, requireAuth, verifyToken. rewrite Htok, Hload, Hreq.
    destruct token as [|c t]; [congruence|].
    now rewrite Hfallback, Hfile_secret, Hu.
Qed.

Lemma requireAuth_next penv req db uid credits :
  requireAuth' penv req db = Next uid credits -> users db !! uid = Some credits.
Proof.
  unfold requireAuth. repeat case_match; try discriminate. intros [= <- <-]. assumption.
Qed.

(** X14. The verify route behind the middleware.  With the key secret
    configured and a token whose payload names a user id, every request is
    answered by the route itself with 200, 400, 401 or 404: the caller the
    middleware admits is a stored user, so reading the balance cannot fail.
    With the key secret unset, every admitted caller with a well-formed body
    gets the error handler's 500, and the store is left as it was. *)
Theorem verify_route_status (penv : gmap string string) (req : AuthRequest)
    (reqBody : option VerifyBody) (db : DB) :
  let route :=
    protected jwt_verify (mkResponse 401 (Failure "Unauthorized")) penv req
      (fun uid => verify hmac_sha256_hex (env_of penv) uid reqBody) db in
  (is_Some (penv !! "RAZORPAY_KEY_SECRET") ->
   (forall e, requireAuth' penv req db <> AuthError e) ->
   exists resp, route.2 = Ok resp /\
     (status resp = 200 \/ status resp = 400 \/ status resp = 401 \/ status resp = 404)) /\
  (penv !! "RAZORPAY_KEY_SECRET" = None ->
   forall uid credits b,
     requireAuth' penv req db = Next uid credits -> uid <> 0 -> reqBody = Some b ->
     route.1 = db /\ status (respond route.2) = 500).
Proof.
  cbv zeta. unfold protected. split.
  - intros [key Hkey] Hauth.
    destruct (requireAuth' penv req db) as [uid credits| |e] eqn:Hreq;
      [|simpl; eauto 6|now destruct (Hauth e)].
    apply requireAuth_next in Hreq.
    unfold verify, verifyRazorpaySignature, createHmac_digest, await, transaction,
      payment_findUnique, user_findUnique, payment_update, set_payments.
    cbn [RAZORPAY_KEY_SECRET env_of]. rewrite Hkey.
    repeat (case_match; simplify_eq; cbn [fst snd users] in *);
      try (eexists; split; [reflexivity|]; simpl; tauto);
      try congruence;
      match goal with
      | Hf : List.find ?f ?l = Some _, He : existsb ?f ?l = false |- _ =>
          rewrite (find_existsb _ _ _ Hf) in He; discriminate
      end.
  - intros Hkey uid credits b Hreq Huid ->. rewrite Hreq.
    unfold verify, verifyRazorpaySignature, createHmac_digest.
    apply Z.eqb_neq in Huid. cbn [RAZORPAY_KEY_SECRET env_of]. rewrite Huid, Hkey.
    split; reflexivity.
Qed.

End AuthProperties.

(** ** The progress stream *)

Lemma clients_get_set k v clients : clients_get k (clients_set k v clients) = Some v.
Proof.
  induction clients as [|[k' v'] rest IH]; simpl.
  - now rewrite Z.eqb_refl.
  - destruct (k' =? k) eqn:Hk; simpl; [now rewrite Z.eqb_refl|now rewrite Hk].
Qed.

Lemma In_clients_set k v clients kv :
  In kv (clients_set k v clients) -> kv = (k, v) \/ In kv clients.
Proof.
  induction clients as [|[k' v'] rest IH]; simpl.
  - intros [<-|[]]. now left.
  - destruct (k' =? k); simpl.
    + intros [<-|Hin]; auto.
    + intros [<-|Hin]; auto. destruct (IH Hin); auto.
Qed.

Lemma In_clients_set_new k v clients : In (k, v) (clients_set k v clients).
Proof.
  induction clients as [|[k' v'] rest IH]; simpl; [now left|].
  destruct (k' =? k); simpl; auto.
Qed.

Lemma In_clients_delete k clients kv :
  In kv (clients_delete k clients) <-> In kv clients /\ kv.1 <> k.
Proof.
  unfold clients_delete. rewrite List.filter_In, negb_true_iff, Z.eqb_neq. tauto.
Qed.

Lemma clients_get_delete k clients : clients_get k (clients_delete k clients) = None.
Proof.
  induction clients as [|[k' v'] rest IH]; simpl; [reflexivity|].
  destruct (k' =? k) eqn:Hk; simpl; [exact IH|now rewrite Hk].
Qed.

Lemma In_sendProgressUpdate json requestId clients stream data :
  In (stream, data) (sendProgressUpdate json requestId clients) <->
  exists kv, In kv clients /\ Sse.res kv.2 = stream /\ data = progress_data json /\
    match or_string requestId None with
    | None => True
    | Some r => existsb (String.eqb r) (Sse.subscriptions kv.2) = true
    end.
Proof.
  unfold sendProgressUpdate. rewrite List.in_flat_map. fold (progress_data json).
  split; intros (kv & Hin & H); exists kv; (split; [exact Hin|]).
  - destruct (or_string requestId None) as [r|].
    + destruct (existsb _ _); [|destruct H].
      destruct H as [[= <- <-]|[]]. auto.
    + destruct H as [[= <- <-]|[]]. auto.
  - destruct H as (<- & -> & H). destruct (or_string requestId None) as [r|].
    + rewrite H. now left.
    + now left.
Qed.

Lemma In_streams clients kv : In kv clients -> In (Sse.res kv.2) (streams clients).
Proof. intros H. unfold streams. apply List.in_map_iff. eauto. Qed.

Section ProgressProperties.

Variable jwt_verify : string -> string -> option (option Z).

Local Abbreviation progress' := (progress jwt_verify).

Lemma progress_registered ienv penv now res requestId token clients :
  (progress' ienv penv now res requestId token clients).2 = 200 ->
  exists uid,
    (progress' ienv penv now res requestId token clients).1 =
      clients_set now
        (Sse.mk now res (match or_string requestId None with Some r => [r] | None => [] end)
           uid) clients.
Proof.
  unfold progress. repeat case_match; simpl; try discriminate; eauto.
Qed.

Lemma progress_rejected ienv penv now res requestId token clients :
  (progress' ienv penv now res requestId token clients).2 <> 200 ->
  (progress' ienv penv now res requestId token clients).1 = clients /\
  (progress' ienv penv now res requestId token clients).2 = 401.
Proof.
  unfold progress. repeat case_match; simpl; auto; congruence.
Qed.

(** X15. Client ids are the connect time in milliseconds.  When two clients
    connect in the same millisecond, the second takes the first one's place in
    the registry; when the first connection then closes, its handler deletes
    that id and with it the second client, which is still connected: from then
    on no update, targeted or broadcast, is written to the second client's
    stream. *)
Theorem progress_same_millisecond (ienv penv : gmap string string) (now : Z) (res1 res2 : nat)
    (requestId1 requestId2 token1 token2 : option string)
    (clients : list (Z * Sse.client)) :
  let reg1 := (progress' ienv penv now res1 requestId1 token1 clients).1 in
  let reg2 := (progress' ienv penv now res2 requestId2 token2 reg1).1 in
  (progress' ienv penv now res1 requestId1 token1 clients).2 = 200 ->
  (progress' ienv penv now res2 requestId2 token2 reg1).2 = 200 ->
  ~ In res2 (streams clients) ->
  (exists second, clients_get now reg2 = Some second /\ Sse.res second = res2) /\
  clients_get now (on_close now reg2) = None /\
  (forall json requestId data,
     ~ In (res2, data) (sendProgressUpdate json requestId (on_close now reg2))).
Proof.
  cbv zeta. intros H1 H2 Hfresh.
  destruct (progress_registered _ _ _ _ _ _ _ H1) as [u1 E1]. rewrite E1 in *.
  destruct (progress_registered _ _ _ _ _ _ _ H2) as [u2 E2]. rewrite E2.
  split_and!.
  - eexists. split; [apply clients_get_set|reflexivity].
  - apply clients_get_delete.
  - intros json requestId data Hin.
    apply In_sendProgressUpdate in Hin as (kv & Hin & Hstream & _).
    apply In_clients_delete in Hin as [Hin Hkey].
    apply In_clients_set in Hin as [->|Hin]; [now apply Hkey|].
    apply In_clients_set in Hin as [->|Hin]; [now apply Hkey|].
    apply Hfresh. rewrite <- Hstream. now apply In_streams.
Qed.

(** X16. A client that connects with [?requestId=r] on a new stream is sent
    every update targeted at [r], is sent no update targeted at another
    request id, and after its connection has closed is sent nothing at all.
    Whose token it presented, or whether it presented one, plays no part. *)
Theorem progress_subscription_delivery (ienv penv : gmap string string) (now : Z) (res : nat)
    (r : string) (token : option string) (clients : list (Z * Sse.client)) :
  let reg := (progress' ienv penv now res (Some r) token clients).1 in
  (progress' ienv penv now res (Some r) token clients).2 = 200 ->
  r <> "" ->
  ~ In res (streams clients) ->
  (forall json, In (res, progress_data json) (sendProgressUpdate json (Some r) reg)) /\
  (forall json r' data,
     r' <> "" -> r' <> r -> ~ In (res, data) (sendProgressUpdate json (Some r') reg)) /\
  (forall json requestId data,
     ~ In (res, data) (sendProgressUpdate json requestId (on_close now reg))).
Proof.
  cbv zeta. intros H Hr Hfresh.
  destruct (progress_registered _ _ _ _ _ _ _ H) as [u ->].
  assert (or_string (Some r) None = Some r) as Hor by now destruct r.
  rewrite Hor. split_and!.
  - intros json. apply In_sendProgressUpdate. eexists. split; [apply In_clients_set_new|].
    rewrite Hor. simpl. now rewrite String.eqb_refl.
  - intros json r' data Hr' Hne Hin.
    apply In_sendProgressUpdate in Hin as (kv & Hin & Hstream & _ & Hsub).
    assert (or_string (Some r') None = Some r') as Hor' by now destruct r'.
    rewrite Hor' in Hsub.
    apply In_clients_set in Hin as [->|Hin].
    + simpl in Hsub. rewrite orb_false_r in Hsub. now apply String.eqb_eq in Hsub.
    + apply Hfresh. rewrite <- Hstream. now apply In_streams.
  - intros json requestId data Hin.
    apply In_sendProgressUpdate in Hin as (kv & Hin & Hstream & _).
    apply In_clients_delete in Hin as [Hin Hkey].
    apply In_clients_set in Hin as [->|Hin]; [now apply Hkey|].
    apply Hfresh. rewrite <- Hstream. now apply In_streams.
Qed.

(** X17. In production the progress stream registers no client without a
    token that [verifyToken] accepts and that names a user: a request that is
    answered 200 there presented such a token, and the registered client
    carries that user's id.  The secret is the one utils/jwt.js read when it
    was loaded, whatever [JWT_SECRET] is in the environment of the request.
    Every request that is not answered 200, in production or not, is answered
    401 and leaves the registry as it was. *)
Theorem progress_production_requires_token (ienv penv : gmap string string) (now : Z)
    (res : nat) (requestId token : option string) (clients : list (Z * Sse.client)) :
  let reg := (progress' ienv penv now res requestId token clients).1 in
  let code := (progress' ienv penv now res requestId token clients).2 in
  (code = 200 \/ (code = 401 /\ reg = clients)) /\
  (is_production penv = true -> code = 200 ->
   exists t uid,
     token = Some t /\ t <> "" /\ verifyToken jwt_verify ienv t = Some (Some uid) /\
     uid <> 0 /\
     (Sse.userId <$> clients_get now reg) = Some (Some uid)).
Proof.
  cbv zeta. split.
  - unfold progress. repeat case_match; simpl; auto.
  - intros Hprod. unfold progress. rewrite Hprod.
    destruct token as [[|ch rest]|] eqn:Ht; simpl; try discriminate.
    destruct (verifyToken _ _ _) as [[uid|]|] eqn:Hv; simpl; try discriminate.
    destruct (uid =? 0) eqn:Hu; simpl; try discriminate.
    intros _. exists (String ch rest), uid. apply Z.eqb_neq in Hu.
    split_and!; auto; try discriminate. now rewrite clients_get_set.
Qed.

End ProgressProperties.

(** ** What an upload costs *)

Lemma getRequiredCredits_inherited :
  getRequiredCredits "constructor" = Inherited /\
  getRequiredCredits "toString" = Inherited /\
  getRequiredCredits "__proto__" = Inherited /\
  getRequiredCredits "gpt-4" = Credits 1.
Proof. split_and!; reflexivity. Qed.

(** X18. An upload is charged only when it succeeds.  Take the route as
    mounted, the upload middleware in front, and a caller whose stored
    balance, if any, is an INTEGER.  A 200 response means that the model has
    a price, between 1 and 10 credits, that the caller had at least that,
    now has exactly the price less, and that the ledger has one more row, the
    debit.  Every other outcome leaves every balance as it was: no files,
    insufficient credits, a failed pipeline (after the refund), the
    middleware's error for more than three files (which never reaches the
    handler), and a model named like a property every object inherits
    ([constructor], [toString], ...), whose price is not a number, so that the
    debit is refused and the answer is 500.  No upload touches another user's
    balance. *)
Theorem upload_charges_only_on_success (req : UploadRequest) (db : DB) :
  (forall c, users db !! user_id req = Some c -> int4 c = true) ->
  let db' := (upload_route req db).1 in
  let r := (upload_route req db).2 in
  (forall uid, uid <> user_id req -> users db' !! uid = users db !! uid) /\
  (forall resp,
     r = Ok resp -> status resp = 200 ->
     exists n c,
       getRequiredCredits (model_of req) = Credits n /\ 1 <= n <= 10 /\
       users db !! user_id req = Some c /\ n <= c /\
       users db' = <[user_id req := c - n]> (users db) /\
       creditLedger db' =
         creditLedger db ++
           [CreditLedger.mk (user_id req) (- n) debit
              (String.append "model:" (model_of req)) (Some (requestId_of req))]) /\
  (forall resp, r = Ok resp -> status resp <> 200 -> users db' = users db) /\
  (forall e, r = Throw e ->
     (3 < files req)%nat /\ db' = db /\ status (error_handler e) = 500) /\
  (getRequiredCredits (model_of req) = Inherited ->
   (0 < files req <= 3)%nat -> is_Some (users db !! user_id req) ->
   db' = db /\ exists resp, r = Ok resp /\ status resp = 500).
Proof.
  intros Hint. cbv zeta. unfold upload_route.
  destruct (3 <? files req)%nat eqn:H3.
  { simpl. apply Nat.ltb_lt in H3. split_and!; auto; try discriminate.
    - intros e He. injection He as <-. split_and!; auto.
    - intros _ [_ Hle]. lia. }
  destruct (upload req db) as [db1 resp1] eqn:Hup. cbn [fst snd].
  assert (db1 = (upload req db).1) as -> by now rewrite Hup.
  assert (resp1 = (upload req db).2) as -> by now rewrite Hup.
  clear Hup. unfold upload. rewrite H3.
  destruct (files req =? 0)%nat eqn:H0.
  { simpl. apply Nat.eqb_eq in H0. split_and!; auto; try discriminate.
    - intros resp Hr. injection Hr as <-. discriminate.
    - intros _ [Hlt _]. lia. }
  destruct (getRequiredCredits (model_of req)) as [n|] eqn:Hcost.
  2:{ destruct (debitCredits_cost_inherited db (user_id req)
                  (String.append "model:" (model_of req)) (Some (requestId_of req)))
        as (e & -> & He).
      destruct (users db !! user_id req) as [c|] eqn:Hu.
      - rewrite (He (ltac:(eauto))). simpl. split_and!; auto; try discriminate.
        + intros resp Hr. injection Hr as <-. discriminate.
        + intros _ _ _. split; [reflexivity|]. eexists. split; reflexivity.
      - destruct (_ || _); simpl; split_and!; auto; try discriminate;
          try (intros resp Hr; injection Hr as <-; discriminate);
          intros _ _ [x Hx]; discriminate. }
  pose proof (getRequiredCredits_bounds _ _ Hcost) as Hbounds.
  cbn [debitCredits_cost creditCredits_cost].
  destruct (users db !! user_id req) as [c|] eqn:Hu.
  2:{ rewrite (debitCredits_no_user _ _ _ _ _ Hu). simpl.
      split_and!; auto; try discriminate.
      intros resp Hr. injection Hr as <-. discriminate. }
  destruct (Z.lt_ge_cases c n) as [Hlt|Hge].
  { rewrite (debitCredits_insufficient _ _ _ _ _ c Hu Hlt). simpl.
    split_and!; auto; try discriminate.
    intros resp Hr. injection Hr as <-. discriminate. }
  rewrite (debitCredits_sufficient _ _ _ _ _ c Hu Hge).
  destruct (pipeline req) as [|e].
  - simpl. split_and!; try discriminate.
    + intros uid Hne. now rewrite lookup_insert_ne.
    + intros resp Hr _. exists n, c. split_and!; auto; lia.
    + intros resp Hr. injection Hr as <-. simpl. congruence.
  - pose proof (Hint c eq_refl) as Hc. apply int4_spec in Hc.
    erewrite creditCredits_ok;
      [ | simpl; apply lookup_insert_eq | apply int4_spec; lia | apply int4_spec; lia ].
    simpl. rewrite insert_insert_eq.
    replace (c - n + n) with c by lia.
    rewrite (insert_id _ _ _ Hu). split_and!; auto; try discriminate.
    intros resp Hr. injection Hr as <-. discriminate.
Qed.

(** ** Log levels *)

Lemma LEVELS_range name n : assoc name LEVELS = Some n -> 0 <= n <= 3.
Proof.
  unfold LEVELS, assoc.
  repeat (destruct (String.eqb _ name); [intros [= <-]; lia|]). discriminate.
Qed.

Lemma CURRENT_LEVEL_range penv : 0 <= CURRENT_LEVEL penv <= 3.
Proof.
  unfold CURRENT_LEVEL. destruct (or_string _ _) as [l|]; [|lia].
  destruct (assoc (toUpperCase l) LEVELS) as [n|] eqn:Hn; simpl; [|lia].
  exact (LEVELS_range _ _ Hn).
Qed.

(** X19. Whatever [LOG_LEVEL] is, errors are logged.  Levels nest: when a
    level is logged, so is every more severe one.  An unset, empty or
    unrecognised [LOG_LEVEL] behaves as [INFO] (errors, warnings and
    information, but no debug output), and the setting is read without regard
    to the case of its letters. *)
Theorem logger_levels (penv : gmap string string) :
  shouldLog penv "ERROR" = true /\
  (forall severe mild n1 n2,
     assoc severe LEVELS = Some n1 -> assoc mild LEVELS = Some n2 -> n1 <= n2 ->
     shouldLog penv mild = true -> shouldLog penv severe = true) /\
  ((forall l, penv !! "LOG_LEVEL" = Some l -> l <> "" ->
              assoc (toUpperCase l) LEVELS = None) ->
   shouldLog penv "WARN" = true /\ shouldLog penv "INFO" = true /\
   shouldLog penv "DEBUG" = false) /\
  (forall l l' level,
     penv !! "LOG_LEVEL" = Some l -> toUpperCase l' = toUpperCase l ->
     shouldLog (<["LOG_LEVEL" := l']> penv) level = shouldLog penv level).
Proof.
  split_and!.
  - unfold shouldLog. simpl. apply Z.leb_le. apply CURRENT_LEVEL_range.
  - intros severe mild n1 n2 H1 H2 Hle. unfold shouldLog. rewrite H1, H2.
    rewrite !Z.leb_le. lia.
  - intros Hunknown.
    assert (CURRENT_LEVEL penv = 2) as Hcur.
    { unfold CURRENT_LEVEL, or_string.
      destruct (penv !! "LOG_LEVEL") as [[|c l]|] eqn:Hl; try reflexivity.
      assert (assoc (toUpperCase (String c l)) LEVELS = None) as Hnone
        by (apply Hunknown; [reflexivity|discriminate]).
      cbn [truthy_string negb String.eqb]. cbv beta iota. now rewrite Hnone. }
    unfold shouldLog. rewrite Hcur. simpl. auto.
  - intros l l' level Hl Hup. unfold shouldLog, CURRENT_LEVEL.
    rewrite lookup_insert_eq, Hl.
    destruct l' as [|c' r'], l as [|c r];
      try (simpl in Hup; discriminate); try reflexivity.
    change (or_string (Some (String c' r')) None) with (Some (String c' r')).
    change (or_string (Some (String c r)) None) with (Some (String c r)).
    cbv beta iota. now rewrite Hup.
Qed.

(** ** Event markers under the webhook *)

(** The handler on a parsed event either writes nothing or answers 200 and
    has put one marker, under an event id that had none, with a terminal
    status and the event as payload. *)
Lemma webhook_parsed_markers env signature payload db :
  (webhook_parsed env signature payload db).1 = db \/
  (exists eventId st,
     eventId_of payload = Some eventId /\
     webhookEvents db !! eventId = None /\
     terminal st = true /\
     webhookEvents (webhook_parsed env signature payload db).1 =
       <[eventId := WebhookEvent.mk st (Some payload)]> (webhookEvents db) /\
     (webhook_parsed env signature payload db).2 = Ok (mkResponse 200 (Text "ok"))).
Proof.
  destruct (eventId_of payload) as [eventId|] eqn:Hid;
    [|left; unfold webhook_parsed; now rewrite Hid].
  destruct (webhookEvents db !! eventId) as [w|] eqn:Hm;
    [left; now rewrite (webhook_parsed_duplicate _ _ _ _ _ _ Hid Hm)|].
  destruct (site_differs (siteId_of payload) (SITE_ID env)) eqn:Hsite.
  { right. exists eventId, ignored.
    now rewrite (webhook_parsed_ok _ _ _ _ _ _ Hid
                   (webhook_tx_ignored _ signature _ _ _ Hm Hsite)). }
  destruct (razorpayOrderId_of payload) as [orderId|] eqn:Hsel.
  2:{ left. now rewrite (webhook_parsed_error _ _ _ _ _ _ Hid Hm
                           (webhook_tx_no_selector _ signature _ _ _ Hm Hsite Hsel)). }
  destruct (List.find (fun p => String.eqb (Payment.razorpayOrderId p) orderId)
              (payments db)) as [payment|] eqn:Hfind.
  2:{ right. exists eventId, no_local_order.
      now rewrite (webhook_parsed_ok _ _ _ _ _ _ Hid
                     (webhook_tx_no_order _ signature _ _ _ _ Hm Hsite Hsel Hfind)). }
  destruct (amount_mismatches (amount_of payload) (Payment.amountPaise payment)) eqn:Hamt.
  { right. exists eventId, amount_mismatch.
    now rewrite (webhook_parsed_ok _ _ _ _ _ _ Hid
                   (webhook_tx_mismatch _ signature _ _ _ _ _ Hm Hsite Hsel Hfind Hamt)). }
  destruct (is_paid_event (Event.event payload)) eqn:Hev.
  - destruct (List.find (has_relatedId (ledger_key (razorpayPaymentId_of payload)))
                (creditLedger db)) as [row|] eqn:Hled.
    { right. exists eventId, processed.
      now rewrite (webhook_parsed_ok _ _ _ _ _ _ Hid
                     (webhook_tx_already_credited _ signature _ _ _ _ _ _ Hm Hsite
                        Hsel Hfind Hamt Hev Hled)). }
    destruct (users db !! Payment.userId payment) as [c|] eqn:Hu.
    + destruct (int4 (Payment.creditsPurchased payment)
                && int4 (c + Payment.creditsPurchased payment)) eqn:Hr.
      2:{ left. now rewrite (webhook_parsed_error _ _ _ _ _ _ Hid Hm
                               (webhook_tx_credit_out_of_range _ signature _ _ _ _ _ _ Hm
                                  Hsite Hsel Hfind Hamt Hev Hled Hu Hr)). }
      apply andb_true_iff in Hr as [Hcp Hsum].
      right. exists eventId, processed.
      now rewrite (webhook_parsed_ok _ _ _ _ _ _ Hid
                     (webhook_tx_credit _ signature _ _ _ _ _ _ Hm Hsite Hsel Hfind Hamt
                        Hev Hled Hu Hcp Hsum)).
    + left. now rewrite (webhook_parsed_error _ _ _ _ _ _ Hid Hm
                           (webhook_tx_credit_no_user _ signature _ _ _ _ _ Hm Hsite Hsel
                              Hfind Hamt Hev Hled Hu)).
  - destruct (is_event (Event.event payload) "payment.failed") eqn:Hfail.
    + right. exists eventId, processed.
      now rewrite (webhook_parsed_ok _ _ _ _ _ _ Hid
                     (webhook_tx_failed _ signature _ _ _ _ _ Hm Hsite Hsel Hfind
                        Hamt Hev Hfail)).
    + right. exists eventId, processed.
      now rewrite (webhook_parsed_ok _ _ _ _ _ _ Hid
                     (webhook_tx_other _ signature _ _ _ _ _ Hm Hsite Hsel Hfind
                        Hamt Hev Hfail)).
Qed.

Section Markers.

Variable hmac_sha256_hex : string -> string -> string.
Variable JSON_parse : string -> option Parsed.

Local Abbreviation webhook_m := (webhook hmac_sha256_hex JSON_parse).

(** X20. Event markers are written once.  Whatever the request and the store,
    the webhook never changes or removes a marker that was there; a marker it
    adds has a terminal status ([ignored], [no_local_order], [amount_mismatch]
    or [processed]), never [processing] and never [error], and comes with the
    answer 200; and whenever the answer is not 200 (a 400, or the 500 after a
    failed transaction) the whole store is as it was before the request, so
    the [error] status the handler tries to record after a rollback is never
    stored and a retry of the event starts afresh. *)
Theorem webhook_markers_write_once (env : Env) (req : WebhookRequest) (db : DB) :
  let db' := (webhook_m env req db).1 in
  let r := (webhook_m env req db).2 in
  (forall eventId w,
     webhookEvents db !! eventId = Some w -> webhookEvents db' !! eventId = Some w) /\
  (forall eventId w,
     webhookEvents db !! eventId = None -> webhookEvents db' !! eventId = Some w ->
     terminal (WebhookEvent.status w) = true /\ r = Ok (mkResponse 200 (Text "ok"))) /\
  (r <> Ok (mkResponse 200 (Text "ok")) -> db' = db).
Proof.
  cbv zeta.
  destruct (webhook_cases hmac_sha256_hex JSON_parse env req db)
    as [(signature & payload & Hadm)|Hsame].
  2:{ rewrite Hsame. split_and!; auto. intros eventId w H1 H2. congruence. }
  rewrite Hadm.
  destruct (webhook_parsed_markers env signature payload db)
    as [Hsame|(eid & st & Hid & Hfresh & Hst & Hm & Hr)].
  - rewrite Hsame. split_and!; auto. intros eventId w H1 H2. congruence.
  - rewrite Hm, Hr. split_and!.
    + intros eventId w Hw. rewrite lookup_insert_ne; [exact Hw|]. congruence.
    + intros eventId w Hnone Hw. destruct (decide (eid = eventId)) as [->|Hne].
      * rewrite lookup_insert_eq in Hw. injection Hw as <-. now split.
      * rewrite lookup_insert_ne in Hw by exact Hne. congruence.
    + congruence.
Qed.

End Markers.

(** ** Accounts: [/register] and [/login] *)

Lemma find_None_existsb {A} (f : A -> bool) (l : list A) :
  List.find f l = None -> existsb f l = false.
Proof.
  induction l as [|a l IH]; simpl; [reflexivity|].
  destruct (f a); simpl; [discriminate|exact IH].
Qed.

Lemma existsb_pointwise {A} (f g : A -> bool) (l : list A) :
  (forall a, f a = g a) -> existsb f l = existsb g l.
Proof. intros H. induction l as [|a l IH]; simpl; [reflexivity|]. now rewrite H, IH. Qed.

Lemma column_is_None column : column_is column None = false.
Proof. now destruct column. Qed.

Lemma column_is_Some column value :
  column = Some value -> column_is column (Some value) = true.
Proof. intros ->. simpl. apply String.eqb_refl. Qed.

Section AccountsProperties.

Variable toLowerCase : string -> string.
Variable is_email : string -> bool.
Variable argon2Hash : string -> string -> option string.
Variable argon2Verify : string -> string -> option bool.
Variable jwt_sign : Z -> string -> Z -> string.
Variable jwt_verify : string -> string -> option (option Z).

Local Abbreviation register' :=
  (register toLowerCase is_email argon2Hash jwt_sign).
Local Abbreviation login' := (login toLowerCase argon2Verify jwt_sign).
Local Abbreviation email_of' := (email_of toLowerCase).
Local Abbreviation signToken' := (signToken jwt_sign).

Lemma registerSchema_parse_Some b username password email :
  registerSchema_parse is_email b = Some (username, password, email) ->
  reg_username b = Some username /\ reg_password b = Some password /\
  reg_email b = email /\ username_ok username = true /\
  (8 <= String.length password)%nat.
Proof.
  unfold registerSchema_parse.
  destruct (reg_username b) as [u|]; [|discriminate].
  destruct (reg_password b) as [pw|]; [|discriminate].
  destruct (username_ok u) eqn:Hu; [|discriminate].
  destruct (8 <=? String.length pw)%nat eqn:Hp; [|discriminate].
  cbn [andb]. destruct (match reg_email b with Some e => is_email e | None => true end);
    [|discriminate].
  intros [= <- <- <-]. split_and!; auto. now apply Nat.leb_le.
Qed.

(** The two ways [/register] ends: nothing written and no user in the
    answer, or one row appended. *)
Lemma register_cases ienv b salt seq now accounts :
  ((register' ienv b salt seq now accounts).1 = accounts /\
   (register' ienv b salt seq now accounts).2 <> Throw P2002 /\
   forall user token,
     (register' ienv b salt seq now accounts).2 <> Ok (AuthUser user token)) \/
  (exists username password passwordHash,
     reg_username b = Some username /\ reg_password b = Some password /\
     username_ok username = true /\ (8 <= String.length password)%nat /\
     argon2Hash salt password = Some passwordHash /\
     user_findFirst (toLowerCase username) (email_of' (reg_email b)) accounts = None /\
     register' ienv b salt seq now accounts =
       (accounts ++
          [User.mk seq (toLowerCase username) (email_of' (reg_email b)) None
             (Some passwordHash) None 0 None],
        Ok (AuthUser
              (mkPublicUser seq (toLowerCase username) (email_of' (reg_email b)) 0 None)
              (signToken' ienv seq now)))).
Proof.
  unfold register.
  destruct (registerSchema_parse is_email b) as [[[username password] email]|] eqn:Hparse;
    [|left; simpl; split_and!; auto; discriminate].
  apply registerSchema_parse_Some in Hparse as (Hu & Hp & He & Hok & Hlen).
  subst email.
  destruct (user_findFirst _ _ accounts) as [existing|] eqn:Hfind;
    [left; simpl; split_and!; auto; discriminate|].
  unfold hashPassword.
  destruct (String.length password <? 8)%nat eqn:Hshort;
    [left; simpl; split_and!; auto; discriminate|].
  destruct (argon2Hash salt password) as [h|] eqn:Hhash;
    [|left; simpl; split_and!; auto; discriminate].
  unfold user_create. cbn [User.username User.email User.googleId].
  assert (existsb
            (fun u => String.eqb (User.username u) (toLowerCase username)
                      || column_is (User.email u) (email_of' (reg_email b))
                      || column_is (User.googleId u) None) accounts = false) as Hfree.
  { apply find_None_existsb in Hfind. rewrite <- Hfind. apply existsb_pointwise.
    intros u. now rewrite column_is_None, orb_false_r. }
  rewrite Hfree. right. exists username, password, h. split_and!; auto.
Qed.

Lemma user_findFirst_None username email accounts :
  user_findFirst username email accounts = None ->
  forall u, In u accounts ->
    User.username u <> username /\
    (forall e, email = Some e -> User.email u <> Some e).
Proof.
  intros Hfind u Hin. pose proof (List.find_none _ _ Hfind u Hin) as Hu.
  apply orb_false_iff in Hu as [Hname Hmail]. split.
  - now apply String.eqb_neq.
  - intros e -> Hue. now rewrite (column_is_Some _ _ Hue) in Hmail.
Qed.

(** X21. Whatever the body and the table, [/register] either writes nothing
    and answers without a user, or appends exactly one row: the user name in
    lower case (it had 3 to 30 characters of [a-zA-Z0-9_.-]), the e-mail in
    lower case or null, the hash argon2 gave for a password of at least 8
    characters, no Google id, 0 credits; and answers with that user.  The new
    row's user name, and its e-mail if it has one, are held by no earlier row:
    a table free of repeated user names and repeated e-mails stays so, and the
    insertion never runs into the unique indexes. *)
Theorem register_effect (ienv : gmap string string) (b : RegisterBody) (salt : string)
    (seq now : Z) (accounts : list User.t) :
  let accounts' := (register' ienv b salt seq now accounts).1 in
  let reply := (register' ienv b salt seq now accounts).2 in
  reply <> Throw P2002 /\
  ((accounts' = accounts /\ forall user token, reply <> Ok (AuthUser user token)) \/
   (exists username password passwordHash,
      reg_username b = Some username /\ reg_password b = Some password /\
      username_ok username = true /\ (8 <= String.length password)%nat /\
      argon2Hash salt password = Some passwordHash /\
      accounts' =
        accounts ++
          [User.mk seq (toLowerCase username) (email_of' (reg_email b)) None
             (Some passwordHash) None 0 None] /\
      reply =
        Ok (AuthUser
              (mkPublicUser seq (toLowerCase username) (email_of' (reg_email b)) 0 None)
              (signToken' ienv seq now)))) /\
  (NoDup (User.username <$> accounts) -> NoDup (User.username <$> accounts')) /\
  (NoDup (omap User.email accounts) -> NoDup (omap User.email accounts')).
Proof.
  cbv zeta.
  destruct (register_cases ienv b salt seq now accounts)
    as [(Hsame & Hno & Hnone)|(username & password & h & Hu & Hp & Hok & Hlen & Hhash
                               & Hfind & Hreg)].
  - rewrite Hsame. split_and!; auto.
  - rewrite Hreg. cbn [fst snd]. split_and!.
    + discriminate.
    + right. exists username, password, h. split_and!; auto.
    + intros Hnd. rewrite fmap_app. apply NoDup_app. split_and!; auto.
      * intros name Hin Hnew. apply list_elem_of_fmap in Hin as (u & -> & Hin).
        apply list_elem_of_singleton in Hnew.
        apply list_elem_of_In in Hin.
        now destruct (user_findFirst_None _ _ _ Hfind u Hin) as [Hne _].
      * apply NoDup_singleton.
    + intros Hnd. rewrite omap_app. apply NoDup_app. split_and!; auto.
      * intros e Hin Hnew. apply list_elem_of_omap in Hin as (u & Hin & Hue).
        simpl in Hnew. destruct (email_of' (reg_email b)) as [e'|] eqn:He;
          simpl in Hnew; [|now apply elem_of_nil in Hnew].
        apply list_elem_of_singleton in Hnew. subst e'.
        apply list_elem_of_In in Hin.
        destruct (user_findFirst_None _ _ _ Hfind u Hin) as [_ Hne].
        now apply (Hne e).
      * simpl. destruct (email_of' (reg_email b)); simpl;
          [apply NoDup_singleton|apply NoDup_nil_2].
Qed.

Lemma find_snoc_None {A} (f : A -> bool) (l : list A) (a : A) :
  List.find f l = None -> List.find f (l ++ [a]) = (if f a then Some a else None).
Proof.
  induction l as [|x l IH]; simpl; [reflexivity|].
  destruct (f x); [discriminate|exact IH].
Qed.

(** X22. Register, then log in.  Suppose argon2 verifies a password against
    the hash it made of it, and its hashes are non-empty.  After [/register]
    has answered with a user, [/login] with the same password and the same
    user name in any spelling with the same lower-case form answers with that
    very user and a token for its id; a password argon2 does not verify
    against the stored hash gets 401 [Invalid credentials]. *)
Theorem register_then_login (ienv : gmap string string) (b : RegisterBody) (salt : string)
    (seq now : Z) (accounts : list User.t) (user : PublicUser) (token : string)
    (username password : string) :
  let accounts' := (register' ienv b salt seq now accounts).1 in
  (register' ienv b salt seq now accounts).2 = Ok (AuthUser user token) ->
  reg_username b = Some username ->
  reg_password b = Some password ->
  (forall h, argon2Hash salt password = Some h ->
             h <> "" /\ argon2Verify h password = Some true) ->
  (forall username' now',
     toLowerCase username' = toLowerCase username ->
     login' ienv (mkLoginBody (Some username') (Some password)) now' accounts' =
       Ok (AuthUser user (signToken' ienv (pub_id user) now'))) /\
  (forall username' password' now',
     toLowerCase username' = toLowerCase username ->
     (forall h, argon2Hash salt password = Some h ->
                argon2Verify h password' <> Some true) ->
     login' ienv (mkLoginBody (Some username') (Some password')) now' accounts' =
       Ok (AuthFailure 401 "Invalid credentials")).
Proof.
  cbv zeta. intros Hreply Hu Hp Hargon.
  destruct (register_cases ienv b salt seq now accounts)
    as [(_ & _ & Hnone)|(username0 & password0 & h & Hu0 & Hp0 & Hok & Hlen & Hhash
                          & Hfind & Hreg)];
    [now destruct (Hnone user token)|].
  rewrite Hreg in *. cbn [fst snd] in *.
  assert (username0 = username) as -> by congruence.
  assert (password0 = password) as -> by congruence.
  injection Hreply as <- <-.
  destruct (Hargon h Hhash) as [Hne Hverify].
  set (row := User.mk seq (toLowerCase username) (email_of' (reg_email b)) None (Some h)
                None 0 None).
  assert (forall username',
            toLowerCase username' = toLowerCase username ->
            user_findUnique_username (toLowerCase username') (accounts ++ [row]) = Some row)
    as Hlookup.
  { intros username' ->. unfold user_findUnique_username. rewrite find_snoc_None.
    - cbn [row User.username]. now rewrite String.eqb_refl.
    - apply existsb_find_None. apply find_None_existsb in Hfind.
      apply not_true_is_false. intros Hex. apply not_true_iff_false in Hfind.
      apply Hfind. apply List.existsb_exists in Hex as (u & Hin & Hname).
      apply List.existsb_exists. exists u. split; [exact Hin|]. now rewrite Hname. }
  assert (truthy_string (Some h) = true) as Htruthy by (destruct h; [congruence|reflexivity]).
  split.
  - intros username' now' Hlow. unfold login. cbn [login_username login_password].
    rewrite (Hlookup _ Hlow). cbn [row User.passwordHash]. rewrite Htruthy. cbn [negb].
    unfold verifyPassword, or_string. rewrite Htruthy, Hverify. reflexivity.
  - intros username' password' now' Hlow Hbad. unfold login.
    cbn [login_username login_password].
    rewrite (Hlookup _ Hlow). cbn [row User.passwordHash]. rewrite Htruthy. cbn [negb].
    unfold verifyPassword, or_string. rewrite Htruthy.
    specialize (Hbad h Hhash).
    destruct (argon2Verify h password') as [[|]|]; simpl; congruence.
Qed.

(** X23. [/login] never throws and tells nothing about why it refuses.  With
    a user name and a password in the body, it answers with a user only when
    the row with that user name in lower case has a non-empty password hash
    that argon2 verifies against the password, and the user in the answer is
    that row; in every other case (no such row, a row without a password such
    as a Google account, a wrong password, a verifier that throws) the answer
    is the same 401 [Invalid credentials].  Without both fields it is 400. *)
Theorem login_outcomes (ienv : gmap string string) (b : LoginBody) (now : Z)
    (accounts : list User.t) :
  (forall username password,
     login_username b = Some username -> login_password b = Some password ->
     login' ienv b now accounts = Ok (AuthFailure 401 "Invalid credentials") \/
     exists row h,
       In row accounts /\ User.username row = toLowerCase username /\
       User.passwordHash row = Some h /\ h <> "" /\
       argon2Verify h password = Some true /\
       login' ienv b now accounts =
         Ok (AuthUser (public_of row) (signToken' ienv (User.id row) now))) /\
  (login_username b = None \/ login_password b = None ->
   login' ienv b now accounts = Ok (AuthFailure 400 "Invalid input")).
Proof.
  split.
  - intros username password Hu Hp. unfold login. rewrite Hu, Hp.
    destruct (user_findUnique_username _ accounts) as [row|] eqn:Hfind; [|now left].
    apply List.find_some in Hfind as [Hin Hname]. apply String.eqb_eq in Hname.
    destruct (User.passwordHash row) as [[|c h]|] eqn:Hhash; try (now left).
    cbn [truthy_string negb String.eqb]. cbv beta iota.
    unfold verifyPassword.
    change (or_string (Some (String c h)) None) with (Some (String c h)).
    cbv beta iota.
    destruct (argon2Verify (String c h) password) as [[|]|] eqn:Hverify;
      try (now left).
    right. exists row, (String c h). split_and!; auto; discriminate.
  - intros [H|H]; unfold login; rewrite H; [reflexivity|].
    now destruct (login_username b).
Qed.

(** X24. Does the token [/login] hands out open the routes behind
    [requireAuth]?  [/login] signs with the secret utils/jwt.js read when it
    was loaded; the middleware verifies with [JWT_SECRET] as it is at the
    time of the request, after app.js has run [dotenv.config()].  Suppose the
    token [/login] answered with verifies, under the secret it was signed
    with, to the id it was signed for, and the store's balances are those of
    the table.  When [JWT_SECRET] was in the environment the process was
    started with, or is not in the [.env] file, the middleware admits a
    request that presents the token as the [auth_token] cookie, whatever its
    [Authorization] header says, or as a [Bearer] header without a cookie, as
    the user who logged in and with the credits [/login] reported.  When the
    secret comes from the [.env] file only, and the token does not verify
    under it, the middleware answers 401 to the token [/login] has just
    handed out.  [/auth/me] accepts the token either way. *)
Theorem login_token_admitted (file ienv : gmap string string) (b : LoginBody) (now : Z)
    (accounts : list User.t) (db : DB) (user : PublicUser) (token : string) :
  let penv := dotenv_config file ienv in
  login' ienv b now accounts = Ok (AuthUser user token) ->
  credits_view accounts db ->
  token <> "" ->
  jwt_verify token (JWT_SECRET ienv) = Some (Some (pub_id user)) ->
  token = jwt_sign (pub_id user) (JWT_SECRET ienv) now /\
  (forall header,
     me jwt_verify ienv (mkAuthRequest (Some token) header) db =
       Ok (MeUser (pub_id user) (pub_credits user))) /\
  (is_Some (ienv !! "JWT_SECRET") \/ file !! "JWT_SECRET" = None ->
   (forall header,
      requireAuth jwt_verify penv (mkAuthRequest (Some token) header) db =
        Next (pub_id user) (pub_credits user)) /\
   requireAuth jwt_verify penv
     (mkAuthRequest None (Some (String.append "Bearer " token))) db =
     Next (pub_id user) (pub_credits user)) /\
  (forall s,
     ienv !! "JWT_SECRET" = None -> file !! "JWT_SECRET" = Some s -> s <> "" ->
     jwt_verify token s = None ->
     (forall header,
        requireAuth jwt_verify penv (mkAuthRequest (Some token) header) db = Unauthorized) /\
     requireAuth jwt_verify penv
       (mkAuthRequest None (Some (String.append "Bearer " token))) db = Unauthorized).
Proof.
  cbv zeta. intros Hlogin Hview Hne Hverify.
  assert (exists row, In row accounts /\ user = public_of row /\
                      token = signToken' ienv (User.id row) now) as (row & Hin & -> & Htok).
  { destruct (login_username b) as [username|] eqn:Hu;
      [|unfold login in Hlogin; rewrite Hu in Hlogin; discriminate].
    destruct (login_password b) as [password|] eqn:Hp;
      [|unfold login in Hlogin; rewrite Hu, Hp in Hlogin; discriminate].
    unfold login in Hlogin. rewrite Hu, Hp in Hlogin.
    destruct (user_findUnique_username _ accounts) as [row|] eqn:Hfind; [|discriminate].
    apply List.find_some in Hfind as [Hin _].
    destruct (negb _); [discriminate|].
    destruct (verifyPassword _ _ _); [|discriminate].
    injection Hlogin as <- <-. now exists row. }
  pose proof (Hview row Hin) as Hcredits.
  cbn [public_of pub_id pub_credits] in *.
  assert (forall header,
            token_of (mkAuthRequest (Some token) header) = Some token) as Hcookie.
  { intros header. unfold token_of, or_string. cbn [cookie_auth_token].
    destruct token; [congruence|reflexivity]. }
  assert (token_of (mkAuthRequest None (Some (String.append "Bearer " token))) = Some token)
    as Hbearer.
  { unfold token_of, or_string. cbn [cookie_auth_token authorization truthy_string].
    now rewrite prefix_bearer, slice_bearer. }
  split_and!.
  - exact Htok.
  - intros header. unfold me, verifyToken. rewrite Hcookie.
    destruct token as [|c t]; [congruence|]. now rewrite Hverify, Hcredits.
  - intros Henv. rewrite (JWT_SECRET_dotenv file ienv Henv) in Hverify. split.
    + intros header. unfold requireAuth. rewrite Hcookie.
      destruct token as [|c t]; [congruence|]. now rewrite Hverify, Hcredits.
    + unfold requireAuth. rewrite Hbearer.
      destruct token as [|c t]; [congruence|]. now rewrite Hverify, Hcredits.
  - intros s Hv Hfile Hs Hrefused.
    destruct (jwt_secret_dotenv_file file ienv s Hv Hfile Hs) as [_ Hreq]. split.
    + intros header. unfold requireAuth. rewrite Hcookie, Hreq.
      destruct token as [|c t]; [congruence|]. now rewrite Hrefused.
    + unfold requireAuth. rewrite Hbearer, Hreq.
      destruct token as [|c t]; [congruence|]. now rewrite Hrefused.
Qed.

End AccountsProperties.

(** ** The low-credit job *)

Lemma stamp_stamp t t' u : stamp t (stamp t' u) = stamp t u.
Proof. reflexivity. Qed.

Lemma user_update_stamp_map id t accounts :
  match user_update_stamp id t accounts with
  | Ok accounts' => accounts'
  | Throw _ => accounts
  end = List.map (fun u => if User.id u =? id then stamp t u else u) accounts.
Proof.
  unfold user_update_stamp.
  destruct (existsb _ accounts) eqn:Hex; [reflexivity|].
  induction accounts as [|a l IH]; [reflexivity|].
  simpl in *. apply orb_false_iff in Hex as [Ha Hl]. rewrite Ha. f_equal. now apply IH.
Qed.

(** The loop of the job, as one pass over the table: a row is stamped when a
    selected row has its id, and the mails are those of the selected rows in
    order. *)
Lemma notifier_fold penv clock (due : list User.t) :
  forall (accounts : list User.t) (mails : list (Z * Mail)),
    List.fold_left
      (fun acc user =>
         let sent :=
           List.map (fun m => (User.id user, m)) (sendLowCreditEmail penv user) in
         match user_update_stamp (User.id user) (clock (User.id user)) acc.1 with
         | Ok accounts' => (accounts', acc.2 ++ sent)
         | Throw _ => (acc.1, acc.2 ++ sent)
         end)
      due (accounts, mails) =
    (List.map
       (fun u => if existsb (fun d => User.id u =? User.id d) due
                 then stamp (clock (User.id u)) u else u) accounts,
     mails ++
       flat_map (fun user => List.map (fun m => (User.id user, m))
                               (sendLowCreditEmail penv user)) due).
Proof.
  induction due as [|d due IH]; intros accounts mails.
  - simpl. rewrite app_nil_r. f_equal. induction accounts as [|a l IHl]; simpl; congruence.
  - cbn [List.fold_left flat_map]. cbv zeta. cbn [fst snd].
    pose proof (user_update_stamp_map (User.id d) (clock (User.id d)) accounts) as Hupd.
    assert (forall rows,
              rows = List.map (fun u => if User.id u =? User.id d
                                        then stamp (clock (User.id d)) u else u) accounts ->
              List.map (fun u => if existsb (fun d => User.id u =? User.id d) due
                                 then stamp (clock (User.id u)) u else u) rows =
              List.map (fun u => if existsb (fun d => User.id u =? User.id d) (d :: due)
                                 then stamp (clock (User.id u)) u else u) accounts)
      as Hrows.
    { intros rows ->. rewrite List.map_map. apply List.map_ext. intros u. simpl.
      destruct (User.id u =? User.id d) eqn:Hid; simpl; [|reflexivity].
      apply Z.eqb_eq in Hid. rewrite <- Hid. destruct (existsb _ due); reflexivity. }
    destruct (user_update_stamp (User.id d) (clock (User.id d)) accounts) as [accounts'|e];
      rewrite IH, <- app_assoc; f_equal; now apply Hrows.
Qed.

Lemma In_sendLowCreditEmail penv u m :
  In m (sendLowCreditEmail penv u) ->
  truthy_string (penv !! "SMTP_HOST") = true /\
  User.email u = Some (mail_to m) /\ mail_to m <> "".
Proof.
  unfold sendLowCreditEmail, or_string.
  destruct (User.email u) as [[|c e]|]; simpl; try tauto.
  destruct (truthy_string (penv !! "SMTP_HOST")); simpl; [|tauto].
  intros [<-|[]]. simpl. split_and!; auto; discriminate.
Qed.

Lemma sendLowCreditEmail_sends penv u e :
  truthy_string (penv !! "SMTP_HOST") = true ->
  User.email u = Some e -> e <> "" ->
  exists m, In m (sendLowCreditEmail penv u) /\ mail_to m = e.
Proof.
  intros Hsmtp He Hne. unfold sendLowCreditEmail, or_string. rewrite He, Hsmtp.
  destruct e as [|c e]; [congruence|]. simpl. eexists. split; [left; reflexivity|reflexivity].
Qed.

Lemma same_id_same_row (accounts : list User.t) (u v : User.t) :
  NoDup (User.id <$> accounts) -> In u accounts -> In v accounts ->
  User.id u = User.id v -> u = v.
Proof.
  induction accounts as [|a l IH]; intros Hnd Hu Hv Hid; [destruct Hu|].
  rewrite fmap_cons in Hnd. apply NoDup_cons in Hnd as [Hnotin Hnd].
  destruct Hu as [->|Hu], Hv as [->|Hv]; auto.
  - exfalso. apply Hnotin. rewrite Hid. apply list_elem_of_fmap. exists v.
    split; [reflexivity|]. now apply list_elem_of_In.
  - exfalso. apply Hnotin. rewrite <- Hid. apply list_elem_of_fmap. exists u.
    split; [reflexivity|]. now apply list_elem_of_In.
Qed.

Lemma due_by_id now (accounts : list User.t) (u : User.t) :
  NoDup (User.id <$> accounts) -> In u accounts ->
  existsb (fun d => User.id u =? User.id d) (List.filter (low_credit_due now) accounts)
  = low_credit_due now u.
Proof.
  intros Hnd Hin. destruct (low_credit_due now u) eqn:Hdue.
  - apply List.existsb_exists. exists u. split; [|apply Z.eqb_refl].
    apply List.filter_In. now split.
  - apply not_true_is_false. intros Hex.
    apply List.existsb_exists in Hex as (d & Hd & Hid).
    apply List.filter_In in Hd as [Hd Hdd]. apply Z.eqb_eq in Hid.
    rewrite (same_id_same_row accounts u d Hnd Hin Hd Hid) in Hdue. congruence.
Qed.

(** X25. One run of the low-credit job, on a table whose ids are distinct
    and with a clock that does not run backwards.  A mail goes only to the
    address of a user with fewer than 10 credits and no stamp within the seven
    days before the run, and only when [SMTP_HOST] is set; then every such
    user with an address is written to.  Every such user is stamped with the
    time of its update, also one without an address and also when no SMTP
    transport is configured or the transport failed; no other row changes.
    A run started less than seven days after this one writes to nobody who
    was selected in this one. *)
Theorem low_credit_notifier_weekly (penv : gmap string string) (now : Z) (clock : Z -> Z)
    (accounts : list User.t) :
  NoDup (User.id <$> accounts) ->
  (forall id, now <= clock id) ->
  let accounts' := (notifier_run penv now clock accounts).1 in
  let mails := (notifier_run penv now clock accounts).2 in
  (forall id m,
     In (id, m) mails ->
     truthy_string (penv !! "SMTP_HOST") = true /\
     exists u, In u accounts /\ User.id u = id /\ low_credit_due now u = true /\
               User.email u = Some (mail_to m) /\ mail_to m <> "") /\
  (truthy_string (penv !! "SMTP_HOST") = true ->
   forall u e,
     In u accounts -> low_credit_due now u = true -> User.email u = Some e -> e <> "" ->
     exists m, In (User.id u, m) mails /\ mail_to m = e) /\
  accounts' =
    List.map (fun u => if low_credit_due now u then stamp (clock (User.id u)) u else u)
      accounts /\
  (forall now2 clock2 id m,
     now2 - 7 * 24 * 60 * 60 * 1000 <= now ->
     In (id, m) (notifier_run penv now2 clock2 accounts').2 ->
     forall u, In u accounts -> User.id u = id -> low_credit_due now u = false).
Proof.
  intros Hnd Hclock. cbv zeta.
  assert (forall t cl l,
            (notifier_run penv t cl l).2 =
              flat_map (fun user => List.map (fun m => (User.id user, m))
                                      (sendLowCreditEmail penv user))
                (List.filter (low_credit_due t) l)) as Hmails.
  { intros t cl l. unfold notifier_run. now rewrite notifier_fold. }
  assert (forall t cl l id m,
            In (id, m) (notifier_run penv t cl l).2 ->
            truthy_string (penv !! "SMTP_HOST") = true /\
            exists u, In u l /\ User.id u = id /\ low_credit_due t u = true /\
                      User.email u = Some (mail_to m) /\ mail_to m <> "") as Hsent.
  { intros t cl l id m Hin. rewrite Hmails in Hin.
    apply List.in_flat_map in Hin as (d & Hd & Hin).
    apply List.in_map_iff in Hin as (m' & [= <- <-] & Hin).
    apply List.filter_In in Hd as [Hd Hdue].
    apply In_sendLowCreditEmail in Hin as (Hsmtp & He & Hne).
    split; [exact Hsmtp|]. exists d. split_and!; auto. }
  assert ((notifier_run penv now clock accounts).1 =
            List.map (fun u => if low_credit_due now u then stamp (clock (User.id u)) u
                               else u) accounts) as Hrows.
  { unfold notifier_run. rewrite notifier_fold. cbn [fst].
    apply List.map_ext_in. intros u Hin. now rewrite due_by_id. }
  split_and!.
  - intros id m. apply Hsent.
  - intros Hsmtp u e Hin Hdue He Hne. rewrite Hmails.
    destruct (sendLowCreditEmail_sends penv u e Hsmtp He Hne) as (m & Hm & Hto).
    exists m. split; [|exact Hto].
    apply List.in_flat_map. exists u. split; [apply List.filter_In; now split|].
    apply List.in_map_iff. now exists m.
  - exact Hrows.
  - intros now2 clock2 id m Hsoon Hin u Hu Hid.
    apply Hsent in Hin as (_ & u' & Hu' & Hid' & Hdue' & _).
    rewrite Hrows in Hu'. apply List.in_map_iff in Hu' as (u0 & <- & Hu0).
    assert (User.id u0 = User.id u) as Hsame
      by (rewrite Hid, <- Hid'; now destruct (low_credit_due now u0)).
    rewrite (same_id_same_row accounts u0 u Hnd Hu0 Hu Hsame) in Hdue'.
    destruct (low_credit_due now u) eqn:Hdue; [|reflexivity].
    unfold low_credit_due in Hdue'. cbn [stamp User.credits User.lastLowCreditEmailAt] in Hdue'.
    apply andb_true_iff in Hdue' as [_ Hold]. apply Z.ltb_lt in Hold.
    specialize (Hclock (User.id u)). lia.
Qed.

(** * The further properties on the sample data *)

Lemma purchase_flow_credits_requested_witness :
  let req := mkWebhookRequest (Some "flow") (Some (sample_hmac "hook_secret_test" "flow")) in
  let db1 := (create_order sample_provider sample_penv 20 (Some 4) 1700000000000 11
                sample_db).1 in
  let db2 := (webhook sample_hmac sample_flow_parse (env_of sample_penv) req db1).1 in
  users db2 = <[20 := 100 + 4]> (users sample_db) /\
  creditLedger db2 =
    creditLedger sample_db ++
      [CreditLedger.mk 20 4 purchase "payment" (Some "razorpay:pay_new")] /\
  List.find (fun p => String.eqb (Payment.razorpayOrderId p) "order_new") (payments db2) =
    Some (Payment.mk 11 20 "order_new" (Some "pay_new")
            (Some (sample_hmac "hook_secret_test" "flow")) 2000 4 paid) /\
  (webhook sample_hmac sample_flow_parse (env_of sample_penv) req db1).2 =
    Ok (mkResponse 200 (Text "ok")).
Proof.
  apply (purchase_flow_credits_requested sample_hmac sample_flow_parse sample_provider
           sample_penv 20 4 1700000000000 11 100 sample_db "ai_ot_helper" "order_new"
           "evt_new" "payment.captured" "pay_new" (sample_hmac "hook_secret_test" "flow")
           (mkWebhookRequest (Some "flow") (Some (sample_hmac "hook_secret_test" "flow")))).
  - reflexivity.
  - discriminate.
  - lia.
  - lia.
  - lia.
  - reflexivity.
  - reflexivity.
  - reflexivity.
  - reflexivity.
  - exists "flow", "hook_secret_test". split_and!; try reflexivity. discriminate.
  - discriminate.
  - reflexivity.
  - reflexivity.
  - reflexivity.
Defined.

Lemma unset_site_id_ignores_every_event_witness :
  let req := mkWebhookRequest (Some "flow") (Some (sample_hmac "hook_secret_test" "flow")) in
  let db' := (webhook sample_hmac sample_flow_parse (env_of sample_penv_no_site) req
                sample_db).1 in
  site_tag sample_penv_no_site = "unknown_site" /\
  payments db' = payments sample_db /\
  creditLedger db' = creditLedger sample_db /\
  users db' = users sample_db /\
  (forall eventId, eventId_of sample_flow_event = Some eventId ->
     webhookEvents sample_db !! eventId = None ->
     webhookEvents db' =
       <[eventId := WebhookEvent.mk ignored (Some sample_flow_event)]>
         (webhookEvents sample_db)).
Proof.
  apply (unset_site_id_ignores_every_event sample_hmac sample_flow_parse sample_penv_no_site
           (mkWebhookRequest (Some "flow") (Some (sample_hmac "hook_secret_test" "flow")))
           (sample_hmac "hook_secret_test" "flow") sample_flow_event sample_db).
  - left. reflexivity.
  - exists "flow", "hook_secret_test". split_and!; try reflexivity. discriminate.
Defined.

Lemma receipt_site_round_trip_witness :
  site_differs
    (siteId_of (receipt_event "evt_new" "payment.captured" "order_new"
                  (receipt_of "ai_ot_helper" 20 1700000000000) 2000))
    (Some "ai_ot_helper") = false /\
  site_differs
    (siteId_of (receipt_event "evt_new" "payment.captured" "order_new"
                  (receipt_of "shop:eu" 20 1700000000000) 2000))
    (Some "shop:eu") = true.
Proof.
  split.
  - apply (receipt_site_round_trip "ai_ot_helper" "evt_new" "payment.captured" "order_new"
             2000 20 1700000000000). discriminate.
  - apply (receipt_site_round_trip "shop:eu" "evt_new" "payment.captured" "order_new"
             2000 20 1700000000000). discriminate.
Defined.

Lemma startup_check_production_witness :
  [] = @nil (list string) /\
  (forall k, In k requiredInProd -> truthy_string (sample_prod_penv !! k) = true) /\
  (truthy_string (sample_prod_penv !! "SMTP_HOST") = true ->
   forall k, In k smtpVars -> truthy_string (sample_prod_penv !! k) = true) /\
  (forall orderId paymentId signature,
     exists verdict,
       verifyRazorpaySignature sample_hmac (env_of sample_prod_penv) orderId paymentId
         signature = Ok verdict).
Proof.
  apply (startup_check_production sample_hmac sample_prod_penv []); reflexivity.
Defined.

Lemma progress_same_millisecond_witness :
  let reg1 := (progress sample_jwt_verify sample_penv sample_penv 1700000000000 1 (Some "r1")
                 (Some "token-20") []).1 in
  let reg2 := (progress sample_jwt_verify sample_penv sample_penv 1700000000000 2 (Some "r2") None
                 reg1).1 in
  (exists second, clients_get 1700000000000 reg2 = Some second /\ Sse.res second = 2%nat) /\
  clients_get 1700000000000 (on_close 1700000000000 reg2) = None /\
  (forall json requestId data,
     ~ In (2%nat, data) (sendProgressUpdate json requestId (on_close 1700000000000 reg2))).
Proof.
  apply (progress_same_millisecond sample_jwt_verify sample_penv sample_penv 1700000000000 1 2
           (Some "r1") (Some "r2") (Some "token-20") None []).
  - reflexivity.
  - reflexivity.
  - simpl. tauto.
Defined.

Lemma progress_subscription_delivery_witness :
  let reg := (progress sample_jwt_verify sample_penv sample_penv 1700000000000 1 (Some "r1")
                (Some "token-20") []).1 in
  (forall json,
     In (1%nat, progress_data json) (sendProgressUpdate json (Some "r1") reg)) /\
  (forall json r' data,
     r' <> "" -> r' <> "r1" ->
     ~ In (1%nat, data) (sendProgressUpdate json (Some r') reg)) /\
  (forall json requestId data,
     ~ In (1%nat, data) (sendProgressUpdate json requestId (on_close 1700000000000 reg))).
Proof.
  apply (progress_subscription_delivery sample_jwt_verify sample_penv sample_penv
           1700000000000 1 "r1"
           (Some "token-20") []).
  - reflexivity.
  - discriminate.
  - simpl. tauto.
Defined.

Lemma register_then_login_witness :
  let b := mkRegisterBody (Some "Ravi_01") (Some "correct horse")
             (Some "Ravi@Example.com") in
  let accounts' :=
    (register sample_toLowerCase sample_is_email sample_argon2Hash sample_jwt_sign
       sample_penv b "salt" 21 1700000000000 sample_accounts).1 in
  let user := mkPublicUser 21 "ravi_01" (Some "ravi@example.com") 0 None in
  (forall username' now',
     sample_toLowerCase username' = sample_toLowerCase "Ravi_01" ->
     login sample_toLowerCase sample_argon2Verify sample_jwt_sign sample_penv
       (mkLoginBody (Some username') (Some "correct horse")) now' accounts' =
       Ok (AuthUser user (signToken sample_jwt_sign sample_penv (pub_id user) now'))) /\
  (forall username' password' now',
     sample_toLowerCase username' = sample_toLowerCase "Ravi_01" ->
     (forall h, sample_argon2Hash "salt" "correct horse" = Some h ->
                sample_argon2Verify h password' <> Some true) ->
     login sample_toLowerCase sample_argon2Verify sample_jwt_sign sample_penv
       (mkLoginBody (Some username') (Some password')) now' accounts' =
       Ok (AuthFailure 401 "Invalid credentials")).
Proof.
  apply (register_then_login sample_toLowerCase sample_is_email sample_argon2Hash
           sample_argon2Verify sample_jwt_sign sample_penv
           (mkRegisterBody (Some "Ravi_01") (Some "correct horse") (Some "Ravi@Example.com"))
           "salt" 21 1700000000000 sample_accounts
           (mkPublicUser 21 "ravi_01" (Some "ravi@example.com") 0 None) "token-21"
           "Ravi_01" "correct horse").
  - vm_compute. reflexivity.
  - reflexivity.
  - reflexivity.
  - intros h [= <-]. split; [discriminate|reflexivity].
Defined.

Lemma login_token_admitted_witness :
  let user := mkPublicUser 20 "asha" (Some "asha@example.com") 100 None in
  let token := "token-20/development_secret_change_me" in
  let penv := dotenv_config sample_dotenv sample_penv in
  token = sample_jwt_sign_secret (pub_id user) (JWT_SECRET sample_penv) 1700000000000 /\
  (forall header,
     me sample_jwt_verify_secret sample_penv (mkAuthRequest (Some token) header) sample_db =
       Ok (MeUser (pub_id user) (pub_credits user))) /\
  (is_Some (sample_penv !! "JWT_SECRET") \/ sample_dotenv !! "JWT_SECRET" = None ->
   (forall header,
      requireAuth sample_jwt_verify_secret penv (mkAuthRequest (Some token) header)
        sample_db = Next (pub_id user) (pub_credits user)) /\
   requireAuth sample_jwt_verify_secret penv
     (mkAuthRequest None (Some (String.append "Bearer " token))) sample_db =
     Next (pub_id user) (pub_credits user)) /\
  (forall s,
     sample_penv !! "JWT_SECRET" = None -> sample_dotenv !! "JWT_SECRET" = Some s ->
     s <> "" ->
     sample_jwt_verify_secret token s = None ->
     (forall header,
        requireAuth sample_jwt_verify_secret penv (mkAuthRequest (Some token) header)
          sample_db = Unauthorized) /\
     requireAuth sample_jwt_verify_secret penv
       (mkAuthRequest None (Some (String.append "Bearer " token))) sample_db =
       Unauthorized).
Proof.
  apply (login_token_admitted sample_toLowerCase sample_argon2Verify sample_jwt_sign_secret
           sample_jwt_verify_secret sample_dotenv sample_penv
           (mkLoginBody (Some "Asha") (Some "correct horse")) 1700000000000
           sample_accounts sample_db
           (mkPublicUser 20 "asha" (Some "asha@example.com") 100 None)
           "token-20/development_secret_change_me").
  - vm_compute. reflexivity.
  - intros u [<-|[]]. reflexivity.
  - discriminate.
  - reflexivity.
Defined.

Lemma upload_charges_only_on_success_witness :
  let req := sample_upload_constructor in
  let db := sample_db in
  let db' := (upload_route req db).1 in
  let r := (upload_route req db).2 in
  (forall uid, uid <> user_id req -> users db' !! uid = users db !! uid) /\
  (forall resp,
     r = Ok resp -> status resp = 200 ->
     exists n c,
       getRequiredCredits (model_of req) = Credits n /\ 1 <= n <= 10 /\
       users db !! user_id req = Some c /\ n <= c /\
       users db' = <[user_id req := c - n]> (users db) /\
       creditLedger db' =
         creditLedger db ++
           [CreditLedger.mk (user_id req) (- n) debit
              (String.append "model:" (model_of req)) (Some (requestId_of req))]) /\
  (forall resp, r = Ok resp -> status resp <> 200 -> users db' = users db) /\
  (forall e, r = Throw e ->
     (3 < files req)%nat /\ db' = db /\ status (error_handler e) = 500) /\
  (getRequiredCredits (model_of req) = Inherited ->
   (0 < files req <= 3)%nat -> is_Some (users db !! user_id req) ->
   db' = db /\ exists resp, r = Ok resp /\ status resp = 500).
Proof.
  apply (upload_charges_only_on_success sample_upload_constructor sample_db).
  intros c Hc. vm_compute in Hc. injection Hc as <-. reflexivity.
Defined.

Lemma low_credit_notifier_weekly_witness :
  let now := 1700000000000 in
  let clock := fun _ : Z => 1700000000005 in
  let accounts' := (notifier_run sample_smtp_penv now clock sample_low_credit_accounts).1 in
  let mails := (notifier_run sample_smtp_penv now clock sample_low_credit_accounts).2 in
  (forall id m,
     In (id, m) mails ->
     truthy_string (sample_smtp_penv !! "SMTP_HOST") = true /\
     exists u, In u sample_low_credit_accounts /\ User.id u = id /\
               low_credit_due now u = true /\
               User.email u = Some (mail_to m) /\ mail_to m <> "") /\
  (truthy_string (sample_smtp_penv !! "SMTP_HOST") = true ->
   forall u e,
     In u sample_low_credit_accounts -> low_credit_due now u = true ->
     User.email u = Some e -> e <> "" ->
     exists m, In (User.id u, m) mails /\ mail_to m = e) /\
  accounts' =
    List.map (fun u => if low_credit_due now u then stamp (clock (User.id u)) u else u)
      sample_low_credit_accounts /\
  (forall now2 clock2 id m,
     now2 - 7 * 24 * 60 * 60 * 1000 <= now ->
     In (id, m) (notifier_run sample_smtp_penv now2 clock2 accounts').2 ->
     forall u, In u sample_low_credit_accounts -> User.id u = id ->
               low_credit_due now u = false).
Proof.
  apply (low_credit_notifier_weekly sample_smtp_penv 1700000000000
           (fun _ : Z => 1700000000005) sample_low_credit_accounts).
  - vm_compute. repeat constructor; rewrite ?list_elem_of_In; simpl; intuition discriminate.
  - intros id. lia.
Defined.
